(** * Budget and accounts-payable rules of the [presupuestos] application

    A shallow embedding of the decision logic of [presupuestos/models.py],
    [presupuestos/forms.py] and [presupuestos/views.py]: the stored tables
    are lists of records, a view is a function from the tables and the
    request to the new tables, the flashed messages and the response.

    Conventions of the embedding:
    - text is a [string], one [ascii] per character (its code point);
      [Lower] and the [__iexact] lookups fold the letters A-Z only;
    - a [DateField] value is the ordinal of its day, [date.today()] is the
      explicit argument [hoy];
    - a [DecimalField(max_digits=12, decimal_places=2)] value is the integer
      number of its hundredths ([Decimal]); an [IntegerField] is a [Z];
      the amount of a transaction is held to the twelve digits of its
      column wherever the code validates or converts it ([MONTO_MAX]), the
      other amounts are taken within the capacity of their columns;
    - the length of a text column is checked where a form or [full_clean]
      validates it, not by the store;
    - the literal texts written to a row are spelled without their accents;
    - a user-facing message is a constructor of [Mensaje], the source text
      being quoted next to it. *)

From Stdlib Require Import Ascii.
From stdpp Require Import base decidable option list list_numbers gmap strings pretty.

Open Scope Z_scope.

(** ** Text *)

Definition ascii_lower (c : ascii) : ascii :=
  let n := nat_of_ascii c in
  if ((65 <=? n) && (n <=? 90))%nat then ascii_of_nat (n + 32) else c.

(** [Lower('nombre')] of the unique constraint, also the folding used by
    the [__iexact] lookups. *)
Fixpoint Lower (s : string) : string :=
  match s with
  | EmptyString => EmptyString
  | String c r => String (ascii_lower c) (Lower r)
  end.

Definition iexact (a b : string) : bool := bool_decide (Lower a = Lower b).

Definition len (s : string) : nat := String.length s.

(** ** Decimal amounts, in hundredths *)

Definition Decimal := Z.

Definition Decimal_of_int (n : Z) : Decimal := 100 * n.

(** [aggregate(Sum('monto'))['monto__sum'] or 0]: the sum, 0 over no row. *)
Definition Sum (l : list Z) : Z := foldr Z.add 0 l.

(** ** The models *)

(** Auto-filled [DateTimeField] stamps, which no rule reads, are left out of
    the records. *)
Record User := {
  user_id : nat;
  username : string;
  email : string;
  first_name : string;
  last_name : string
}.

Inductive EstadoPresupuesto := abierto | cerrado.
Inductive Periodo := Mensual | Trimestral | Semestral | Anual.

Record Presupuesto := {
  pres_id : nat;
  pres_nombre : string;
  pres_descripcion : option string;
  pres_creado_por : nat;
  pres_fecha_creacion : Z;
  pres_fecha_limite : Z;
  pres_estado : EstadoPresupuesto;
  pres_periodo : Periodo
}.

Record ItemPresupuesto := {
  item_id : nat;
  item_presupuesto : nat;
  item_nombre : string;
  item_descripcion : string;
  item_monto : Z
}.

Record Transaccion := {
  trans_id : nat;
  trans_presupuesto : nat;
  trans_item_presupuesto : nat;
  trans_monto : Decimal;
  trans_metodo_pago : string;
  trans_referencia : string;
  trans_fecha_pago : Z;
  trans_observaciones : string;
  trans_usuario : option nat
}.

Inductive EstadoCuenta := pendiente | pagado | anulado.

Record CuentaPorPagar := {
  cuenta_id : nat;
  numero_factura : string;
  nombre_proveedor : string;
  rut_proveedor : string;
  cuenta_descripcion : string;
  cuenta_monto : Z;
  fecha_emision : Z;
  cuenta_fecha_creacion : Z;
  cuenta_fecha_limite : Z;
  cuenta_fecha_pago : option Z;
  cuenta_estado : EstadoCuenta;
  cuenta_observaciones : string
}.

Record HistorialPago := {
  hist_id : nat;
  hist_cuenta : nat;
  monto_pagado : Decimal;
  hist_metodo_pago : string;
  hist_referencia : string;
  hist_observaciones : string;
  hist_usuario : nat;
  hist_estado : EstadoCuenta
}.

#[global] Instance EstadoPresupuesto_eq_dec : EqDecision EstadoPresupuesto.
Proof. solve_decision. Defined.
#[global] Instance EstadoCuenta_eq_dec : EqDecision EstadoCuenta.
Proof. solve_decision. Defined.
#[global] Instance Periodo_eq_dec : EqDecision Periodo.
Proof. solve_decision. Defined.

(** The tables, each in primary-key order. *)
Record DB := {
  usuarios : list User;
  presupuestos : list Presupuesto;
  items : list ItemPresupuesto;
  transacciones : list Transaccion;
  cuentas : list CuentaPorPagar;
  historial_pagos : list HistorialPago
}.

(** The key an insert gives a new row. *)
Definition nuevo_id (ids : list nat) : nat := S (max_list ids).

(** ** [CuentaPorPagar]: derived values *)

Inductive Color := gray | red | orange | green.

Definition puede_modificar_cuenta (c : CuentaPorPagar) : bool :=
  bool_decide (cuenta_estado c = pendiente).

(** [CuentaPorPagar.dias_restantes]; [None] is Python's [None]. *)
Definition dias_restantes (hoy : Z) (c : CuentaPorPagar) : option Z :=
  if bool_decide (cuenta_estado c ∈ [pagado; anulado]) then None
  else
    let dias := cuenta_fecha_limite c - hoy in
    Some dias.

(** [CuentaPorPagar.get_color_estado]. *)
Definition get_color_estado (hoy : Z) (c : CuentaPorPagar) : Color :=
  match dias_restantes hoy c with
  | None => gray
  | Some dias =>
      if bool_decide (cuenta_estado c ∈ [pagado; anulado]) then gray
      else if dias <? 0 then red
      else if dias <=? 1 then red
      else if dias <=? 5 then orange
      else green
  end.

(** [CuentaPorPagar.get_estado_display_color]. *)
Definition get_estado_display_color (hoy : Z) (c : CuentaPorPagar) : Color :=
  match cuenta_estado c with
  | pagado => green
  | anulado => gray
  | pendiente => get_color_estado hoy c
  end.

(** ** Exceptions, messages and responses *)

Inductive Excepcion :=
  | DoesNotExist
  | MultipleObjectsReturned
  | Http404
  | IntegrityError
  | ValidationError
  | ValueError
  | AttributeError
  | InvalidOperation.

Inductive resultado (A : Type) :=
  | Ok (a : A)
  | Raise (e : Excepcion).
Arguments Ok {A} a.
Arguments Raise {A} e.

Inductive Campo :=
  | campo_nombre
  | campo_creado_por
  | campo_fecha_limite
  | campo_item_presupuesto
  | campo_metodo_pago
  | campo_fecha_pago
  | campo_numero_factura
  | campo_nombre_proveedor
  | campo_rut_proveedor
  | campo_monto
  | campo_referencia.

(** The validation errors of the forms and of the model fields. *)
Inductive ErrorCampo :=
  | required                 (* blank value of a field without blank=True *)
  | max_length               (* longer than the field's max_length *)
  | regex_no_coincide        (* RUT_VALIDATOR / NOMBRE_PROVEEDOR_VALIDATOR *)
  | min_value                (* MinValueValidator(1) *)
  | unique                   (* unique=True *)
  | invalid                  (* a value the field cannot parse *)
  | invalid_choice           (* a value outside the field's choices or queryset *)
  | nombre_obligatorio       (* 'El nombre del presupuesto es obligatorio.' *)
  | nombre_excede_50         (* 'El nombre no puede exceder los 50 caracteres.' *)
  | presupuesto_ya_existe    (* 'Ya existe un presupuesto con ese nombre.' *)
  | fecha_no_posterior       (* 'La fecha limite debe ser posterior al dia de hoy.' *)
  | proveedor_excede_100     (* 'El nombre del proveedor no puede exceder los 100 caracteres.' *)
  | rut_formato              (* 'El RUT debe tener el formato 12345678-9 (o 1234567-9)' *)
  | factura_ya_existe        (* 'Ya existe una cuenta con este numero de factura.' *)
  | factura_menos_de_50      (* 'El numero de factura debe tener menos de 50 caracteres.' *)
  | monto_mayor_a_0          (* 'El monto debe ser mayor a 0.' *)
  | max_digits.              (* DecimalValidator: more digits than the field holds *)

Inductive Mensaje :=
  | error_campo (c : Campo) (e : ErrorCampo)      (* f'{field}: {error}' *)
  | error_cuenta_no_modificable   (* 'No se puede registrar pago en una cuenta pagada o anulada' *)
  | success_pago_factura (numero : string)        (* f'Pago registrado exitosamente para la factura {numero}' *)
  | error_al_registrar_pago (e : Excepcion)       (* f'Error al registrar pago: {str(e)}' *)
  | error_solo_pendientes         (* 'Solo se pueden anular cuentas pendientes' *)
  | success_cuenta_anulada        (* 'Cuenta anulada exitosamente' *)
  | error_metodo_no_permitido     (* 'Metodo no permitido' *)
  | success_cuenta_creada (numero : string)       (* f'Cuenta por pagar {numero} creada exitosamente.' *)
  | success_presupuesto_creado (nombre : string)  (* f'Presupuesto {nombre} creado exitosamente.' *)
  | error_sin_destino             (* 'Debe seleccionar un presupuesto destino' *)
  | error_destino_cerrado         (* 'No se pueden copiar items a un presupuesto cerrado' *)
  | error_sin_items               (* 'Debe seleccionar al menos un item para copiar' *)
  | success_items_copiados (n : nat) (destino : string)   (* f'Se copiaron {n} items al presupuesto {destino}' *)
  | error_nombre_requerido        (* 'El nombre del nuevo presupuesto es requerido' *)
  | success_presupuesto_copiado (n : nat)         (* f'Presupuesto copiado exitosamente. Se copiaron {n} items.' *)
  | error_faltan_campos           (* 'Faltan campos requeridos' *)
  | error_monto_negativo          (* 'El monto no puede ser negativo' *)
  | error_solo_cerrados           (* 'Solo puede asignar pagos a presupuestos CERRADOS' *)
  | success_pago_item (item : string)             (* f'Pago registrado exitosamente en {item}' *)
  | error_monto_no_numerico       (* 'El monto debe ser un numero valido' *)
  | error_transaccion_abierto     (* 'Solo se pueden registrar transacciones en presupuestos cerrados' *)
  | success_transaccion           (* 'Transaccion registrada exitosamente' *)
  | error_no_cerrado (nombre : string)            (* f'El presupuesto {nombre} no esta cerrado. Solo se pueden comparar ...' *)
  | error_excepcion (e : Excepcion).              (* str(e) *)

(** One entry of ['items'] in the comparison payload. *)
Record ItemDetalle := {
  det_nombre : string;
  presupuestado : Decimal;
  ejecutado : Decimal;
  diferencia : Decimal
}.

Record DatosComparacion := {
  datos_items : list ItemDetalle;
  presupuesto_nombre : string
}.

Inductive HttpResponse :=
  | redirect (url : string) (pk : option nat)
  | render (template : string)
  | JsonResponse (success : bool) (m : Mensaje) (status : nat)
  | JsonError (m : Mensaje) (status : nat)          (* {'error': ...} *)
  | JsonDatos (d : DatosComparacion) (status : nat)
  | no_encontrado                                   (* get_object_or_404 raised *)
  | excepcion_no_capturada (e : Excepcion).         (* an exception leaves the view *)

Inductive Metodo := GET | POST.

Record HttpRequest := {
  method : Metodo;
  user : option User;          (* request.user when is_authenticated *)
  XMLHttpRequest : bool        (* X-Requested-With == 'XMLHttpRequest' *)
}.

Record Resultado := {
  db_final : DB;
  mensajes : list Mensaje;
  respuesta : HttpResponse
}.

#[global] Instance Excepcion_eq_dec : EqDecision Excepcion.
Proof. solve_decision. Defined.
#[global] Instance Campo_eq_dec : EqDecision Campo.
Proof. solve_decision. Defined.
#[global] Instance ErrorCampo_eq_dec : EqDecision ErrorCampo.
Proof. solve_decision. Defined.

(** ** Acting user *)

Definition get_current_user (request : HttpRequest) : option User :=
  user request.

(** [User.objects.first()]: the first row, [None] on an empty table; it
    raises nothing. *)
Definition User_objects_first (db : DB) : resultado (option User) :=
  Ok (head (usuarios db)).

Definition User_objects_get (db : DB) (name : string) : resultado User :=
  match filter (λ u, username u = name) (usuarios db) with
  | [] => Raise DoesNotExist
  | [u] => Ok u
  | _ => Raise MultipleObjectsReturned
  end.

Definition set_usuarios (db : DB) (us : list User) : DB :=
  {| usuarios := us; presupuestos := presupuestos db; items := items db;
     transacciones := transacciones db; cuentas := cuentas db;
     historial_pagos := historial_pagos db |}.

Definition User_objects_create_user (db : DB) (name mail first last : string)
  : DB * User :=
  let u := {| user_id := nuevo_id (user_id <$> usuarios db); username := name;
              email := mail; first_name := first; last_name := last |} in
  (set_usuarios db (usuarios db ++ [u]), u).

(** [get_or_create_default_user]: the [try] around [first()], its handler
    with the lookup of 'sistema_default' and the creation on
    [User.DoesNotExist]. *)
Definition get_or_create_default_user (db : DB) : DB * resultado (option User) :=
  match User_objects_first db with
  | Ok u => (db, Ok u)
  | Raise _ =>
      match User_objects_get db "sistema_default" with
      | Ok u => (db, Ok (Some u))
      | Raise DoesNotExist =>
          let '(db', u) :=
            User_objects_create_user db "sistema_default" "sistema@example.com"
              "Usuario" "Sistema" in
          (db', Ok (Some u))
      | Raise e => (db, Raise e)
      end
  end.

(** ** [CuentaPorPagar]: validation *)

Definition entre (lo hi : nat) (c : ascii) : bool :=
  let n := nat_of_ascii c in ((lo <=? n) && (n <=? hi))%nat.

Definition es_digito : ascii → bool := entre 48 57.

Definition es_verificador (c : ascii) : bool :=
  es_digito c || bool_decide (c = "k"%char) || bool_decide (c = "K"%char).

(** The leading run of digits: its length and what follows it. *)
Fixpoint digitos (cs : list ascii) : nat * list ascii :=
  match cs with
  | c :: r =>
      if es_digito c then let '(n, resto) := digitos r in (S n, resto)
      else (0%nat, cs)
  | [] => (0%nat, [])
  end.

(** [r'^[0-9]{7,8}-[0-9kK]{1}$']; the final [$] also matches before one
    closing line feed. *)
Definition RUT_VALIDATOR (s : string) : bool :=
  let '(n, resto) := digitos (String.list_ascii_of_string s) in
  (bool_decide (n = 7%nat) || bool_decide (n = 8%nat)) &&
  match resto with
  | [g; v] => bool_decide (g = "-"%char) && es_verificador v
  | [g; v; nl] =>
      bool_decide (g = "-"%char) && es_verificador v &&
      bool_decide (nl = ascii_of_nat 10)
  | _ => false
  end.

(** The class of [NOMBRE_PROVEEDOR_VALIDATOR]: ASCII letters and digits,
    the accented vowels and the letter with tilde (code points 193, 201,
    205, 209, 211, 218, 225, 233, 237, 241, 243, 250), the white space
    of [\s], the period and the hyphen. *)
Definition clase_proveedor (c : ascii) : bool :=
  let n := nat_of_ascii c in
  entre 97 122 c || entre 65 90 c || es_digito c ||
  bool_decide (n ∈ [225; 233; 237; 243; 250; 193; 201; 205; 211; 218; 241; 209]%nat) ||
  entre 9 13 c || entre 28 32 c || bool_decide (n ∈ [133; 160]%nat) ||
  bool_decide (c = "."%char) || bool_decide (c = "-"%char).

(** [r'^[a-zA-Z0-9...\s\.\-]+$']: one character or more, all of the class. *)
Definition NOMBRE_PROVEEDOR_VALIDATOR (s : string) : bool :=
  match String.list_ascii_of_string s with
  | [] => false
  | cs => forallb clase_proveedor cs
  end.

Definition si (b : bool) (c : Campo) (e : ErrorCampo) : list (Campo * ErrorCampo) :=
  if b then [(c, e)] else [].

(** [Model.clean_fields(exclude)]: per field, the blank check, the length
    bound and the declared validators. *)
Definition clean_fields (exclude : list Campo) (c : CuentaPorPagar)
  : list (Campo * ErrorCampo) :=
  let campo (f : Campo) (errs : list (Campo * ErrorCampo)) :=
    if bool_decide (f ∈ exclude) then [] else errs in
  campo campo_numero_factura
    (if bool_decide (numero_factura c = "") then [(campo_numero_factura, required)]
     else si (50 <? len (numero_factura c))%nat campo_numero_factura max_length) ++
  campo campo_nombre_proveedor
    (if bool_decide (nombre_proveedor c = "") then [(campo_nombre_proveedor, required)]
     else si (100 <? len (nombre_proveedor c))%nat campo_nombre_proveedor max_length ++
          si (negb (NOMBRE_PROVEEDOR_VALIDATOR (nombre_proveedor c)))
             campo_nombre_proveedor regex_no_coincide) ++
  campo campo_rut_proveedor
    (if bool_decide (rut_proveedor c = "") then [(campo_rut_proveedor, required)]
     else si (12 <? len (rut_proveedor c))%nat campo_rut_proveedor max_length ++
          si (negb (RUT_VALIDATOR (rut_proveedor c)))
             campo_rut_proveedor regex_no_coincide) ++
  campo campo_monto (si (cuenta_monto c <? 1) campo_monto min_value).

(** [CuentaPorPagar.clean]. *)
Definition clean (c : CuentaPorPagar) : list (Campo * ErrorCampo) :=
  if (50 <=? len (numero_factura c))%nat
  then [(campo_numero_factura, factura_menos_de_50)]
  else [].

(** [Model.validate_unique(exclude)] for [unique=True] of the invoice
    number: another row (another primary key) with the same number. *)
Definition validate_unique (db : DB) (exclude : list Campo) (c : CuentaPorPagar)
  : list (Campo * ErrorCampo) :=
  if bool_decide (campo_numero_factura ∈ exclude) then []
  else
    si (existsb (λ o, bool_decide (numero_factura o = numero_factura c) &&
                      negb (bool_decide (cuenta_id o = cuenta_id c)))
                (cuentas db))
       campo_numero_factura unique.

Definition full_clean (db : DB) (exclude : list Campo) (c : CuentaPorPagar)
  : list (Campo * ErrorCampo) :=
  clean_fields exclude c ++ clean c ++ validate_unique db exclude c.

Definition set_cuentas (db : DB) (cs : list CuentaPorPagar) : DB :=
  {| usuarios := usuarios db; presupuestos := presupuestos db; items := items db;
     transacciones := transacciones db; cuentas := cs;
     historial_pagos := historial_pagos db |}.

Definition set_historial (db : DB) (hs : list HistorialPago) : DB :=
  {| usuarios := usuarios db; presupuestos := presupuestos db; items := items db;
     transacciones := transacciones db; cuentas := cuentas db;
     historial_pagos := hs |}.

(** [CuentaPorPagar.save]: [full_clean()], then the row is written: an
    update when the key is stored, an insert otherwise. *)
Definition CuentaPorPagar_save (db : DB) (c : CuentaPorPagar) : resultado DB :=
  match full_clean db [] c with
  | [] =>
      if existsb (λ o, bool_decide (cuenta_id o = cuenta_id c)) (cuentas db)
      then Ok (set_cuentas db
                 ((λ o, if bool_decide (cuenta_id o = cuenta_id c) then c else o)
                    <$> cuentas db))
      else Ok (set_cuentas db (cuentas db ++ [c]))
  | _ => Raise ValidationError
  end.

(** The posted fields of [CuentaPorPagarForm], as the form fields deliver
    them (trimmed text, parsed numbers and dates). *)
Record CuentaPorPagarPOST := {
  post_numero_factura : string;
  post_nombre_proveedor : string;
  post_rut_proveedor : string;
  post_fecha_emision : Z;
  post_descripcion : string;
  post_monto : Z;
  post_fecha_limite : Z;
  post_observaciones : string
}.

(** The form-level pass: the field's own checks, then its [clean_<field>]. *)
Definition clean_numero_factura (db : DB) (v : string) : list (Campo * ErrorCampo) :=
  si (existsb (λ o, iexact (numero_factura o) v) (cuentas db))
     campo_numero_factura factura_ya_existe.

Definition clean_nombre_proveedor (v : string) : list (Campo * ErrorCampo) :=
  si (100 <? len v)%nat campo_nombre_proveedor proveedor_excede_100.

Definition clean_rut_proveedor (v : string) : list (Campo * ErrorCampo) :=
  si (negb (RUT_VALIDATOR v)) campo_rut_proveedor rut_formato.

(** [if monto and monto <= Decimal('0')]: a zero amount is falsy. *)
Definition CuentaPorPagarForm_clean_monto (v : Z) : list (Campo * ErrorCampo) :=
  si (negb (v =? 0) && (v <=? 0)) campo_monto monto_mayor_a_0.

Definition campo_texto (f : Campo) (maxlen : nat) (v : string)
  (clean_campo : list (Campo * ErrorCampo)) : list (Campo * ErrorCampo) :=
  if bool_decide (v = "") then [(f, required)]
  else if (maxlen <? len v)%nat then [(f, max_length)]
  else clean_campo.

Definition CuentaPorPagarForm_clean (db : DB) (d : CuentaPorPagarPOST)
  : list (Campo * ErrorCampo) :=
  campo_texto campo_numero_factura 50 (post_numero_factura d)
    (clean_numero_factura db (post_numero_factura d)) ++
  campo_texto campo_nombre_proveedor 100 (post_nombre_proveedor d)
    (clean_nombre_proveedor (post_nombre_proveedor d)) ++
  campo_texto campo_rut_proveedor 12 (post_rut_proveedor d)
    (clean_rut_proveedor (post_rut_proveedor d)) ++
  CuentaPorPagarForm_clean_monto (post_monto d).

(** The instance the form builds: a field that failed keeps its default. *)
Definition construct_instance (hoy : Z) (db : DB) (failed : list Campo)
  (d : CuentaPorPagarPOST) : CuentaPorPagar :=
  let txt (f : Campo) (v : string) := if bool_decide (f ∈ failed) then "" else v in
  {| cuenta_id := nuevo_id (cuenta_id <$> cuentas db);
     numero_factura := txt campo_numero_factura (post_numero_factura d);
     nombre_proveedor := txt campo_nombre_proveedor (post_nombre_proveedor d);
     rut_proveedor := txt campo_rut_proveedor (post_rut_proveedor d);
     cuenta_descripcion := post_descripcion d;
     cuenta_monto := post_monto d;
     fecha_emision := post_fecha_emision d;
     cuenta_fecha_creacion := hoy;
     cuenta_fecha_limite := post_fecha_limite d;
     cuenta_fecha_pago := None;
     cuenta_estado := pendiente;
     cuenta_observaciones := post_observaciones d |}.

(** [form.errors]: the form pass, then the model's [full_clean] on the
    built instance without the fields that already failed. *)
Definition CuentaPorPagarForm_errors (hoy : Z) (db : DB) (d : CuentaPorPagarPOST)
  : list (Campo * ErrorCampo) :=
  let errs := CuentaPorPagarForm_clean db d in
  let failed := fst <$> errs in
  errs ++ full_clean db failed (construct_instance hoy db failed d).

Definition CuentaPorPagarForm_is_valid (hoy : Z) (db : DB) (d : CuentaPorPagarPOST) : bool :=
  bool_decide (CuentaPorPagarForm_errors hoy db d = []).

(** [crear_cuenta_por_pagar]. *)
Definition crear_cuenta_por_pagar (hoy : Z) (db : DB) (request : HttpRequest)
  (d : CuentaPorPagarPOST) : Resultado :=
  match method request with
  | POST =>
      if CuentaPorPagarForm_is_valid hoy db d then
        let cuenta := construct_instance hoy db [] d in
        match CuentaPorPagar_save db cuenta with
        | Ok db' =>
            {| db_final := db';
               mensajes := [success_cuenta_creada (numero_factura cuenta)];
               respuesta := redirect "presupuestos:lista_cuentas" None |}
        | Raise e =>
            {| db_final := db; mensajes := [];
               respuesta := excepcion_no_capturada e |}
        end
      else
        {| db_final := db;
           mensajes := (λ fe, error_campo fe.1 fe.2) <$> CuentaPorPagarForm_errors hoy db d;
           respuesta := render "presupuestos/cuentas_por_pagar/crear.html" |}
  | GET =>
      {| db_final := db; mensajes := [];
         respuesta := render "presupuestos/cuentas_por_pagar/crear.html" |}
  end.

(** ** Payment and annulment of a payable *)

Definition get_cuenta (db : DB) (pk : nat) : option CuentaPorPagar :=
  head (filter (λ c, cuenta_id c = pk) (cuentas db)).

(** [HistorialPago.objects.create(...)]: [usuario] is a required foreign
    key, a row without it is refused by the store. *)
Definition HistorialPago_objects_create (db : DB) (cuenta : CuentaPorPagar)
  (monto : Decimal) (metodo referencia observaciones : string)
  (usuario : option User) (estado : EstadoCuenta) : resultado DB :=
  match usuario with
  | None => Raise IntegrityError
  | Some u =>
      Ok (set_historial db
            (historial_pagos db ++
             [{| hist_id := nuevo_id (hist_id <$> historial_pagos db);
                 hist_cuenta := cuenta_id cuenta;
                 monto_pagado := monto;
                 hist_metodo_pago := metodo;
                 hist_referencia := referencia;
                 hist_observaciones := observaciones;
                 hist_usuario := user_id u;
                 hist_estado := estado |}]))
  end.

Definition con_estado (c : CuentaPorPagar) (e : EstadoCuenta) (pago : option Z)
  : CuentaPorPagar :=
  {| cuenta_id := cuenta_id c; numero_factura := numero_factura c;
     nombre_proveedor := nombre_proveedor c; rut_proveedor := rut_proveedor c;
     cuenta_descripcion := cuenta_descripcion c; cuenta_monto := cuenta_monto c;
     fecha_emision := fecha_emision c;
     cuenta_fecha_creacion := cuenta_fecha_creacion c;
     cuenta_fecha_limite := cuenta_fecha_limite c;
     cuenta_fecha_pago := pago; cuenta_estado := e;
     cuenta_observaciones := cuenta_observaciones c |}.

(** The acting user of [registrar_pago] and [anular_cuenta]. *)
Definition usuario_registro (db : DB) (request : HttpRequest)
  : DB * resultado (option User) :=
  match get_current_user request with
  | Some u => (db, Ok (Some u))
  | None => get_or_create_default_user db
  end.

(** [registrar_pago]; what was written before an exception stays written. *)
Definition registrar_pago (hoy : Z) (db : DB) (request : HttpRequest) (pk : nat)
  : Resultado :=
  match get_cuenta db pk with
  | None => {| db_final := db; mensajes := []; respuesta := no_encontrado |}
  | Some cuenta =>
      if negb (puede_modificar_cuenta cuenta) then
        if XMLHttpRequest request then
          {| db_final := db; mensajes := [];
             respuesta := JsonResponse false error_cuenta_no_modificable 200 |}
        else
          {| db_final := db; mensajes := [error_cuenta_no_modificable];
             respuesta := redirect "presupuestos:detalle_cuenta" (Some pk) |}
      else
        match method request with
        | POST =>
            let except (db' : DB) (e : Excepcion) :=
              if XMLHttpRequest request then
                {| db_final := db'; mensajes := [];
                   respuesta := JsonResponse false (error_excepcion e) 200 |}
              else
                {| db_final := db'; mensajes := [error_al_registrar_pago e];
                   respuesta := redirect "presupuestos:detalle_cuenta" (Some pk) |} in
            let '(db1, u) := usuario_registro db request in
            match u with
            | Raise e => except db1 e
            | Ok u =>
                match HistorialPago_objects_create db1 cuenta
                        (Decimal_of_int (cuenta_monto cuenta)) "otros"
                        "PAGO_REGISTRADO" "Pago registrado mediante confirmacion"
                        u pagado with
                | Raise e => except db1 e
                | Ok db2 =>
                    match CuentaPorPagar_save db2 (con_estado cuenta pagado (Some hoy)) with
                    | Raise e => except db2 e
                    | Ok db3 =>
                        if XMLHttpRequest request then
                          {| db_final := db3; mensajes := [];
                             respuesta :=
                               JsonResponse true
                                 (success_pago_factura (numero_factura cuenta)) 200 |}
                        else
                          {| db_final := db3;
                             mensajes := [success_pago_factura (numero_factura cuenta)];
                             respuesta := redirect "presupuestos:lista_cuentas" None |}
                    end
                end
            end
        | GET =>
            {| db_final := db; mensajes := [];
               respuesta := render "presupuestos/cuentas_por_pagar/registrar_pago.html" |}
        end
  end.

(** [anular_cuenta]; it has no [try], an exception leaves the view. *)
Definition anular_cuenta (db : DB) (request : HttpRequest) (pk : nat)
  (observaciones : option string) : Resultado :=
  match get_cuenta db pk with
  | None => {| db_final := db; mensajes := []; respuesta := no_encontrado |}
  | Some cuenta =>
      match method request with
      | POST =>
          if negb (bool_decide (cuenta_estado cuenta = pendiente)) then
            {| db_final := db; mensajes := [];
               respuesta := JsonResponse false error_solo_pendientes 400 |}
          else
            let '(db1, u) := usuario_registro db request in
            match u with
            | Raise e =>
                {| db_final := db1; mensajes := []; respuesta := excepcion_no_capturada e |}
            | Ok u =>
                match HistorialPago_objects_create db1 cuenta 0 "anulacion" "ANULACION"
                        (default "Cuenta anulada" observaciones) u anulado with
                | Raise e =>
                    {| db_final := db1; mensajes := [];
                       respuesta := excepcion_no_capturada e |}
                | Ok db2 =>
                    match CuentaPorPagar_save db2
                            (con_estado cuenta anulado (cuenta_fecha_pago cuenta)) with
                    | Raise e =>
                        {| db_final := db2; mensajes := [];
                           respuesta := excepcion_no_capturada e |}
                    | Ok db3 =>
                        {| db_final := db3; mensajes := [];
                           respuesta := JsonResponse true success_cuenta_anulada 200 |}
                    end
                end
            end
      | GET =>
          {| db_final := db; mensajes := [];
             respuesta := JsonResponse false error_metodo_no_permitido 405 |}
      end
  end.

(** ** [Presupuesto] and [ItemPresupuesto]: derived values *)

Definition items_de (db : DB) (pk : nat) : list ItemPresupuesto :=
  filter (λ i, item_presupuesto i = pk) (items db).

(** [Presupuesto.total]. *)
Definition total (db : DB) (p : Presupuesto) : Z :=
  Sum (item_monto <$> items_de db (pres_id p)).

(** [Presupuesto.total_transacciones]. *)
Definition total_transacciones (db : DB) (p : Presupuesto) : Decimal :=
  Sum (trans_monto <$> filter (λ t, trans_presupuesto t = pres_id p) (transacciones db)).

Definition puede_modificar (p : Presupuesto) : bool :=
  bool_decide (pres_estado p = abierto).

(** [ItemPresupuesto.total_transacciones]. *)
Definition item_total_transacciones (db : DB) (i : ItemPresupuesto) : Decimal :=
  Sum (trans_monto <$> filter (λ t, trans_item_presupuesto t = item_id i) (transacciones db)).

(** [saldo_disponible = item.monto - total_ejecutado]
    ([detalle_transaccion_completa], [api_items_presupuesto]). *)
Definition saldo_disponible (db : DB) (i : ItemPresupuesto) : Decimal :=
  Decimal_of_int (item_monto i) - item_total_transacciones db i.

Definition get_presupuesto (db : DB) (pk : nat) : option Presupuesto :=
  head (filter (λ p, pres_id p = pk) (presupuestos db)).

Definition get_item (db : DB) (pk : nat) : option ItemPresupuesto :=
  head (filter (λ i, item_id i = pk) (items db)).

Definition set_presupuestos (db : DB) (ps : list Presupuesto) : DB :=
  {| usuarios := usuarios db; presupuestos := ps; items := items db;
     transacciones := transacciones db; cuentas := cuentas db;
     historial_pagos := historial_pagos db |}.

Definition set_items (db : DB) (l : list ItemPresupuesto) : DB :=
  {| usuarios := usuarios db; presupuestos := presupuestos db; items := l;
     transacciones := transacciones db; cuentas := cuentas db;
     historial_pagos := historial_pagos db |}.

Definition set_transacciones (db : DB) (l : list Transaccion) : DB :=
  {| usuarios := usuarios db; presupuestos := presupuestos db; items := items db;
     transacciones := l; cuentas := cuentas db;
     historial_pagos := historial_pagos db |}.

(** ** Creating a budget through [PresupuestoForm] *)

Definition es_espacio (c : ascii) : bool :=
  entre 9 13 c || entre 28 32 c || bool_decide (nat_of_ascii c ∈ [133; 160]%nat).

Fixpoint lstrip (cs : list ascii) : list ascii :=
  match cs with
  | c :: r => if es_espacio c then lstrip r else cs
  | [] => []
  end.

(** [str.strip()]. *)
Definition strip (s : string) : string :=
  String.string_of_list_ascii
    (rev (lstrip (rev (lstrip (String.list_ascii_of_string s))))).

Record PresupuestoPOST := {
  post_nombre : string;
  post_creado_por : nat;
  post_pres_fecha_limite : Z;
  post_periodo : Periodo
}.

(** [PresupuestoForm.clean_nombre] of a new budget: the errors, or the
    trimmed name. *)
Definition clean_nombre (db : DB) (nombre : string) : list (Campo * ErrorCampo) + string :=
  if bool_decide (nombre = "") || bool_decide (strip nombre = "") then
    inl [(campo_nombre, nombre_obligatorio)]
  else
    let nombre := strip nombre in
    if (50 <? len nombre)%nat then inl [(campo_nombre, nombre_excede_50)]
    else if existsb (λ p, iexact (pres_nombre p) nombre) (presupuestos db)
    then inl [(campo_nombre, presupuesto_ya_existe)]
    else inr nombre.

(** [PresupuestoForm.clean_fecha_limite]. *)
Definition clean_fecha_limite (hoy : Z) (fecha_limite : Z) : list (Campo * ErrorCampo) :=
  si (fecha_limite <=? hoy) campo_fecha_limite fecha_no_posterior.

Definition PresupuestoForm_errors (hoy : Z) (db : DB) (d : PresupuestoPOST)
  : list (Campo * ErrorCampo) :=
  (if bool_decide (post_nombre d = "") then [(campo_nombre, required)]
   else if (200 <? len (post_nombre d))%nat then [(campo_nombre, max_length)]
   else match clean_nombre db (post_nombre d) with inl e => e | inr _ => [] end) ++
  si (negb (existsb (λ u, bool_decide (user_id u = post_creado_por d)) (usuarios db)))
     campo_creado_por invalid_choice ++
  clean_fecha_limite hoy (post_pres_fecha_limite d).

(** [crear_presupuesto]. *)
Definition crear_presupuesto (hoy : Z) (db : DB) (request : HttpRequest)
  (d : PresupuestoPOST) : Resultado :=
  match method request with
  | POST =>
      match PresupuestoForm_errors hoy db d, clean_nombre db (post_nombre d) with
      | [], inr nombre =>
          let presupuesto :=
            {| pres_id := nuevo_id (pres_id <$> presupuestos db);
               pres_nombre := nombre; pres_descripcion := None;
               pres_creado_por := post_creado_por d;
               pres_fecha_creacion := hoy;
               pres_fecha_limite := post_pres_fecha_limite d;
               pres_estado := abierto; pres_periodo := post_periodo d |} in
          {| db_final := set_presupuestos db (presupuestos db ++ [presupuesto]);
             mensajes := [success_presupuesto_creado nombre];
             respuesta := redirect "presupuestos:lista" None |}
      | errs, _ =>
          {| db_final := db;
             mensajes := (λ fe, error_campo fe.1 fe.2) <$> errs;
             respuesta := render "presupuestos/crear.html" |}
      end
  | GET =>
      {| db_final := db; mensajes := []; respuesta := render "presupuestos/crear.html" |}
  end.

(** ** Copying line items *)

(** [f"{nombre} ({contador})"]. *)
Definition con_sufijo (nombre : string) (contador : nat) : string :=
  nombre +:+ " (" +:+ pretty contador +:+ ")".

(** The [while nombre_final in nombres_existentes] loop, one test of the
    condition per unit of [fuel]; [None] when the fuel ends first. *)
Fixpoint nombre_unico_loop (fuel : nat) (nombre : string) (existentes : gset string)
  (nombre_final : string) (contador : nat) : option string :=
  match fuel with
  | O => None
  | S fuel =>
      if bool_decide (nombre_final ∈ existentes)
      then nombre_unico_loop fuel nombre existentes (con_sufijo nombre contador) (S contador)
      else Some nombre_final
  end.

(** The name the loop ends with, from [nombre_final = nombre] and
    [contador = 1]; one test more than the set has names is enough
    ([nombre_unico_loop_termina]). *)
Definition nombre_unico (nombre : string) (existentes : gset string) : string :=
  default nombre
    (nombre_unico_loop (S (size existentes)) nombre existentes nombre 1).

(** [ItemPresupuesto.objects.create(...)] under the constraint
    [UniqueConstraint(Lower('nombre'), 'presupuesto')]. *)
Definition ItemPresupuesto_objects_create (db : DB) (destino : nat)
  (nombre descripcion : string) (monto : Z) : resultado DB :=
  if existsb (λ i, bool_decide (item_presupuesto i = destino) &&
                   bool_decide (Lower (item_nombre i) = Lower nombre)) (items db)
  then Raise IntegrityError
  else Ok (set_items db
             (items db ++
              [{| item_id := nuevo_id (item_id <$> items db);
                  item_presupuesto := destino; item_nombre := nombre;
                  item_descripcion := descripcion; item_monto := monto |}])).

(** [ItemPresupuesto.objects.get(id=item_id, presupuesto=presupuesto_origen)]. *)
Definition get_item_de (db : DB) (item : nat) (origen : nat) : resultado ItemPresupuesto :=
  match filter (λ i, item_id i = item ∧ item_presupuesto i = origen) (items db) with
  | [] => Raise DoesNotExist
  | i :: _ => Ok i
  end.

(** The body of the [for item_id in items_seleccionados] loop of
    [copiar_items]: the tables and the counter after one selected item. *)
Definition copiar_item (origen destino : nat) (st : DB * nat) (item : nat) : DB * nat :=
  let '(db, items_copiados) := st in
  match get_item_de db item origen with
  | Raise _ => (db, items_copiados)                      (* except DoesNotExist: continue *)
  | Ok item_original =>
      let nombres_existentes : gset string :=
        list_to_set (item_nombre <$> items_de db destino) in
      let nombre_final := nombre_unico (item_nombre item_original) nombres_existentes in
      match ItemPresupuesto_objects_create db destino nombre_final
              (item_descripcion item_original) (item_monto item_original) with
      | Raise _ => (db, items_copiados)                  (* except IntegrityError: continue *)
      | Ok db' => (db', S items_copiados)
      end
  end.

(** [copiar_items]. *)
Definition copiar_items (db : DB) (request : HttpRequest) (pk : nat)
  (presupuesto_destino : option nat) (items_seleccionados : list nat) : Resultado :=
  match get_presupuesto db pk with
  | None => {| db_final := db; mensajes := []; respuesta := no_encontrado |}
  | Some presupuesto_origen =>
      match method request with
      | POST =>
          match presupuesto_destino with
          | None =>
              {| db_final := db; mensajes := [error_sin_destino];
                 respuesta := redirect "presupuestos:copiar_items" (Some pk) |}
          | Some destino_id =>
              match get_presupuesto db destino_id with
              | None => {| db_final := db; mensajes := []; respuesta := no_encontrado |}
              | Some destino =>
                  if negb (puede_modificar destino) then
                    {| db_final := db; mensajes := [error_destino_cerrado];
                       respuesta := redirect "presupuestos:copiar_items" (Some pk) |}
                  else
                    match items_seleccionados with
                    | [] =>
                        {| db_final := db; mensajes := [error_sin_items];
                           respuesta := redirect "presupuestos:copiar_items" (Some pk) |}
                    | _ =>
                        let '(db', items_copiados) :=
                          foldl (copiar_item (pres_id presupuesto_origen) (pres_id destino))
                                (db, 0%nat) items_seleccionados in
                        {| db_final := db';
                           mensajes := [success_items_copiados items_copiados
                                          (pres_nombre destino)];
                           respuesta := redirect "presupuestos:detalle"
                                          (Some (pres_id destino)) |}
                    end
              end
          end
      | GET =>
          {| db_final := db; mensajes := [];
             respuesta := render "presupuestos/copiar_items.html" |}
      end
  end.

(** ** Copying a whole budget *)

(** The [for item_original in presupuesto_original.items.all()] loop of
    [copiar_presupuesto]: no handler surrounds the insert, so the first
    exception ends the loop with the rows written so far. *)
Fixpoint copiar_todos (db : DB) (nuevo : nat) (nombres_existentes : gset string)
  (items_copiados : nat) (l : list ItemPresupuesto) : DB * nat * option Excepcion :=
  match l with
  | [] => (db, items_copiados, None)
  | item_original :: l =>
      let nombre_final := nombre_unico (item_nombre item_original) nombres_existentes in
      match ItemPresupuesto_objects_create db nuevo nombre_final
              (item_descripcion item_original) (item_monto item_original) with
      | Raise e => (db, items_copiados, Some e)
      | Ok db' =>
          copiar_todos db' nuevo ({[nombre_final]} ∪ nombres_existentes)
                       (S items_copiados) l
      end
  end.

(** [Presupuesto.objects.create(...)]: the model declares no constraint on
    [nombre], the row is inserted as given. *)
Definition Presupuesto_objects_create (hoy : Z) (db : DB) (nombre : string)
  (creado_por : nat) (periodo : Periodo) (fecha_limite : Z)
  (descripcion : option string) : DB * Presupuesto :=
  let p := {| pres_id := nuevo_id (pres_id <$> presupuestos db);
              pres_nombre := nombre; pres_descripcion := descripcion;
              pres_creado_por := creado_por; pres_fecha_creacion := hoy;
              pres_fecha_limite := fecha_limite; pres_estado := abierto;
              pres_periodo := periodo |} in
  (set_presupuestos db (presupuestos db ++ [p]), p).

(** [copiar_presupuesto]; [nombre] is [request.POST.get('nombre')]. *)
Definition copiar_presupuesto (hoy : Z) (db : DB) (request : HttpRequest) (pk : nat)
  (nombre : option string) : Resultado :=
  match get_presupuesto db pk with
  | None => {| db_final := db; mensajes := []; respuesta := no_encontrado |}
  | Some presupuesto_original =>
      match method request with
      | POST =>
          match nombre with
          | None | Some "" =>
              {| db_final := db; mensajes := [error_nombre_requerido];
                 respuesta := redirect "presupuestos:copiar_presupuesto" (Some pk) |}
          | Some nombre_nuevo =>
              let '(db1, nuevo_presupuesto) :=
                Presupuesto_objects_create hoy db nombre_nuevo
                  (pres_creado_por presupuesto_original)
                  (pres_periodo presupuesto_original)
                  (pres_fecha_limite presupuesto_original)
                  (pres_descripcion presupuesto_original) in
              match copiar_todos db1 (pres_id nuevo_presupuesto) ∅ 0
                      (items_de db1 (pres_id presupuesto_original)) with
              | (db2, _, Some e) =>
                  {| db_final := db2; mensajes := [];
                     respuesta := excepcion_no_capturada e |}
              | (db2, items_copiados, None) =>
                  {| db_final := db2;
                     mensajes := [success_presupuesto_copiado items_copiados];
                     respuesta := redirect "presupuestos:detalle"
                                    (Some (pres_id nuevo_presupuesto)) |}
              end
          end
      | GET =>
          {| db_final := db; mensajes := [];
             respuesta := render "presupuestos/copiar_presupuesto.html" |}
      end
  end.

(** ** Posting transactions *)

(** The posted [monto] text: empty, a text [float()] rejects, or a decimal
    numeral of at most two decimals, kept as its number of hundredths (the
    amount input steps by 0.01); numerals written with more decimals are
    outside the embedding. *)
Inductive monto_post :=
  | monto_vacio
  | monto_no_numerico
  | monto_decimal (centesimas : Decimal).

Record TransaccionPOST := {
  post_item_presupuesto : option nat;
  post_trans_monto : monto_post;
  post_fecha_pago : option Z;
  post_metodo_pago : string;            (* the empty text when not posted *)
  post_referencia : string;
  post_trans_observaciones : string
}.

(** [DecimalField(max_digits=12, decimal_places=2)]: twelve digits, two of
    them decimals, so less than [10^12] hundredths in absolute value. *)
Definition MONTO_MAX : Decimal := 10 ^ 12.

Definition monto_en_rango (monto : Decimal) : bool := Z.abs monto <? MONTO_MAX.

(** [Transaccion.objects.create(...)] and [transaccion.save()] of a new
    row: on its way to the store the amount is quantized to two decimals
    within twelve digits, which raises [decimal.InvalidOperation] when it
    does not fit (on a store that takes the number as it is, the store
    refuses it instead); then the row is inserted. *)
Definition Transaccion_objects_create (db : DB) (presupuesto item : nat)
  (monto : Decimal) (fecha_pago : Z) (metodo_pago referencia observaciones : string)
  (usuario : option nat) : resultado DB :=
  if negb (monto_en_rango monto) then Raise InvalidOperation
  else
    Ok (set_transacciones db
          (transacciones db ++
           [{| trans_id := nuevo_id (trans_id <$> transacciones db);
               trans_presupuesto := presupuesto; trans_item_presupuesto := item;
               trans_monto := monto; trans_metodo_pago := metodo_pago;
               trans_referencia := referencia; trans_fecha_pago := fecha_pago;
               trans_observaciones := observaciones; trans_usuario := usuario |}])).

(** [float(monto)]; the sign test on the result is the sign test on the
    hundredths. *)
Definition float (m : monto_post) : resultado Decimal :=
  match m with
  | monto_decimal v => Ok v
  | _ => Raise ValueError
  end.

(** [crear_transaccion_simple]. *)
Definition crear_transaccion_simple (db : DB) (request : HttpRequest)
  (d : TransaccionPOST) : Resultado :=
  let formulario (msgs : list Mensaje) :=
    {| db_final := db; mensajes := msgs;
       respuesta := render "presupuestos/registroTransacciones/crear.html" |} in
  match method request with
  | POST =>
      match post_item_presupuesto d, post_trans_monto d, post_fecha_pago d with
      | Some item_pk, (monto_no_numerico | monto_decimal _) as monto, Some fecha_pago =>
          if bool_decide (post_metodo_pago d = "") then
            {| db_final := db; mensajes := [error_faltan_campos];
               respuesta := redirect "presupuestos:crear_transaccion_simple" None |}
          else
            match float monto with
            | Raise _ => formulario [error_monto_no_numerico]      (* except ValueError *)
            | Ok monto_float =>
                if monto_float <? 0 then
                  {| db_final := db; mensajes := [error_monto_negativo];
                     respuesta := redirect "presupuestos:crear_transaccion_simple" None |}
                else
                  match get_item db item_pk with
                  | None => formulario [error_al_registrar_pago Http404]
                  | Some item =>
                      match get_presupuesto db (item_presupuesto item) with
                      | None => formulario [error_al_registrar_pago DoesNotExist]
                      | Some presupuesto =>
                          if negb (bool_decide (pres_estado presupuesto = cerrado)) then
                            {| db_final := db; mensajes := [error_solo_cerrados];
                               respuesta :=
                                 redirect "presupuestos:crear_transaccion_simple" None |}
                          else
                            match Transaccion_objects_create db (pres_id presupuesto)
                                    (item_id item) monto_float fecha_pago
                                    (post_metodo_pago d) (post_referencia d)
                                    (post_trans_observaciones d)
                                    (user_id <$> user request) with
                            | Raise e =>
                                formulario [error_al_registrar_pago e]   (* except Exception *)
                            | Ok db' =>
                                {| db_final := db';
                                   mensajes := [success_pago_item (item_nombre item)];
                                   respuesta :=
                                     redirect "presupuestos:lista_transacciones_completa"
                                              None |}
                            end
                      end
                  end
            end
      | _, _, _ =>
          {| db_final := db; mensajes := [error_faltan_campos];
             respuesta := redirect "presupuestos:crear_transaccion_simple" None |}
      end
  | GET => formulario []
  end.

(** [TransaccionForm.clean_monto]: [if monto and monto <= Decimal('0')],
    where a zero amount is falsy. It runs on an amount that has passed the
    checks of the field. *)
Definition clean_monto (monto : Decimal) : list (Campo * ErrorCampo) :=
  si (negb (monto =? 0) && (monto <=? 0)) campo_monto monto_mayor_a_0.

Definition METODO_PAGO_CHOICES : list string :=
  ["transferencia"; "efectivo"; "cheque"; "tarjeta"; "otros"].

(** [form.errors] of [TransaccionForm], in the order of its fields;
    [presupuesto_id] narrows the queryset of the item field when given and
    not zero. The amount goes through the [DecimalValidator] of the field
    (the error code is [max_digits] or [max_whole_digits], by how the
    numeral is written) and, when that passes, through [clean_monto]; the
    reference is held to the [max_length=100] of its column. *)
Definition TransaccionForm_errors (db : DB) (presupuesto_id : option nat)
  (d : TransaccionPOST) : list (Campo * ErrorCampo) :=
  let queryset :=
    match presupuesto_id with
    | Some (S n) => items_de db (S n)
    | _ => items db
    end in
  match post_item_presupuesto d with
  | None => [(campo_item_presupuesto, required)]
  | Some i =>
      si (negb (existsb (λ it, bool_decide (item_id it = i)) queryset))
         campo_item_presupuesto invalid_choice
  end ++
  match post_trans_monto d with
  | monto_vacio => [(campo_monto, required)]
  | monto_no_numerico => [(campo_monto, invalid)]
  | monto_decimal v =>
      if negb (monto_en_rango v) then [(campo_monto, max_digits)] else clean_monto v
  end ++
  (if bool_decide (post_metodo_pago d = "") then [(campo_metodo_pago, required)]
   else si (negb (bool_decide (post_metodo_pago d ∈ METODO_PAGO_CHOICES)))
           campo_metodo_pago invalid_choice) ++
  si (100 <? len (post_referencia d))%nat campo_referencia max_length ++
  match post_fecha_pago d with
  | None => [(campo_fecha_pago, required)]
  | Some _ => []
  end.

(** [registrar_transaccion]. *)
Definition registrar_transaccion (db : DB) (request : HttpRequest) (pk : nat)
  (d : TransaccionPOST) : Resultado :=
  match get_presupuesto db pk with
  | None => {| db_final := db; mensajes := []; respuesta := no_encontrado |}
  | Some presupuesto =>
      if negb (bool_decide (pres_estado presupuesto = cerrado)) then
        {| db_final := db; mensajes := [error_transaccion_abierto];
           respuesta := redirect "presupuestos:detalle" (Some pk) |}
      else
        let formulario :=
          {| db_final := db; mensajes := [];
             respuesta := render "presupuestos/registrar_transaccion.html" |} in
        match method request with
        | POST =>
            match TransaccionForm_errors db (Some pk) d,
                  post_item_presupuesto d, post_trans_monto d, post_fecha_pago d with
            | [], Some item, monto_decimal monto, Some fecha_pago =>
                match Transaccion_objects_create db (pres_id presupuesto) item monto
                        fecha_pago (post_metodo_pago d) (post_referencia d)
                        (post_trans_observaciones d)
                        (user_id <$> get_current_user request) with
                | Raise e =>                        (* no handler around save() *)
                    {| db_final := db; mensajes := [];
                       respuesta := excepcion_no_capturada e |}
                | Ok db' =>
                    {| db_final := db'; mensajes := [success_transaccion];
                       respuesta := redirect "presupuestos:detalle" (Some pk) |}
                end
            | _, _, _, _ => formulario
            end
        | GET => formulario
        end
  end.

(** [crear_transaccion_general]: the budget is the one of the chosen item. *)
Definition crear_transaccion_general (db : DB) (request : HttpRequest)
  (d : TransaccionPOST) : Resultado :=
  let formulario (msgs : list Mensaje) :=
    {| db_final := db; mensajes := msgs;
       respuesta := render "presupuestos/registrar_transaccion_general.html" |} in
  match method request with
  | POST =>
      match TransaccionForm_errors db None d,
            post_item_presupuesto d, post_trans_monto d, post_fecha_pago d with
      | [], Some item_pk, monto_decimal monto, Some fecha_pago =>
          match get_item db item_pk with
          | None => formulario [error_excepcion DoesNotExist]
          | Some item =>
              match get_presupuesto db (item_presupuesto item) with
              | None => formulario [error_excepcion DoesNotExist]
              | Some presupuesto =>
                  if negb (bool_decide (pres_estado presupuesto = cerrado)) then
                    {| db_final := db; mensajes := [error_transaccion_abierto];
                       respuesta :=
                         redirect "presupuestos:crear_transaccion_general" None |}
                  else
                    match Transaccion_objects_create db (pres_id presupuesto)
                            (item_id item) monto fecha_pago (post_metodo_pago d)
                            (post_referencia d) (post_trans_observaciones d)
                            (user_id <$> user request) with
                    | Raise e => formulario [error_excepcion e]     (* except Exception *)
                    | Ok db' =>
                        {| db_final := db'; mensajes := [success_transaccion];
                           respuesta :=
                             redirect "presupuestos:lista_transacciones_completa" None |}
                    end
              end
          end
      | errs, _, _, _ => formulario ((λ fe, error_campo fe.1 fe.2) <$> errs)
      end
  | GET => formulario []
  end.

(** ** The comparison API *)

(** The per-item rows of the payload; the source hands each number to
    [float()] for the JSON text, the rows keep the exact amounts. *)
Definition items_detalle (db : DB) (p : Presupuesto) : list ItemDetalle :=
  (λ item,
     let total_item_ejecutado := item_total_transacciones db item in
     {| det_nombre := item_nombre item;
        presupuestado := Decimal_of_int (item_monto item);
        ejecutado := total_item_ejecutado;
        diferencia := Decimal_of_int (item_monto item) - total_item_ejecutado |})
  <$> items_de db (pres_id p).

(** [presupuesto.fecha_cierre]: the model declares no such attribute. *)
Definition fecha_cierre (p : Presupuesto) : resultado (option Z) :=
  Raise AttributeError.

(** The definition of [api_comparar_presupuesto] at line 1908, with the
    check of the state; of its payload the rows and the name are kept.
    The module binds the name again at line 1961. *)
Definition api_comparar_presupuesto_1908 (db : DB) (presupuesto_id : nat) : HttpResponse :=
  match get_presupuesto db presupuesto_id with
  | None => JsonError (error_excepcion Http404) 400
  | Some presupuesto =>
      if negb (bool_decide (pres_estado presupuesto = cerrado)) then
        JsonError (error_no_cerrado (pres_nombre presupuesto)) 400
      else
        match fecha_cierre presupuesto with
        | Raise e => JsonError (error_excepcion e) 400
        | Ok _ =>
            JsonDatos {| datos_items := items_detalle db presupuesto;
                         presupuesto_nombre := pres_nombre presupuesto |} 200
        end
  end.

(** [api_comparar_presupuesto]: the last definition of the module (line
    1961), the one [urls.py] routes to. *)
Definition api_comparar_presupuesto (db : DB) (presupuesto_id : nat) : HttpResponse :=
  match get_presupuesto db presupuesto_id with
  | None => JsonError (error_excepcion Http404) 400
  | Some presupuesto =>
      JsonDatos {| datos_items := items_detalle db presupuesto;
                   presupuesto_nombre := pres_nombre presupuesto |} 200
  end.

(** ** Well-formed tables *)

(** What the store guarantees for the line items: each one belongs to a
    stored budget (the foreign key), and within a stored budget no two
    names agree up to case (the unique constraint). *)
Definition items_consistentes (db : DB) : Prop :=
  Forall (λ i, item_presupuesto i ∈ pres_id <$> presupuestos db) (items db) ∧
  Forall (λ pk, NoDup (Lower ∘ item_nombre <$> items_de db pk))
         (pres_id <$> presupuestos db).

#[global] Instance items_consistentes_dec db : Decision (items_consistentes db).
Proof. unfold items_consistentes. apply _. Defined.

(** No two budgets with names equal up to case. *)
Definition nombres_unicos (db : DB) : Prop :=
  NoDup (Lower ∘ pres_nombre <$> presupuestos db).

(** ** Scenarios *)

Definition anonimo (m : Metodo) : HttpRequest :=
  {| method := m; user := None; XMLHttpRequest := false |}.

Definition ana : User :=
  {| user_id := 1; username := "ana"; email := "ana@example.com";
     first_name := "Ana"; last_name := "Rojas" |}.

Definition presupuesto_ejemplo (pk : nat) (nombre : string) (e : EstadoPresupuesto)
  : Presupuesto :=
  {| pres_id := pk; pres_nombre := nombre; pres_descripcion := None;
     pres_creado_por := 1; pres_fecha_creacion := 739000;
     pres_fecha_limite := 739031; pres_estado := e; pres_periodo := Mensual |}.

Definition item_ejemplo (pk presupuesto : nat) (nombre : string) (monto : Z)
  : ItemPresupuesto :=
  {| item_id := pk; item_presupuesto := presupuesto; item_nombre := nombre;
     item_descripcion := ""; item_monto := monto |}.

Definition db_vacia : DB :=
  {| usuarios := []; presupuestos := []; items := []; transacciones := [];
     cuentas := []; historial_pagos := [] |}.

(** An open budget 'enero' with one item. *)
Definition db_enero : DB :=
  {| usuarios := [ana];
     presupuestos := [presupuesto_ejemplo 1 "enero" abierto];
     items := [item_ejemplo 1 1 "Supplies" 50000];
     transacciones := []; cuentas := []; historial_pagos := [] |}.

(** The invoice 'F001-2024', pending, due three days before day 739000. *)
Definition factura_F001 : CuentaPorPagar :=
  {| cuenta_id := 1; numero_factura := "F001-2024";
     nombre_proveedor := "Acme S.A."; rut_proveedor := "12345678-9";
     cuenta_descripcion := ""; cuenta_monto := 150000;
     fecha_emision := 738970; cuenta_fecha_creacion := 738970;
     cuenta_fecha_limite := 738997; cuenta_fecha_pago := None;
     cuenta_estado := pendiente; cuenta_observaciones := "" |}.

(** The invoice alone: no user is stored. *)
Definition db_sin_usuarios : DB :=
  {| usuarios := []; presupuestos := []; items := []; transacciones := [];
     cuentas := [factura_F001]; historial_pagos := [] |}.

(** The invoice and one stored user. *)
Definition db_factura : DB := set_usuarios db_sin_usuarios [ana].

(** The budget 'Jan-2025', closed, with the item 'Supplies' of 50000. *)
Definition db_supplies : DB :=
  {| usuarios := [ana];
     presupuestos := [presupuesto_ejemplo 1 "Jan-2025" cerrado];
     items := [item_ejemplo 1 1 "Supplies" 50000];
     transacciones := []; cuentas := []; historial_pagos := [] |}.

(** A posting on item 1 of an amount given in whole units. *)
Definition pago_supplies (monto : Z) : TransaccionPOST :=
  {| post_item_presupuesto := Some 1%nat;
     post_trans_monto := monto_decimal (Decimal_of_int monto);
     post_fecha_pago := Some 739040; post_metodo_pago := "transferencia";
     post_referencia := ""; post_trans_observaciones := "" |}.


(** The same form with the invoice number 'F001-2024'. *)
Definition factura_corta : CuentaPorPagarPOST :=
  {| post_numero_factura := "F001-2024";
     post_nombre_proveedor := "Acme S.A."; post_rut_proveedor := "12345678-9";
     post_fecha_emision := 738970; post_descripcion := ""; post_monto := 150000;
     post_fecha_limite := 739031; post_observaciones := "" |}.


(** Two open budgets: 'origen' with the item 'Rent', 'destino' with the
    item 'rent'. *)
Definition db_rent : DB :=
  {| usuarios := [ana];
     presupuestos := [presupuesto_ejemplo 1 "origen" abierto;
                      presupuesto_ejemplo 2 "destino" abierto];
     items := [item_ejemplo 1 1 "Rent" 400000; item_ejemplo 2 2 "rent" 350000];
     transacciones := []; cuentas := []; historial_pagos := [] |}.


(** A posting whose fields other than the amount are in order: the item
    is stored, its budget is stored and closed, the date is given and the
    payment method is one of the choices. *)
Definition pago_en_orden (db : DB) (d : TransaccionPOST) (item : ItemPresupuesto)
  (p : Presupuesto) (fecha : Z) : Prop :=
  post_item_presupuesto d = Some (item_id item) ∧
  get_item db (item_id item) = Some item ∧
  get_presupuesto db (item_presupuesto item) = Some p ∧
  pres_estado p = cerrado ∧
  post_fecha_pago d = Some fecha ∧
  post_metodo_pago d ∈ METODO_PAGO_CHOICES.

(** The posting views of a request, the budget being the one of [item]. *)
Definition vistas_de_pago (db : DB) (request : HttpRequest) (d : TransaccionPOST)
  (item : ItemPresupuesto) : list Resultado :=
  [crear_transaccion_simple db request d;
   registrar_transaccion db request (item_presupuesto item) d;
   crear_transaccion_general db request d].

(** * The other views of the budget, item, payable and transaction modules *)

(** The errors of [ItemPresupuestoForm]: those of the fields and the two of
    its [clean_monto]. *)
Inductive ErrorItem :=
  | error_de_campo (e : ErrorCampo)
  | monto_al_menos_10000        (* 'El monto debe ser al menos $10.000' *)
  | monto_excede_10000000.      (* 'El monto no puede exceder $10.000.000' *)

(** The texts of these views. *)
Inductive Aviso :=
  | aviso_campo (c : Campo) (e : ErrorCampo)       (* f'{field}: {error}' *)
  | aviso_presupuesto_cerrado       (* 'El presupuesto esta cerrado' *)
  | aviso_item_agregado             (* 'Item agregado exitosamente' *)
  | aviso_item_actualizado          (* 'Item actualizado exitosamente' *)
  | aviso_item_eliminado (nombre : string)         (* f'Item {nombre} eliminado exitosamente' *)
  | aviso_metodo_no_permitido       (* 'Metodo no permitido' *)
  | aviso_no_editar_cerrado         (* 'No se puede editar un presupuesto cerrado' *)
  | aviso_presupuesto_actualizado (nombre : string) (* f'Presupuesto {nombre} actualizado exitosamente.' *)
  | aviso_ya_cerrado                (* 'El presupuesto ya esta cerrado' *)
  | aviso_cerrado_exitosamente      (* 'Presupuesto cerrado exitosamente' *)
  | aviso_no_eliminar_cerrado       (* 'No se puede eliminar un presupuesto cerrado.' *)
  | aviso_presupuesto_eliminado (nombre : string)  (* f'Presupuesto {nombre} eliminado exitosamente' *)
  | aviso_no_eliminar_cuenta        (* 'No se puede eliminar una cuenta pagada o anulada.' *)
  | aviso_cuenta_eliminada (numero : string)       (* f'Cuenta {numero} eliminada exitosamente' *)
  | aviso_no_editar_transaccion     (* 'No se pueden editar transacciones de presupuestos abiertos' *)
  | aviso_transaccion_actualizada   (* 'Transaccion actualizada exitosamente' *)
  | aviso_no_eliminar_transaccion   (* 'No se pueden eliminar transacciones de presupuestos abiertos' *)
  | aviso_transaccion_eliminada     (* 'Transaccion eliminada exitosamente' *)
  | aviso_no_esta_cerrado           (* 'El presupuesto no esta cerrado' *)
  | aviso_no_encontrado_o_abierto   (* 'Presupuesto no encontrado o no esta cerrado' *)
  | aviso_excepcion (e : Excepcion).               (* str(e) *)

(** One row of the balance endpoints; the source hands each number to
    [float()] for the JSON text, the rows keep the exact amounts. *)
Record FilaSaldo := {
  fila_id : nat;
  fila_nombre : string;
  monto_presupuestado : Decimal;
  monto_ejecutado : Decimal;
  fila_saldo_disponible : Decimal
}.

Inductive Contestacion :=
  | json_exito (a : Aviso) (item : option ItemPresupuesto)   (* {'success': True, ...}, 200 *)
  | json_fallo (a : Aviso) (status : nat)          (* {'success': False, 'error': ...} or {'error': ...} *)
  | json_errores (errs : list (Campo * ErrorItem)) (status : nat)   (* {'success': False, 'errors': form.errors} *)
  | json_item (item : ItemPresupuesto)             (* {'success': True, 'item': ...} *)
  | json_saldos (filas : list FilaSaldo)
  | json_saldo (fila : FilaSaldo)
  | redirigir (url : string) (pk : option nat)
  | plantilla (template : string)
  | error_404                                      (* get_object_or_404 raised *)
  | error_500 (e : Excepcion).                     (* an exception leaves the view *)

Record Salida := {
  salida_db : DB;
  avisos : list Aviso;
  contestacion : Contestacion
}.

Definition sin_cambios (db : DB) (c : Contestacion) : Salida :=
  {| salida_db := db; avisos := []; contestacion := c |}.

(** ** Closing, editing and deleting a budget *)

Definition con_estado_presupuesto (p : Presupuesto) (e : EstadoPresupuesto) : Presupuesto :=
  {| pres_id := pres_id p; pres_nombre := pres_nombre p;
     pres_descripcion := pres_descripcion p; pres_creado_por := pres_creado_por p;
     pres_fecha_creacion := pres_fecha_creacion p;
     pres_fecha_limite := pres_fecha_limite p; pres_estado := e;
     pres_periodo := pres_periodo p |}.

(** [presupuesto.save()] of a stored budget: the row of its key is rewritten. *)
Definition Presupuesto_save (db : DB) (p : Presupuesto) : DB :=
  set_presupuestos db
    ((λ o, if bool_decide (pres_id o = pres_id p) then p else o) <$> presupuestos db).

(** [cerrar_presupuesto]. *)
Definition cerrar_presupuesto (db : DB) (request : HttpRequest) (pk : nat) : Salida :=
  match get_presupuesto db pk with
  | None => sin_cambios db error_404
  | Some presupuesto =>
      match method request with
      | POST =>
          if bool_decide (pres_estado presupuesto = cerrado) then
            sin_cambios db (json_fallo aviso_ya_cerrado 400)
          else
            {| salida_db := Presupuesto_save db (con_estado_presupuesto presupuesto cerrado);
               avisos := [];
               contestacion := json_exito aviso_cerrado_exitosamente None |}
      | GET => sin_cambios db (json_fallo aviso_metodo_no_permitido 405)
      end
  end.

(** [presupuesto.delete()]: the budget goes with its items and its
    transactions ([on_delete=CASCADE]), also the transactions that point
    to one of its items. *)
Definition Presupuesto_delete (db : DB) (pk : nat) : DB :=
  let items_borrados := item_id <$> items_de db pk in
  {| usuarios := usuarios db;
     presupuestos := filter (λ p, pres_id p ≠ pk) (presupuestos db);
     items := filter (λ i, item_presupuesto i ≠ pk) (items db);
     transacciones :=
       filter (λ t, trans_presupuesto t ≠ pk ∧ trans_item_presupuesto t ∉ items_borrados)
              (transacciones db);
     cuentas := cuentas db;
     historial_pagos := historial_pagos db |}.

(** [eliminar_presupuesto]: the state is looked at before the method. *)
Definition eliminar_presupuesto (db : DB) (request : HttpRequest) (pk : nat) : Salida :=
  match get_presupuesto db pk with
  | None => sin_cambios db error_404
  | Some presupuesto =>
      if bool_decide (pres_estado presupuesto = cerrado) then
        sin_cambios db (json_fallo aviso_no_eliminar_cerrado 400)
      else
        match method request with
        | POST =>
            {| salida_db := Presupuesto_delete db (pres_id presupuesto);
               avisos := [];
               contestacion :=
                 json_exito (aviso_presupuesto_eliminado (pres_nombre presupuesto)) None |}
        | GET => sin_cambios db (json_fallo aviso_metodo_no_permitido 405)
        end
  end.

(** [PresupuestoForm.clean_nombre] with the instance of the form: the
    budget of a key that is set (not zero) is left out of the look-up. *)
Definition clean_nombre_de (db : DB) (instance_pk : option nat) (nombre : string)
  : list (Campo * ErrorCampo) + string :=
  if bool_decide (nombre = "") || bool_decide (strip nombre = "") then
    inl [(campo_nombre, nombre_obligatorio)]
  else
    let nombre := strip nombre in
    if (50 <? len nombre)%nat then inl [(campo_nombre, nombre_excede_50)]
    else
      let queryset := filter (λ p, iexact (pres_nombre p) nombre = true) (presupuestos db) in
      let queryset :=
        match instance_pk with
        | Some (S n) => filter (λ p, pres_id p ≠ S n) queryset
        | _ => queryset
        end in
      match queryset with
      | [] => inr nombre
      | _ => inl [(campo_nombre, presupuesto_ya_existe)]
      end.

(** [form.errors] of [PresupuestoForm] bound to the budget [pk]. *)
Definition PresupuestoForm_errors_de (hoy : Z) (db : DB) (pk : nat) (d : PresupuestoPOST)
  : list (Campo * ErrorCampo) :=
  (if bool_decide (post_nombre d = "") then [(campo_nombre, required)]
   else if (200 <? len (post_nombre d))%nat then [(campo_nombre, max_length)]
   else match clean_nombre_de db (Some pk) (post_nombre d) with
        | inl e => e
        | inr _ => []
        end) ++
  si (negb (existsb (λ u, bool_decide (user_id u = post_creado_por d)) (usuarios db)))
     campo_creado_por invalid_choice ++
  clean_fecha_limite hoy (post_pres_fecha_limite d).

(** [editar_presupuesto]. *)
Definition editar_presupuesto (hoy : Z) (db : DB) (request : HttpRequest) (pk : nat)
  (d : PresupuestoPOST) : Salida :=
  match get_presupuesto db pk with
  | None => sin_cambios db error_404
  | Some presupuesto =>
      if negb (puede_modificar presupuesto) then
        {| salida_db := db; avisos := [aviso_no_editar_cerrado];
           contestacion := redirigir "presupuestos:detalle" (Some pk) |}
      else
        match method request with
        | POST =>
            match PresupuestoForm_errors_de hoy db (pres_id presupuesto) d,
                  clean_nombre_de db (Some (pres_id presupuesto)) (post_nombre d) with
            | [], inr nombre =>
                let presupuesto_editado :=
                  {| pres_id := pres_id presupuesto; pres_nombre := nombre;
                     pres_descripcion := pres_descripcion presupuesto;
                     pres_creado_por := post_creado_por d;
                     pres_fecha_creacion := pres_fecha_creacion presupuesto;
                     pres_fecha_limite := post_pres_fecha_limite d;
                     pres_estado := pres_estado presupuesto;
                     pres_periodo := post_periodo d |} in
                {| salida_db := Presupuesto_save db presupuesto_editado;
                   avisos := [aviso_presupuesto_actualizado nombre];
                   contestacion := redirigir "presupuestos:detalle" (Some pk) |}
            | errs, _ =>
                {| salida_db := db;
                   avisos := (λ fe, aviso_campo fe.1 fe.2) <$> errs;
                   contestacion := plantilla "presupuestos/crear.html" |}
            end
        | GET => sin_cambios db (plantilla "presupuestos/crear.html")
        end
  end.

(** ** Adding, editing and deleting an item *)

Record ItemPOST := {
  post_item_nombre : string;
  post_item_descripcion : string;
  post_item_monto : Z
}.

(** [ItemPresupuestoForm.clean_monto]: both tests start with [monto and],
    false at zero. *)
Definition ItemPresupuestoForm_clean_monto (monto : Z) : list (Campo * ErrorItem) :=
  if negb (monto =? 0) && (monto <? 10000) then [(campo_monto, monto_al_menos_10000)]
  else if negb (monto =? 0) && (10000000 <? monto) then [(campo_monto, monto_excede_10000000)]
  else [].

(** [form.errors] of [ItemPresupuestoForm]: the name is required and of at
    most 200 characters; the amount goes through [clean_monto] and, when
    that passes, through [MinValueValidator(1)] of the model field. The
    budget is no field of the form, so the unique constraint is left to
    the store. *)
Definition ItemPresupuestoForm_errors (d : ItemPOST) : list (Campo * ErrorItem) :=
  (if bool_decide (post_item_nombre d = "") then [(campo_nombre, error_de_campo required)]
   else if (200 <? len (post_item_nombre d))%nat
   then [(campo_nombre, error_de_campo max_length)]
   else []) ++
  match ItemPresupuestoForm_clean_monto (post_item_monto d) with
  | [] => if post_item_monto d <? 1 then [(campo_monto, error_de_campo min_value)] else []
  | errs => errs
  end.

(** [agregar_item]; [item.save()] is under no handler. *)
Definition agregar_item (db : DB) (request : HttpRequest) (pk : nat) (d : ItemPOST)
  : Salida :=
  match get_presupuesto db pk with
  | None => sin_cambios db error_404
  | Some presupuesto =>
      if negb (puede_modificar presupuesto) then
        sin_cambios db (json_fallo aviso_presupuesto_cerrado 400)
      else
        match method request with
        | POST =>
            match ItemPresupuestoForm_errors d with
            | [] =>
                match ItemPresupuesto_objects_create db (pres_id presupuesto)
                        (post_item_nombre d) (post_item_descripcion d)
                        (post_item_monto d) with
                | Ok db' =>
                    {| salida_db := db'; avisos := [];
                       contestacion :=
                         json_exito aviso_item_agregado
                           (Some {| item_id := nuevo_id (item_id <$> items db);
                                    item_presupuesto := pres_id presupuesto;
                                    item_nombre := post_item_nombre d;
                                    item_descripcion := post_item_descripcion d;
                                    item_monto := post_item_monto d |}) |}
                | Raise e => sin_cambios db (error_500 e)
                end
            | errs => sin_cambios db (json_errores errs 400)
            end
        | GET => sin_cambios db (json_fallo aviso_metodo_no_permitido 405)
        end
  end.

(** [get_object_or_404(ItemPresupuesto, pk=item_id, presupuesto=presupuesto)]. *)
Definition get_item_en (db : DB) (item_pk : nat) (presupuesto : nat) : option ItemPresupuesto :=
  head (filter (λ i, item_id i = item_pk ∧ item_presupuesto i = presupuesto) (items db)).

(** [item.save()] of a stored item: the row of its key is rewritten, unless
    another item of the budget has the name up to case. *)
Definition ItemPresupuesto_save (db : DB) (item : ItemPresupuesto) : resultado DB :=
  if existsb (λ i, negb (bool_decide (item_id i = item_id item)) &&
                   bool_decide (item_presupuesto i = item_presupuesto item) &&
                   bool_decide (Lower (item_nombre i) = Lower (item_nombre item)))
             (items db)
  then Raise IntegrityError
  else Ok (set_items db
             ((λ i, if bool_decide (item_id i = item_id item) then item else i)
                <$> items db)).

(** [editar_item]. *)
Definition editar_item (db : DB) (request : HttpRequest) (pk item_pk : nat) (d : ItemPOST)
  : Salida :=
  match get_presupuesto db pk with
  | None => sin_cambios db error_404
  | Some presupuesto =>
      match get_item_en db item_pk (pres_id presupuesto) with
      | None => sin_cambios db error_404
      | Some item =>
          if negb (puede_modificar presupuesto) then
            sin_cambios db (json_fallo aviso_presupuesto_cerrado 400)
          else
            match method request with
            | POST =>
                match ItemPresupuestoForm_errors d with
                | [] =>
                    let item' :=
                      {| item_id := item_id item;
                         item_presupuesto := item_presupuesto item;
                         item_nombre := post_item_nombre d;
                         item_descripcion := post_item_descripcion d;
                         item_monto := post_item_monto d |} in
                    match ItemPresupuesto_save db item' with
                    | Ok db' =>
                        {| salida_db := db'; avisos := [];
                           contestacion := json_exito aviso_item_actualizado (Some item') |}
                    | Raise e => sin_cambios db (error_500 e)
                    end
                | errs => sin_cambios db (json_errores errs 400)
                end
            | GET => sin_cambios db (json_item item)
            end
      end
  end.

(** [item.delete()]: the item goes with its transactions. *)
Definition ItemPresupuesto_delete (db : DB) (item_pk : nat) : DB :=
  {| usuarios := usuarios db; presupuestos := presupuestos db;
     items := filter (λ i, item_id i ≠ item_pk) (items db);
     transacciones := filter (λ t, trans_item_presupuesto t ≠ item_pk) (transacciones db);
     cuentas := cuentas db; historial_pagos := historial_pagos db |}.

(** [eliminar_item]. *)
Definition eliminar_item (db : DB) (request : HttpRequest) (pk item_pk : nat) : Salida :=
  match get_presupuesto db pk with
  | None => sin_cambios db error_404
  | Some presupuesto =>
      match get_item_en db item_pk (pres_id presupuesto) with
      | None => sin_cambios db error_404
      | Some item =>
          if negb (puede_modificar presupuesto) then
            sin_cambios db (json_fallo aviso_presupuesto_cerrado 400)
          else
            match method request with
            | POST =>
                {| salida_db := ItemPresupuesto_delete db (item_id item); avisos := [];
                   contestacion := json_exito (aviso_item_eliminado (item_nombre item)) None |}
            | GET => sin_cambios db (json_fallo aviso_metodo_no_permitido 405)
            end
      end
  end.

(** ** Deleting a payable *)

(** [cuenta.delete()]: the payable goes with its payment history. *)
Definition CuentaPorPagar_delete (db : DB) (pk : nat) : DB :=
  {| usuarios := usuarios db; presupuestos := presupuestos db; items := items db;
     transacciones := transacciones db;
     cuentas := filter (λ c, cuenta_id c ≠ pk) (cuentas db);
     historial_pagos := filter (λ h, hist_cuenta h ≠ pk) (historial_pagos db) |}.

(** [eliminar_cuenta_por_pagar]: the state is looked at before the method. *)
Definition eliminar_cuenta_por_pagar (db : DB) (request : HttpRequest) (pk : nat) : Salida :=
  match get_cuenta db pk with
  | None => sin_cambios db error_404
  | Some cuenta =>
      if negb (puede_modificar_cuenta cuenta) then
        sin_cambios db (json_fallo aviso_no_eliminar_cuenta 400)
      else
        match method request with
        | POST =>
            {| salida_db := CuentaPorPagar_delete db (cuenta_id cuenta); avisos := [];
               contestacion :=
                 json_exito (aviso_cuenta_eliminada (numero_factura cuenta)) None |}
        | GET => sin_cambios db (json_fallo aviso_metodo_no_permitido 405)
        end
  end.

(** ** Editing and deleting a transaction *)

Definition get_transaccion (db : DB) (pk : nat) : option Transaccion :=
  head (filter (λ t, trans_id t = pk) (transacciones db)).

(** [editar_transaccion_completa]: the form is bound to the transaction
    and to the items of its budget; the budget and the user of the row
    stay. *)
Definition editar_transaccion_completa (db : DB) (request : HttpRequest) (pk : nat)
  (d : TransaccionPOST) : Salida :=
  match get_transaccion db pk with
  | None => sin_cambios db error_404
  | Some transaccion =>
      match get_presupuesto db (trans_presupuesto transaccion) with
      | None => sin_cambios db (error_500 DoesNotExist)
      | Some presupuesto =>
          if negb (bool_decide (pres_estado presupuesto = cerrado)) then
            {| salida_db := db; avisos := [aviso_no_editar_transaccion];
               contestacion := redirigir "presupuestos:lista_transacciones_completa" None |}
          else
            let formulario (msgs : list Aviso) :=
              {| salida_db := db; avisos := msgs;
                 contestacion :=
                   plantilla "presupuestos/registrar_transaccion_general.html" |} in
            match method request with
            | POST =>
                match TransaccionForm_errors db (Some (pres_id presupuesto)) d,
                      post_item_presupuesto d, post_trans_monto d, post_fecha_pago d with
                | [], Some item, monto_decimal monto, Some fecha_pago =>
                    let editada :=
                      {| trans_id := trans_id transaccion;
                         trans_presupuesto := trans_presupuesto transaccion;
                         trans_item_presupuesto := item; trans_monto := monto;
                         trans_metodo_pago := post_metodo_pago d;
                         trans_referencia := post_referencia d;
                         trans_fecha_pago := fecha_pago;
                         trans_observaciones := post_trans_observaciones d;
                         trans_usuario := trans_usuario transaccion |} in
                    {| salida_db :=
                         set_transacciones db
                           ((λ t, if bool_decide (trans_id t = trans_id transaccion)
                                  then editada else t) <$> transacciones db);
                       avisos := [aviso_transaccion_actualizada];
                       contestacion :=
                         redirigir "presupuestos:lista_transacciones_completa" None |}
                | errs, _, _, _ => formulario ((λ fe, aviso_campo fe.1 fe.2) <$> errs)
                end
            | GET => formulario []
            end
      end
  end.

(** [eliminar_transaccion_completa]. *)
Definition eliminar_transaccion_completa (db : DB) (request : HttpRequest) (pk : nat)
  : Salida :=
  match get_transaccion db pk with
  | None => sin_cambios db error_404
  | Some transaccion =>
      match get_presupuesto db (trans_presupuesto transaccion) with
      | None => sin_cambios db (error_500 DoesNotExist)
      | Some presupuesto =>
          if negb (bool_decide (pres_estado presupuesto = cerrado)) then
            {| salida_db := db; avisos := [aviso_no_eliminar_transaccion];
               contestacion := redirigir "presupuestos:lista_transacciones_completa" None |}
          else
            match method request with
            | POST =>
                {| salida_db :=
                     set_transacciones db
                       (filter (λ t, trans_id t ≠ trans_id transaccion) (transacciones db));
                   avisos := [aviso_transaccion_eliminada];
                   contestacion :=
                     redirigir "presupuestos:lista_transacciones_completa" None |}
            | GET =>
                sin_cambios db
                  (plantilla "presupuestos/confirmar_eliminar_transaccion.html")
            end
      end
  end.

(** ** The balance endpoints *)

Definition fila_saldo (db : DB) (item : ItemPresupuesto) : FilaSaldo :=
  let total_ejecutado := item_total_transacciones db item in
  {| fila_id := item_id item; fila_nombre := item_nombre item;
     monto_presupuestado := Decimal_of_int (item_monto item);
     monto_ejecutado := total_ejecutado;
     fila_saldo_disponible := Decimal_of_int (item_monto item) - total_ejecutado |}.

(** [api_items_presupuesto]: the last definition of the module (line
    1804); [Presupuesto.objects.get(id=..., estado='cerrado')] under a
    bare [except]. *)
Definition api_items_presupuesto (db : DB) (presupuesto_id : nat) : Contestacion :=
  match filter (λ p, pres_id p = presupuesto_id ∧ pres_estado p = cerrado)
               (presupuestos db) with
  | [presupuesto] => json_saldos (fila_saldo db <$> items_de db (pres_id presupuesto))
  | _ => json_fallo aviso_no_encontrado_o_abierto 400
  end.

(** [api_saldo_disponible]. *)
Definition api_saldo_disponible (db : DB) (item_pk : nat) : Contestacion :=
  match get_item db item_pk with
  | None => json_fallo (aviso_excepcion Http404) 400
  | Some item =>
      match get_presupuesto db (item_presupuesto item) with
      | None => json_fallo (aviso_excepcion DoesNotExist) 400
      | Some presupuesto =>
          if negb (bool_decide (pres_estado presupuesto = cerrado)) then
            json_fallo aviso_no_esta_cerrado 400
          else json_saldo (fila_saldo db item)
      end
  end.

(** ** Well-formed tables, continued *)

(** The primary keys of the budgets, of the items and of the transactions. *)
Definition claves_unicas (db : DB) : Prop :=
  NoDup (pres_id <$> presupuestos db) ∧
  NoDup (item_id <$> items db) ∧
  NoDup (trans_id <$> transacciones db).

(** Every transaction points to a stored item of its own budget, and that
    budget is stored and closed. *)
Definition transacciones_consistentes (db : DB) : Prop :=
  ∀ t, t ∈ transacciones db →
    ∃ item p,
      get_item db (trans_item_presupuesto t) = Some item ∧
      item_presupuesto item = trans_presupuesto t ∧
      get_presupuesto db (trans_presupuesto t) = Some p ∧
      pres_estado p = cerrado.

(** The invoice numbers differ up to case. *)
Definition facturas_unicas (db : DB) : Prop :=
  NoDup (Lower ∘ numero_factura <$> cuentas db).

(** ** Further scenarios *)

(** The invoice 'F001-2024' after its payment by an anonymous caller. *)
Definition db_pagada : DB :=
  db_final (registrar_pago 739000 db_factura (anonimo POST) 1).

(** The tables other than the items are the same. *)
Definition mismas_tablas_salvo_items (db db' : DB) : Prop :=
  usuarios db' = usuarios db ∧ presupuestos db' = presupuestos db ∧
  transacciones db' = transacciones db ∧ cuentas db' = cuentas db ∧
  historial_pagos db' = historial_pagos db.

(** An item form with the name 'Travel' and the given amount. *)
Definition item_travel (monto : Z) : ItemPOST :=
  {| post_item_nombre := "Travel"; post_item_descripcion := "";
     post_item_monto := monto |}.

(** ** Requests in sequence *)

(** A request to one of the views that write to the tables. *)
Inductive Accion :=
  | a_crear_presupuesto (d : PresupuestoPOST)
  | a_editar_presupuesto (pk : nat) (d : PresupuestoPOST)
  | a_cerrar_presupuesto (pk : nat)
  | a_eliminar_presupuesto (pk : nat)
  | a_agregar_item (pk : nat) (d : ItemPOST)
  | a_editar_item (pk item_pk : nat) (d : ItemPOST)
  | a_eliminar_item (pk item_pk : nat)
  | a_copiar_items (pk : nat) (destino : option nat) (sel : list nat)
  | a_copiar_presupuesto (pk : nat) (nombre : option string)
  | a_registrar_transaccion (pk : nat) (d : TransaccionPOST)
  | a_crear_transaccion_simple (d : TransaccionPOST)
  | a_crear_transaccion_general (d : TransaccionPOST)
  | a_editar_transaccion_completa (pk : nat) (d : TransaccionPOST)
  | a_eliminar_transaccion_completa (pk : nat)
  | a_crear_cuenta_por_pagar (d : CuentaPorPagarPOST)
  | a_registrar_pago (pk : nat)
  | a_anular_cuenta (pk : nat) (observaciones : option string)
  | a_eliminar_cuenta_por_pagar (pk : nat).

(** The tables after the view has answered the request. *)
Definition ejecutar (hoy : Z) (request : HttpRequest) (db : DB) (a : Accion) : DB :=
  match a with
  | a_crear_presupuesto d => db_final (crear_presupuesto hoy db request d)
  | a_editar_presupuesto pk d => salida_db (editar_presupuesto hoy db request pk d)
  | a_cerrar_presupuesto pk => salida_db (cerrar_presupuesto db request pk)
  | a_eliminar_presupuesto pk => salida_db (eliminar_presupuesto db request pk)
  | a_agregar_item pk d => salida_db (agregar_item db request pk d)
  | a_editar_item pk item_pk d => salida_db (editar_item db request pk item_pk d)
  | a_eliminar_item pk item_pk => salida_db (eliminar_item db request pk item_pk)
  | a_copiar_items pk destino sel => db_final (copiar_items db request pk destino sel)
  | a_copiar_presupuesto pk nombre => db_final (copiar_presupuesto hoy db request pk nombre)
  | a_registrar_transaccion pk d => db_final (registrar_transaccion db request pk d)
  | a_crear_transaccion_simple d => db_final (crear_transaccion_simple db request d)
  | a_crear_transaccion_general d => db_final (crear_transaccion_general db request d)
  | a_editar_transaccion_completa pk d =>
      salida_db (editar_transaccion_completa db request pk d)
  | a_eliminar_transaccion_completa pk =>
      salida_db (eliminar_transaccion_completa db request pk)
  | a_crear_cuenta_por_pagar d => db_final (crear_cuenta_por_pagar hoy db request d)
  | a_registrar_pago pk => db_final (registrar_pago hoy db request pk)
  | a_anular_cuenta pk observaciones => db_final (anular_cuenta db request pk observaciones)
  | a_eliminar_cuenta_por_pagar pk => salida_db (eliminar_cuenta_por_pagar db request pk)
  end.

(** One request: its day, its caller and method, its view and data. *)
Record Paso := {
  paso_hoy : Z;
  paso_request : HttpRequest;
  paso_accion : Accion
}.

Definition ejecutar_todos (db : DB) (pasos : list Paso) : DB :=
  foldl (λ db p, ejecutar (paso_hoy p) (paso_request p) db (paso_accion p)) db pasos.

(** The budgets, items and transactions are well-formed: unique keys, no
    budget of key zero, items and transactions consistent. *)
Definition tablas_consistentes (db : DB) : Prop :=
  claves_unicas db ∧ (0%nat ∉ (pres_id <$> presupuestos db)) ∧
  items_consistentes db ∧ transacciones_consistentes db.

(** The elementary changes the views make to the budgets, items and
    transactions, each with what the view has checked before it. *)
Inductive cambio (db : DB) : DB → Prop :=
  | cambio_otras_tablas db' :
      presupuestos db' = presupuestos db → items db' = items db →
      transacciones db' = transacciones db → cambio db db'
  | cambio_presupuesto_nuevo p :
      pres_id p = nuevo_id (pres_id <$> presupuestos db) →
      cambio db (set_presupuestos db (presupuestos db ++ [p]))
  | cambio_presupuesto_guardado p p' :
      get_presupuesto db (pres_id p') = Some p → pres_estado p = abierto →
      cambio db (Presupuesto_save db p')
  | cambio_presupuesto_eliminado pk p :
      get_presupuesto db pk = Some p → pres_estado p = abierto →
      cambio db (Presupuesto_delete db pk)
  | cambio_item_nuevo destino d nombre descripcion monto db' :
      get_presupuesto db destino = Some d → pres_estado d = abierto →
      ItemPresupuesto_objects_create db destino nombre descripcion monto = Ok db' →
      cambio db db'
  | cambio_item_guardado pk p item item' db' :
      get_presupuesto db pk = Some p → pres_estado p = abierto →
      get_item_en db (item_id item') pk = Some item → item_presupuesto item' = pk →
      ItemPresupuesto_save db item' = Ok db' →
      cambio db db'
  | cambio_item_eliminado pk p item_pk item :
      get_presupuesto db pk = Some p → pres_estado p = abierto →
      get_item_en db item_pk pk = Some item →
      cambio db (ItemPresupuesto_delete db (item_id item))
  | cambio_transaccion_nueva pid i item p m f mp ref obs u db' :
      get_item db i = Some item → item_presupuesto item = pid →
      get_presupuesto db pid = Some p → pres_estado p = cerrado →
      Transaccion_objects_create db pid i m f mp ref obs u = Ok db' →
      cambio db db'
  | cambio_transaccion_guardada t0 item p editada :
      get_item db (trans_item_presupuesto editada) = Some item →
      item_presupuesto item = trans_presupuesto editada →
      get_presupuesto db (trans_presupuesto editada) = Some p →
      pres_estado p = cerrado → trans_id editada = trans_id t0 →
      cambio db (set_transacciones db
                   ((λ t, if bool_decide (trans_id t = trans_id t0) then editada else t)
                      <$> transacciones db))
  | cambio_transaccion_eliminada pk :
      cambio db (set_transacciones db (filter (λ t, trans_id t ≠ pk) (transacciones db))).

(** A sequence of four requests on the empty tables of one user: a budget
    is created, an item added, the budget closed, a payment posted. *)
Definition db_un_usuario : DB := set_usuarios db_vacia [ana].

Definition pasos_ejemplo : list Paso :=
  [{| paso_hoy := 739000; paso_request := anonimo POST;
      paso_accion := a_crear_presupuesto
        {| post_nombre := "Jan-2025"; post_creado_por := 1;
           post_pres_fecha_limite := 739031; post_periodo := Mensual |} |};
   {| paso_hoy := 739000; paso_request := anonimo POST;
      paso_accion := a_agregar_item 1
        {| post_item_nombre := "Supplies"; post_item_descripcion := "";
           post_item_monto := 50000 |} |};
   {| paso_hoy := 739001; paso_request := anonimo POST;
      paso_accion := a_cerrar_presupuesto 1 |};
   {| paso_hoy := 739002; paso_request := anonimo POST;
      paso_accion := a_crear_transaccion_simple (pago_supplies 20000) |}].

(** Seven requests against budget 1: six that would change the budget or
    its items, then a payment posted on its item 1. *)
Definition pasos_sobre_presupuesto : list Paso :=
  let paso a := {| paso_hoy := 739010; paso_request := anonimo POST; paso_accion := a |} in
  [paso (a_editar_presupuesto 1
           {| post_nombre := "Feb-2025"; post_creado_por := 1;
              post_pres_fecha_limite := 739060; post_periodo := Mensual |});
   paso (a_agregar_item 1 (item_travel 20000));
   paso (a_editar_item 1 1 (item_travel 20000));
   paso (a_eliminar_item 1 1);
   paso (a_copiar_items 1 (Some 1%nat) [1%nat]);
   paso (a_eliminar_presupuesto 1);
   paso (a_crear_transaccion_simple (pago_supplies 20000))].

(** Three postings on item 1, one through each posting view. *)
Definition pasos_de_pago : list Paso :=
  let paso a := {| paso_hoy := 739010; paso_request := anonimo POST; paso_accion := a |} in
  [paso (a_crear_transaccion_simple (pago_supplies 20000));
   paso (a_registrar_transaccion 1 (pago_supplies 20000));
   paso (a_crear_transaccion_general (pago_supplies 20000))].

(** The tables of [db_supplies] after a payment of 20000 on item 1. *)
Definition db_supplies_pagado : DB :=
  db_final (crear_transaccion_simple db_supplies (anonimo POST) (pago_supplies 20000)).

(** * Properties *)

(** ** Days remaining and colour of a payable *)

Lemma dias_restantes_pendiente hoy c :
  cuenta_estado c = pendiente →
  dias_restantes hoy c = Some (cuenta_fecha_limite c - hoy).
Proof. intros E. unfold dias_restantes. by rewrite E. Qed.

Lemma dias_restantes_cerrada hoy c :
  cuenta_estado c ≠ pendiente → dias_restantes hoy c = None.
Proof. unfold dias_restantes. by destruct (cuenta_estado c). Qed.

(** C7: [dias_restantes] is the due date minus today for a pending payable
    and [None] for a paid or annulled one; [get_color_estado] is gray for
    paid or annulled, red up to 1 day, orange from 2 to 5 days, green from
    6 days; a pending payable due three days ago has -3 days and is red. *)
Theorem dias_restantes_y_color (hoy : Z) (c : CuentaPorPagar) :
  (cuenta_estado c = pendiente →
     dias_restantes hoy c = Some (cuenta_fecha_limite c - hoy)) ∧
  (cuenta_estado c = pagado ∨ cuenta_estado c = anulado →
     dias_restantes hoy c = None ∧ get_color_estado hoy c = gray) ∧
  (cuenta_estado c = pendiente →
     (cuenta_fecha_limite c - hoy ≤ 1 → get_color_estado hoy c = red) ∧
     (2 ≤ cuenta_fecha_limite c - hoy ≤ 5 → get_color_estado hoy c = orange) ∧
     (6 ≤ cuenta_fecha_limite c - hoy → get_color_estado hoy c = green)) ∧
  (cuenta_estado c = pendiente → cuenta_fecha_limite c = hoy - 3 →
     dias_restantes hoy c = Some (-3) ∧ get_color_estado hoy c = red).
Proof.
  assert (Hcolor : cuenta_estado c = pendiente →
            get_color_estado hoy c =
              let dias := cuenta_fecha_limite c - hoy in
              if dias <? 0 then red else if dias <=? 1 then red
              else if dias <=? 5 then orange else green).
  { intros E. unfold get_color_estado.
    rewrite (dias_restantes_pendiente _ _ E), E. done. }
  split_and!.
  - apply dias_restantes_pendiente.
  - intros E. unfold get_color_estado.
    rewrite dias_restantes_cerrada; [done | destruct E; congruence].
  - intros E. rewrite (Hcolor E). cbv zeta.
    split_and!; intros; repeat case_match; try done; lia.
  - intros E L. rewrite (Hcolor E), (dias_restantes_pendiente _ _ E), L. cbv zeta.
    replace (hoy - 3 - hoy) with (-3) by lia. done.
Qed.

Lemma dias_restantes_y_color_F001 :
  dias_restantes 739000 factura_F001 = Some (-3) ∧
  get_color_estado 739000 factura_F001 = red.
Proof.
  apply (dias_restantes_y_color 739000 factura_F001); reflexivity.
Defined.

(** ** The comparison API and the state of the budget *)

(** Whatever the state of a stored budget, the routed definition answers
    with the comparison rows. *)
Lemma api_comparar_presupuesto_sin_guarda db pk p :
  get_presupuesto db pk = Some p →
  api_comparar_presupuesto db pk =
    JsonDatos {| datos_items := items_detalle db p;
                 presupuesto_nombre := pres_nombre p |} 200.
Proof. intros E. unfold api_comparar_presupuesto. by rewrite E. Qed.

(** The definition with the check answers an open budget with the error. *)
Lemma api_comparar_presupuesto_1908_abierto db pk p :
  get_presupuesto db pk = Some p → pres_estado p = abierto →
  api_comparar_presupuesto_1908 db pk = JsonError (error_no_cerrado (pres_nombre p)) 400.
Proof. intros E A. unfold api_comparar_presupuesto_1908. by rewrite E, A. Qed.

(** C1: on the open budget 'enero' the routed [api_comparar_presupuesto]
    answers 200 with the comparison rows, where the claim asks for the
    'must be closed' error that the definition at line 1908 gives. *)
Theorem api_comparar_presupuesto_abierto :
  pres_estado <$> get_presupuesto db_enero 1 = Some abierto ∧
  api_comparar_presupuesto db_enero 1 =
    JsonDatos
      {| datos_items :=
           [{| det_nombre := "Supplies"; presupuestado := Decimal_of_int 50000;
               ejecutado := 0; diferencia := Decimal_of_int 50000 |}];
         presupuesto_nombre := "enero" |} 200 ∧
  api_comparar_presupuesto_1908 db_enero 1 = JsonError (error_no_cerrado "enero") 400.
Proof. by vm_compute. Qed.

(** ** Names of budgets *)

Lemma existsb_iexact_false nombre (l : list Presupuesto) :
  existsb (λ p, iexact (pres_nombre p) nombre) l = false →
  Lower nombre ∉ (Lower ∘ pres_nombre <$> l).
Proof.
  induction l as [|p l IH]; simpl; intros E; [by apply not_elem_of_nil|].
  apply orb_false_iff in E as [E1 E2].
  apply not_elem_of_cons. split; [|by apply IH].
  unfold iexact in E1. apply bool_decide_eq_false in E1. congruence.
Qed.

Lemma clean_nombre_inr db v nombre :
  clean_nombre db v = inr nombre →
  existsb (λ p, iexact (pres_nombre p) nombre) (presupuestos db) = false.
Proof.
  unfold clean_nombre. intros E.
  repeat case_match; simplify_eq. done.
Qed.

(** [crear_presupuesto] keeps the names of the budgets distinct up to case. *)
Lemma crear_presupuesto_nombres_unicos hoy db request d :
  nombres_unicos db →
  nombres_unicos (db_final (crear_presupuesto hoy db request d)).
Proof.
  unfold nombres_unicos, crear_presupuesto. intros H.
  destruct (method request); [done|].
  destruct (PresupuestoForm_errors hoy db d); [|done].
  destruct (clean_nombre db (post_nombre d)) as [|nombre] eqn:E; [done|].
  simpl. rewrite fmap_app. apply NoDup_app. split_and!; [done| |].
  - intros x Hx Hx'. apply list_elem_of_singleton in Hx'. subst x.
    by apply (existsb_iexact_false _ _ (clean_nombre_inr _ _ _ E)).
  - simpl. apply NoDup_singleton.
Qed.

(** C4: with the budget 'enero' stored, [crear_presupuesto] refuses the
    name 'ENERO', while [copiar_presupuesto] with the same name stores a
    second budget: the two names then agree up to case. *)
Theorem copiar_presupuesto_nombre_repetido :
  let d := {| post_nombre := "ENERO"; post_creado_por := 1;
              post_pres_fecha_limite := 739031; post_periodo := Mensual |} in
  let r := copiar_presupuesto 739000 db_enero (anonimo POST) 1 (Some "ENERO") in
  mensajes (crear_presupuesto 739000 db_enero (anonimo POST) d) =
    [error_campo campo_nombre presupuesto_ya_existe] ∧
  db_final (crear_presupuesto 739000 db_enero (anonimo POST) d) = db_enero ∧
  pres_nombre <$> presupuestos (db_final r) = ["enero"; "ENERO"] ∧
  respuesta r = redirect "presupuestos:detalle" (Some 2%nat) ∧
  mensajes r = [success_presupuesto_copiado 1] ∧
  iexact "enero" "ENERO" = true.
Proof. by vm_compute. Qed.

(** ** The acting user *)

(** [get_or_create_default_user] is the first stored user or [None]; it
    leaves the table of users as it is. *)
Lemma get_or_create_default_user_first db :
  get_or_create_default_user db = (db, Ok (head (usuarios db))).
Proof. reflexivity. Qed.

(** C6: with a stored user the fallback is the first one; with no stored
    user [get_or_create_default_user] yields [None] and creates no
    'sistema_default' account, so the annulment by an anonymous caller
    ends in the integrity error of the missing user and writes no entry. *)
Theorem get_or_create_default_user_sin_usuarios :
  get_or_create_default_user db_factura = (db_factura, Ok (Some ana)) ∧
  get_or_create_default_user db_sin_usuarios = (db_sin_usuarios, Ok None) ∧
  anular_cuenta db_sin_usuarios (anonimo POST) 1 None =
    {| db_final := db_sin_usuarios; mensajes := [];
       respuesta := excepcion_no_capturada IntegrityError |}.
Proof. by vm_compute. Qed.

(** ** Registering a payment *)

(** C5: for the pending invoice 'F001-2024', with no stored user and an
    anonymous caller, [registrar_pago] writes no entry and leaves the
    invoice pending: the payment is refused with the integrity error of
    the missing user. *)
Theorem registrar_pago_sin_usuarios :
  cuenta_estado <$> get_cuenta db_sin_usuarios 1 = Some pendiente ∧
  registrar_pago 739000 db_sin_usuarios (anonimo POST) 1 =
    {| db_final := db_sin_usuarios;
       mensajes := [error_al_registrar_pago IntegrityError];
       respuesta := redirect "presupuestos:detalle_cuenta" (Some 1%nat) |}.
Proof. by vm_compute. Qed.

Lemma get_cuenta_Some db pk c :
  get_cuenta db pk = Some c → cuenta_id c = pk ∧ c ∈ cuentas db.
Proof.
  unfold get_cuenta. intros E.
  assert (H : c ∈ filter (λ c, cuenta_id c = pk) (cuentas db)).
  { destruct (filter _ _); simplify_eq/=. apply list_elem_of_here. }
  by apply list_elem_of_filter in H.
Qed.

Lemma get_cuenta_actualizada (l : list CuentaPorPagar) pk c c' :
  head (filter (λ o, cuenta_id o = pk) l) = Some c → cuenta_id c' = pk →
  head (filter (λ o, cuenta_id o = pk)
          ((λ o, if bool_decide (cuenta_id o = pk) then c' else o) <$> l))
  = Some c'.
Proof.
  intros E Hc'. induction l as [|o l IH]; [done|].
  rewrite fmap_cons. rewrite filter_cons in E.
  case_bool_decide as Ho.
  - rewrite filter_cons. by rewrite decide_True.
  - rewrite decide_False in E by done.
    rewrite filter_cons, decide_False by done. by apply IH.
Qed.

Lemma full_clean_con_estado db db' c e pago :
  cuentas db' = cuentas db →
  full_clean db' [] (con_estado c e pago) = full_clean db [] c.
Proof.
  intros E. unfold full_clean, validate_unique, clean, clean_fields. simpl.
  by rewrite E.
Qed.

Lemma existsb_cuenta_id (l : list CuentaPorPagar) c :
  c ∈ l → existsb (λ o, bool_decide (cuenta_id o = cuenta_id c)) l = true.
Proof.
  intros H. apply existsb_exists. exists c. split; [by apply list_elem_of_In|].
  by apply bool_decide_eq_true.
Qed.

(** The payment of a pending, valid payable by a resolved acting user:
    one entry more, for the full amount and in state [pagado], and the
    payable is [pagado] with today's payment date. *)
Lemma registrar_pago_pendiente hoy db request pk c u :
  get_cuenta db pk = Some c → cuenta_estado c = pendiente →
  method request = POST →
  usuario_registro db request = (db, Ok (Some u)) →
  full_clean db [] c = [] →
  let r := registrar_pago hoy db request pk in
  historial_pagos (db_final r) =
    historial_pagos db ++
    [{| hist_id := nuevo_id (hist_id <$> historial_pagos db);
        hist_cuenta := pk; monto_pagado := Decimal_of_int (cuenta_monto c);
        hist_metodo_pago := "otros"; hist_referencia := "PAGO_REGISTRADO";
        hist_observaciones := "Pago registrado mediante confirmacion";
        hist_usuario := user_id u; hist_estado := pagado |}] ∧
  get_cuenta (db_final r) pk = Some (con_estado c pagado (Some hoy)).
Proof.
  intros Hc Hp Hm Hu Hv.
  destruct (get_cuenta_Some _ _ _ Hc) as [Hid Hin].
  unfold registrar_pago. rewrite Hc. unfold puede_modificar_cuenta.
  rewrite Hp, Hm, Hu. simpl.
  unfold CuentaPorPagar_save.
  rewrite (full_clean_con_estado db) by done. rewrite Hv. simpl.
  rewrite (existsb_cuenta_id _ _ Hin).
  destruct (XMLHttpRequest request); simpl; rewrite Hid; (split; [done|]);
    unfold get_cuenta; simpl; by apply get_cuenta_actualizada with (c := c).
Qed.

(** A payable that is not pending is left as it is, and so is the ledger. *)
Lemma registrar_pago_no_pendiente hoy db request pk c :
  get_cuenta db pk = Some c → cuenta_estado c ≠ pendiente →
  let r := registrar_pago hoy db request pk in
  db_final r = db ∧
  (respuesta r = JsonResponse false error_cuenta_no_modificable 200 ∨
   mensajes r = [error_cuenta_no_modificable]).
Proof.
  intros Hc Hp. unfold registrar_pago. rewrite Hc. unfold puede_modificar_cuenta.
  rewrite bool_decide_eq_false_2 by done. simpl.
  destruct (XMLHttpRequest request); simpl; auto.
Qed.

(** Paying twice: the second call changes nothing. *)
Lemma registrar_pago_dos_veces hoy db request pk c u :
  get_cuenta db pk = Some c → cuenta_estado c = pendiente →
  method request = POST →
  usuario_registro db request = (db, Ok (Some u)) →
  full_clean db [] c = [] →
  let db1 := db_final (registrar_pago hoy db request pk) in
  db_final (registrar_pago hoy db1 request pk) = db1.
Proof.
  intros Hc Hp Hm Hu Hv db1.
  destruct (registrar_pago_pendiente hoy db request pk c u) as [_ H]; try done.
  by apply (registrar_pago_no_pendiente hoy db1 request pk _ H).
Qed.

Lemma registrar_pago_dos_veces_F001 :
  db_final (registrar_pago 739000
              (db_final (registrar_pago 739000 db_factura (anonimo POST) 1))
              (anonimo POST) 1)
  = db_final (registrar_pago 739000 db_factura (anonimo POST) 1).
Proof.
  apply (registrar_pago_dos_veces 739000 db_factura (anonimo POST) 1 factura_F001 ana);
    reflexivity.
Defined.

(** ** Posting transactions *)

Lemma get_presupuesto_Some db pk p :
  get_presupuesto db pk = Some p → pres_id p = pk ∧ p ∈ presupuestos db.
Proof.
  unfold get_presupuesto. intros E.
  assert (H : p ∈ filter (λ p, pres_id p = pk) (presupuestos db)).
  { destruct (filter _ _); simplify_eq/=. apply list_elem_of_here. }
  by apply list_elem_of_filter in H.
Qed.

Lemma get_item_Some db pk i :
  get_item db pk = Some i → item_id i = pk ∧ i ∈ items db.
Proof.
  unfold get_item. intros E.
  assert (H : i ∈ filter (λ i, item_id i = pk) (items db)).
  { destruct (filter _ _); simplify_eq/=. apply list_elem_of_here. }
  by apply list_elem_of_filter in H.
Qed.

Lemma metodo_no_vacio m : m ∈ METODO_PAGO_CHOICES → m ≠ "".
Proof.
  unfold METODO_PAGO_CHOICES. intros H ->.
  repeat (apply elem_of_cons in H as [H|H]; [discriminate|]).
  by apply elem_of_nil in H.
Qed.


Lemma monto_en_rango_true m : 0 ≤ m < MONTO_MAX → monto_en_rango m = true.
Proof. intros H. unfold monto_en_rango. apply Z.ltb_lt. lia. Qed.







Lemma Transaccion_objects_create_Ok db pid iid m f mp ref obs u :
  0 ≤ m < MONTO_MAX →
  Transaccion_objects_create db pid iid m f mp ref obs u =
    Ok (set_transacciones db
          (transacciones db ++
           [{| trans_id := nuevo_id (trans_id <$> transacciones db);
               trans_presupuesto := pid; trans_item_presupuesto := iid; trans_monto := m;
               trans_metodo_pago := mp; trans_referencia := ref; trans_fecha_pago := f;
               trans_observaciones := obs; trans_usuario := u |}])).
Proof.
  intros Hm. unfold Transaccion_objects_create. by rewrite (monto_en_rango_true m Hm).
Qed.

Lemma transacciones_create db pid iid m f mp ref obs u db' :
  Transaccion_objects_create db pid iid m f mp ref obs u = Ok db' →
  presupuestos db' = presupuestos db ∧ items db' = items db ∧
  transacciones db' =
    transacciones db ++
    [{| trans_id := nuevo_id (trans_id <$> transacciones db);
        trans_presupuesto := pid; trans_item_presupuesto := iid; trans_monto := m;
        trans_metodo_pago := mp; trans_referencia := ref; trans_fecha_pago := f;
        trans_observaciones := obs; trans_usuario := u |}].
Proof.
  unfold Transaccion_objects_create. destruct (negb _); [done|]. by intros [= <-].
Qed.

(** [crear_transaccion_simple] on a posting in order: an amount of zero or
    more that fits the column is stored as it is, whatever the balance of
    the item. *)
Lemma posting_aceptado_simple db request d item p fecha m :
  method request = POST → pago_en_orden db d item p fecha →
  post_trans_monto d = monto_decimal m → 0 ≤ m < MONTO_MAX →
  crear_transaccion_simple db request d =
    {| db_final :=
         set_transacciones db
           (transacciones db ++
            [{| trans_id := nuevo_id (trans_id <$> transacciones db);
                trans_presupuesto := pres_id p; trans_item_presupuesto := item_id item;
                trans_monto := m; trans_metodo_pago := post_metodo_pago d;
                trans_referencia := post_referencia d; trans_fecha_pago := fecha;
                trans_observaciones := post_trans_observaciones d;
                trans_usuario := user_id <$> user request |}]);
       mensajes := [success_pago_item (item_nombre item)];
       respuesta := redirect "presupuestos:lista_transacciones_completa" None |}.
Proof.
  intros Hpost (Hi & Hg & Hp & Hc & Hf & Hm) Hmonto Hpos.
  unfold crear_transaccion_simple. rewrite Hpost, Hi, Hmonto, Hf.
  rewrite bool_decide_eq_false_2 by by apply metodo_no_vacio.
  simpl. replace (m <? 0) with false by lia.
  rewrite Hg, Hp, Hc. cbn [negb bool_decide]. rewrite bool_decide_eq_true_2 by done.
  cbn [negb]. by rewrite Transaccion_objects_create_Ok.
Qed.



Lemma app_singleton_neq {A} (l : list A) x : l ++ [x] ≠ l.
Proof.
  intros E. apply (f_equal length) in E. rewrite length_app in E. simpl in E. lia.
Qed.









(** ** Creating a payable: the invoice number *)

Lemma nuevo_id_fresco (ids : list nat) : nuevo_id ids ∉ ids.
Proof.
  intros H. apply max_list_elem_of_le in H. unfold nuevo_id in H. lia.
Qed.

Lemma existsb_false_iff {A} (f : A → bool) (l : list A) :
  existsb f l = false ↔ ∀ x, x ∈ l → f x = false.
Proof.
  induction l as [|a l IH]; simpl.
  - split; [intros _ x Hx; by apply elem_of_nil in Hx | done].
  - rewrite orb_false_iff, IH. split.
    + intros [Ha Hl] x Hx. apply elem_of_cons in Hx as [-> | Hx]; auto.
    + intros H. split; [apply H, list_elem_of_here|].
      intros x Hx. apply H. by apply list_elem_of_further.
Qed.









(** ** Copying items: names *)

Lemma nombre_unico_no_existente nombre (existentes : gset string) :
  nombre ∉ existentes → nombre_unico nombre existentes = nombre.
Proof.
  intros H. unfold nombre_unico. simpl. by rewrite bool_decide_eq_false_2.
Qed.

Lemma get_item_de_Ok db pk origen i :
  get_item_de db pk origen = Ok i →
  item_id i = pk ∧ item_presupuesto i = origen ∧ i ∈ items db.
Proof.
  unfold get_item_de. intros E.
  assert (H : i ∈ filter (λ i, item_id i = pk ∧ item_presupuesto i = origen) (items db)).
  { destruct (filter _ _); simplify_eq/=. apply list_elem_of_here. }
  apply list_elem_of_filter in H as [[? ?] ?]. done.
Qed.

(** An item whose name agrees only up to case with a name of the
    destination: the loop body leaves the tables and the counter as they
    were. *)
Lemma copiar_item_solo_mayusculas db origen destino n pk item_original existente :
  get_item_de db pk origen = Ok item_original →
  existente ∈ items_de db destino →
  Lower (item_nombre existente) = Lower (item_nombre item_original) →
  item_nombre item_original ∉ item_nombre <$> items_de db destino →
  copiar_item origen destino (db, n) pk = (db, n).
Proof.
  intros Hget Hex Hlow Hno. unfold copiar_item. rewrite Hget.
  rewrite nombre_unico_no_existente by by rewrite elem_of_list_to_set.
  unfold ItemPresupuesto_objects_create.
  replace (existsb _ (items db)) with true; [done|].
  symmetry. apply existsb_exists. exists existente.
  apply list_elem_of_filter in Hex as [Hd Hin].
  split; [by apply list_elem_of_In|].
  apply andb_true_iff. split; by apply bool_decide_eq_true.
Qed.

(** C10: in [copiar_items], a selected item whose name differs only in
    letter case from a name of the destination keeps its name without a
    suffix, its insert is refused by the unique constraint, the refusal is
    passed over and nothing of it is stored; the view goes on with the
    other selected items and answers with the success message and the
    number of items it did copy. *)
Theorem copiar_items_solo_mayusculas db request pk destino_pk origen destino
    item_pk resto item_original existente :
  method request = POST →
  get_presupuesto db pk = Some origen →
  get_presupuesto db destino_pk = Some destino →
  pres_estado destino = abierto →
  get_item_de db item_pk pk = Ok item_original →
  existente ∈ items_de db destino_pk →
  Lower (item_nombre existente) = Lower (item_nombre item_original) →
  item_nombre item_original ∉ item_nombre <$> items_de db destino_pk →
  copiar_item pk destino_pk (db, 0%nat) item_pk = (db, 0%nat) ∧
  copiar_items db request pk (Some destino_pk) (item_pk :: resto) =
    let '(db', items_copiados) :=
      foldl (copiar_item pk destino_pk) (db, 0%nat) resto in
    {| db_final := db';
       mensajes := [success_items_copiados items_copiados (pres_nombre destino)];
       respuesta := redirect "presupuestos:detalle" (Some destino_pk) |}.
Proof.
  intros Hpost Ho Hd Habierto Hget Hex Hlow Hno.
  pose proof (copiar_item_solo_mayusculas db pk destino_pk 0 item_pk item_original
                existente Hget Hex Hlow Hno) as Hpaso.
  split; [done|].
  destruct (get_presupuesto_Some _ _ _ Ho) as [Hoid _].
  destruct (get_presupuesto_Some _ _ _ Hd) as [Hdid _].
  unfold copiar_items, puede_modificar.
  rewrite Ho, Hpost, Hd, Habierto, Hoid, Hdid.
  rewrite bool_decide_eq_true_2 by done.
  cbn [negb foldl]. by rewrite Hpaso.
Qed.

Lemma copiar_items_solo_mayusculas_rent :
  copiar_items db_rent (anonimo POST) 1 (Some 2%nat) [1%nat] =
    {| db_final := db_rent;
       mensajes := [success_items_copiados 0 "destino"];
       respuesta := redirect "presupuestos:detalle" (Some 2%nat) |}.
Proof.
  refine (proj2 (copiar_items_solo_mayusculas db_rent (anonimo POST) 1 2
            (presupuesto_ejemplo 1 "origen" abierto)
            (presupuesto_ejemplo 2 "destino" abierto) 1 []
            (item_ejemplo 1 1 "Rent" 400000) (item_ejemplo 2 2 "rent" 350000)
            _ _ _ _ _ _ _ _)); try reflexivity.
  - vm_compute. apply list_elem_of_here.
  - vm_compute. intros H. apply list_elem_of_singleton in H. discriminate.
Defined.

(** ** The loop that makes a name unique *)







(** More fuel does not change the name the loop ends with. *)
Lemma nombre_unico_loop_mas_fuel nombre (existentes : gset string) fuel extra :
  ∀ nombre_final contador r,
    nombre_unico_loop fuel nombre existentes nombre_final contador = Some r →
    nombre_unico_loop (fuel + extra) nombre existentes nombre_final contador = Some r.
Proof.
  induction fuel as [|fuel IH]; intros nf c r E; [done|].
  simpl in *. case_bool_decide; [by apply IH | done].
Qed.



(** ** Copying a whole budget *)

Lemma items_de_create db destino nombre descripcion monto db' pk :
  ItemPresupuesto_objects_create db destino nombre descripcion monto = Ok db' →
  presupuestos db' = presupuestos db ∧
  items_de db' pk =
    items_de db pk ++
    (if decide (destino = pk)
     then [{| item_id := nuevo_id (item_id <$> items db); item_presupuesto := destino;
              item_nombre := nombre; item_descripcion := descripcion;
              item_monto := monto |}]
     else []).
Proof.
  unfold ItemPresupuesto_objects_create. case_match; [done|].
  intros [= <-]. split; [done|]. unfold items_de. simpl.
  rewrite filter_app, filter_cons, filter_nil. simpl. by repeat case_decide.
Qed.





(** * Further properties *)

(** ** Payables: annulment, deletion, ledger *)

Lemma usuario_registro_db db request : (usuario_registro db request).1 = db.
Proof. unfold usuario_registro. by destruct (get_current_user request). Qed.

(** X1: the annulment of a pending, valid payable by a resolved acting
    user writes one ledger entry of amount 0 in state [anulado], with the
    given reason or the default text, and leaves the payable [anulado]
    with its payment date untouched. *)
Theorem anular_cuenta_pendiente db request pk c u observaciones :
  get_cuenta db pk = Some c → cuenta_estado c = pendiente →
  method request = POST →
  usuario_registro db request = (db, Ok (Some u)) →
  full_clean db [] c = [] →
  let r := anular_cuenta db request pk observaciones in
  historial_pagos (db_final r) =
    historial_pagos db ++
    [{| hist_id := nuevo_id (hist_id <$> historial_pagos db);
        hist_cuenta := pk; monto_pagado := 0;
        hist_metodo_pago := "anulacion"; hist_referencia := "ANULACION";
        hist_observaciones := default "Cuenta anulada" observaciones;
        hist_usuario := user_id u; hist_estado := anulado |}] ∧
  get_cuenta (db_final r) pk = Some (con_estado c anulado (cuenta_fecha_pago c)) ∧
  respuesta r = JsonResponse true success_cuenta_anulada 200.
Proof.
  intros Hc Hp Hm Hu Hv.
  destruct (get_cuenta_Some _ _ _ Hc) as [Hid Hin].
  unfold anular_cuenta. rewrite Hc, Hm, Hp, Hu. simpl.
  unfold CuentaPorPagar_save.
  rewrite (full_clean_con_estado db) by done. rewrite Hv. simpl.
  rewrite (existsb_cuenta_id _ _ Hin). simpl. rewrite Hid.
  split_and!; [done| |done].
  unfold get_cuenta. simpl. by apply get_cuenta_actualizada with (c := c).
Qed.

Lemma anular_cuenta_pendiente_F001 :
  get_cuenta (db_final (anular_cuenta db_factura (anonimo POST) 1 (Some "duplicada"))) 1
  = Some (con_estado factura_F001 anulado None).
Proof.
  refine (proj1 (proj2 (anular_cuenta_pendiente db_factura (anonimo POST) 1 factura_F001
            ana (Some "duplicada") _ _ _ _ _))); reflexivity.
Defined.

(** X2: a payable that is paid or annulled is final: payment, annulment
    and deletion, whatever the request, leave every table as it is. *)
Theorem cuenta_no_pendiente_inmutable hoy db request pk c observaciones :
  get_cuenta db pk = Some c → cuenta_estado c ≠ pendiente →
  db_final (registrar_pago hoy db request pk) = db ∧
  db_final (anular_cuenta db request pk observaciones) = db ∧
  salida_db (eliminar_cuenta_por_pagar db request pk) = db ∧
  contestacion (eliminar_cuenta_por_pagar db request pk)
    = json_fallo aviso_no_eliminar_cuenta 400.
Proof.
  intros Hc Hp. split_and!.
  - by apply (registrar_pago_no_pendiente hoy db request pk c).
  - unfold anular_cuenta. rewrite Hc.
    destruct (method request); [done|].
    by rewrite bool_decide_eq_false_2.
  - unfold eliminar_cuenta_por_pagar, puede_modificar_cuenta. rewrite Hc.
    by rewrite bool_decide_eq_false_2.
  - unfold eliminar_cuenta_por_pagar, puede_modificar_cuenta. rewrite Hc.
    by rewrite bool_decide_eq_false_2.
Qed.

Lemma cuenta_no_pendiente_inmutable_pagada :
  db_final (anular_cuenta db_pagada (anonimo POST) 1 None) = db_pagada.
Proof.
  refine (proj1 (proj2 (cuenta_no_pendiente_inmutable 739000 db_pagada (anonimo POST) 1
            (con_estado factura_F001 pagado (Some 739000)) None _ _))).
  - reflexivity.
  - discriminate.
Defined.

Lemma filter_id_distinto {A} (f : A → nat) (l : list A) (pk pk' : nat) :
  pk' ≠ pk →
  filter (λ x, f x = pk') (filter (λ x, f x ≠ pk) l) = filter (λ x, f x = pk') l.
Proof.
  intros Hne. induction l as [|x l IH]; [done|].
  rewrite !filter_cons.
  destruct (decide (f x = pk)) as [E | E].
  - rewrite decide_False by (intros H; apply H; done).
    rewrite decide_False by congruence. done.
  - rewrite decide_True by done. rewrite filter_cons.
    case_decide; by rewrite IH.
Qed.

Lemma filter_id_mismo {A} (f : A → nat) (l : list A) (pk : nat) :
  filter (λ x, f x = pk) (filter (λ x, f x ≠ pk) l) = [].
Proof.
  induction l as [|x l IH]; [done|].
  rewrite filter_cons.
  destruct (decide (f x = pk)) as [E | E].
  - by rewrite decide_False by (intros H; apply H; done).
  - rewrite decide_True by done. rewrite filter_cons.
    by rewrite decide_False by done.
Qed.

(** X3: the deletion of a pending payable takes the payable and every
    ledger entry of it, and no other payable. *)
Theorem eliminar_cuenta_pendiente db request pk c :
  get_cuenta db pk = Some c → cuenta_estado c = pendiente →
  method request = POST →
  let db' := salida_db (eliminar_cuenta_por_pagar db request pk) in
  get_cuenta db' pk = None ∧
  filter (λ h, hist_cuenta h = pk) (historial_pagos db') = [] ∧
  (∀ pk', pk' ≠ pk →
     get_cuenta db' pk' = get_cuenta db pk' ∧
     filter (λ h, hist_cuenta h = pk') (historial_pagos db') =
       filter (λ h, hist_cuenta h = pk') (historial_pagos db)).
Proof.
  intros Hc Hp Hm.
  destruct (get_cuenta_Some _ _ _ Hc) as [Hid _].
  unfold eliminar_cuenta_por_pagar, puede_modificar_cuenta.
  rewrite Hc, Hp, Hm, Hid. simpl. unfold get_cuenta. simpl.
  split_and!.
  - by rewrite (filter_id_mismo cuenta_id).
  - by rewrite (filter_id_mismo hist_cuenta).
  - intros pk' Hne.
    by rewrite (filter_id_distinto cuenta_id), (filter_id_distinto hist_cuenta).
Qed.

Lemma eliminar_cuenta_pendiente_F001 :
  get_cuenta (salida_db (eliminar_cuenta_por_pagar db_factura (anonimo POST) 1)) 1 = None.
Proof.
  refine (proj1 (eliminar_cuenta_pendiente db_factura (anonimo POST) 1 factura_F001 _ _ _));
    reflexivity.
Defined.

Lemma historial_create db c m mp ref obs u e db' :
  HistorialPago_objects_create db c m mp ref obs u e = Ok db' →
  cuentas db' = cuentas db ∧
  ∃ h, historial_pagos db' = historial_pagos db ++ [h] ∧ hist_estado h = e ∧
       hist_cuenta h = cuenta_id c ∧ monto_pagado h = m.
Proof.
  unfold HistorialPago_objects_create. destruct u; [|done].
  intros [= <-]. split; [done|]. eexists. split_and!; done.
Qed.

Lemma historial_save db c db' :
  CuentaPorPagar_save db c = Ok db' → historial_pagos db' = historial_pagos db.
Proof.
  unfold CuentaPorPagar_save. repeat case_match; try done; by intros [= <-].
Qed.

(** X4: the ledger only grows: whatever the request, [registrar_pago] and
    [anular_cuenta] keep every entry of the ledger, in place and
    unchanged, and add at most one. *)
Theorem historial_solo_crece hoy db request pk observaciones :
  (∃ nuevas, historial_pagos (db_final (registrar_pago hoy db request pk))
             = historial_pagos db ++ nuevas ∧ (length nuevas ≤ 1)%nat) ∧
  (∃ nuevas, historial_pagos (db_final (anular_cuenta db request pk observaciones))
             = historial_pagos db ++ nuevas ∧ (length nuevas ≤ 1)%nat).
Proof.
  assert (Hnada : ∃ nuevas, historial_pagos db = historial_pagos db ++ nuevas ∧
                            (length nuevas ≤ 1)%nat).
  { exists []. rewrite app_nil_r. simpl. split; [done | lia]. }
  pose proof (usuario_registro_db db request) as Hu.
  destruct (usuario_registro db request) as [db1 u] eqn:Eu. simpl in Hu. subst db1.
  split.
  - unfold registrar_pago.
    destruct (get_cuenta db pk) as [c|]; [|done].
    destruct (puede_modificar_cuenta c); simpl;
      [|by destruct (XMLHttpRequest request)].
    destruct (method request); [done|]. rewrite Eu.
    destruct u as [u|e]; [|by destruct (XMLHttpRequest request)].
    destruct (HistorialPago_objects_create _ _ _ _ _ _ _ _) as [db2|e] eqn:E2;
      [|by destruct (XMLHttpRequest request)].
    apply historial_create in E2 as (_ & h & Hh & _).
    assert (Huna : ∃ nuevas, historial_pagos db2 = historial_pagos db ++ nuevas ∧
                             (length nuevas ≤ 1)%nat).
    { exists [h]. split; [done | simpl; lia]. }
    destruct (CuentaPorPagar_save db2 _) as [db3|e] eqn:E3.
    + apply historial_save in E3. destruct (XMLHttpRequest request); simpl;
        by rewrite E3.
    + by destruct (XMLHttpRequest request).
  - unfold anular_cuenta.
    destruct (get_cuenta db pk) as [c|]; [|done].
    destruct (method request); [done|].
    destruct (bool_decide (cuenta_estado c = pendiente)); simpl; [|done].
    rewrite Eu. destruct u as [u|e]; [|done].
    destruct (HistorialPago_objects_create _ _ _ _ _ _ _ _) as [db2|e] eqn:E2; [|done].
    apply historial_create in E2 as (_ & h & Hh & _).
    assert (Huna : ∃ nuevas, historial_pagos db2 = historial_pagos db ++ nuevas ∧
                             (length nuevas ≤ 1)%nat).
    { exists [h]. split; [done | simpl; lia]. }
    destruct (CuentaPorPagar_save db2 _) as [db3|e] eqn:E3; [|done].
    apply historial_save in E3. simpl. by rewrite E3.
Qed.

Lemma existsb_iexact_factura_false nf (l : list CuentaPorPagar) :
  existsb (λ o, iexact (numero_factura o) nf) l = false →
  Lower nf ∉ (Lower ∘ numero_factura <$> l).
Proof.
  intros E H. apply list_elem_of_fmap in H as (o & Ho & Hin).
  apply (proj1 (existsb_false_iff _ _) E) in Hin.
  unfold iexact in Hin. apply bool_decide_eq_false in Hin. by apply Hin.
Qed.

(** X5: [crear_cuenta_por_pagar] keeps the invoice numbers distinct up to
    case, and what it stores is a pending payable without payment date. *)
Theorem crear_cuenta_facturas_unicas hoy db request d :
  facturas_unicas db →
  let db' := db_final (crear_cuenta_por_pagar hoy db request d) in
  facturas_unicas db' ∧
  (db' = db ∨
   ∃ c, cuentas db' = cuentas db ++ [c] ∧ numero_factura c = post_numero_factura d ∧
        cuenta_estado c = pendiente ∧ cuenta_fecha_pago c = None ∧
        cuenta_monto c = post_monto d).
Proof.
  intros Hu. unfold crear_cuenta_por_pagar.
  destruct (method request); simpl; [auto|].
  unfold CuentaPorPagarForm_is_valid. case_bool_decide as Herr; simpl; [|auto].
  assert (Hdup : existsb (λ o, iexact (numero_factura o) (post_numero_factura d))
                   (cuentas db) = false).
  { unfold CuentaPorPagarForm_errors in Herr. apply app_eq_nil in Herr as [Hform _].
    unfold CuentaPorPagarForm_clean in Hform. apply app_eq_nil in Hform as [Hnf _].
    unfold campo_texto, clean_numero_factura, si in Hnf.
    repeat case_match; try done. }
  pose proof Herr as Herr'. unfold CuentaPorPagarForm_errors in Herr'.
  apply app_eq_nil in Herr' as [Hform Hmodel]. rewrite Hform in Hmodel.
  simpl in Hmodel. unfold CuentaPorPagar_save. rewrite Hmodel.
  replace (existsb _ (cuentas db)) with false.
  2:{ symmetry. apply existsb_false_iff. intros o Ho. apply bool_decide_eq_false.
      simpl. intros E. apply (nuevo_id_fresco (cuenta_id <$> cuentas db)).
      rewrite <- E. by apply list_elem_of_fmap_2. }
  simpl. split.
  - unfold facturas_unicas. simpl. rewrite fmap_app. apply NoDup_app.
    split_and!; [done| |apply NoDup_singleton].
    intros x Hx Hx'. simpl in Hx'. apply list_elem_of_singleton in Hx'. subst x.
    by apply (existsb_iexact_factura_false _ _ Hdup).
  - right. eexists. split_and!; done.
Qed.

Lemma crear_cuenta_facturas_unicas_F001 :
  facturas_unicas
    (db_final (crear_cuenta_por_pagar 739000 db_vacia (anonimo POST) factura_corta)).
Proof.
  refine (proj1 (crear_cuenta_facturas_unicas 739000 db_vacia (anonimo POST)
                   factura_corta _)).
  apply NoDup_nil_2.
Defined.

Lemma digitos_length cs :
  length cs = ((digitos cs).1 + length (digitos cs).2)%nat.
Proof.
  induction cs as [|c cs IH]; [done|]. simpl.
  destruct (es_digito c); [|done].
  destruct (digitos cs) as [n resto]. simpl in *. lia.
Qed.

Lemma len_list_ascii s : len s = length (String.list_ascii_of_string s).
Proof. unfold len. induction s as [|c s IH]; simpl; [done | by rewrite IH]. Qed.

(** X6: a RUT that [RUT_VALIDATOR] accepts has 9 to 11 characters, so it
    is never refused for the 12 characters of its column. *)
Theorem RUT_VALIDATOR_longitud (s : string) :
  RUT_VALIDATOR s = true → (9 ≤ len s ≤ 11)%nat.
Proof.
  unfold RUT_VALIDATOR. rewrite len_list_ascii.
  rewrite (digitos_length (String.list_ascii_of_string s)).
  destruct (digitos _) as [n resto]. simpl.
  intros H. apply andb_true_iff in H as [Hn Hr].
  assert (n = 7 ∨ n = 8)%nat as Hn'.
  { apply orb_true_iff in Hn as [Hn | Hn]; apply bool_decide_eq_true in Hn; auto. }
  destruct resto as [|g [|v [|nl [|? ?]]]]; try done; simpl; lia.
Qed.

Lemma RUT_VALIDATOR_longitud_ejemplo : (9 ≤ len "12345678-9" ≤ 11)%nat.
Proof. apply (RUT_VALIDATOR_longitud "12345678-9"). reflexivity. Defined.

(** ** Budgets: closing, deleting, creating *)

Lemma get_presupuesto_actualizado (l : list Presupuesto) pk p p' :
  head (filter (λ o, pres_id o = pk) l) = Some p → pres_id p' = pk →
  head (filter (λ o, pres_id o = pk)
          ((λ o, if bool_decide (pres_id o = pk) then p' else o) <$> l))
  = Some p'.
Proof.
  intros E Hp'. induction l as [|o l IH]; [done|].
  rewrite fmap_cons. rewrite filter_cons in E.
  case_bool_decide as Ho.
  - rewrite filter_cons. by rewrite decide_True.
  - rewrite decide_False in E by done.
    rewrite filter_cons, decide_False by done. by apply IH.
Qed.

Lemma get_presupuesto_otro (l : list Presupuesto) pk pk' p' :
  pk' ≠ pk → pres_id p' = pk →
  filter (λ o, pres_id o = pk')
    ((λ o, if bool_decide (pres_id o = pk) then p' else o) <$> l)
  = filter (λ o, pres_id o = pk') l.
Proof.
  intros Hne Hp'. induction l as [|o l IH]; [done|].
  rewrite fmap_cons, !filter_cons. case_bool_decide as Ho.
  - rewrite !decide_False by congruence. done.
  - case_decide; by rewrite IH.
Qed.

(** X7: closing an open budget marks it [cerrado] and touches nothing
    else: its other fields, its items, the other budgets and the
    transactions stay; a second closing is refused with status 400 and
    changes nothing. *)
Theorem cerrar_presupuesto_abierto db request pk p :
  get_presupuesto db pk = Some p → pres_estado p = abierto →
  method request = POST →
  let r := cerrar_presupuesto db request pk in
  get_presupuesto (salida_db r) pk = Some (con_estado_presupuesto p cerrado) ∧
  items (salida_db r) = items db ∧
  transacciones (salida_db r) = transacciones db ∧
  (∀ pk', pk' ≠ pk → get_presupuesto (salida_db r) pk' = get_presupuesto db pk') ∧
  cerrar_presupuesto (salida_db r) request pk =
    sin_cambios (salida_db r) (json_fallo aviso_ya_cerrado 400).
Proof.
  intros Hg Ha Hm r.
  destruct (get_presupuesto_Some _ _ _ Hg) as [Hid _].
  assert (Hdespues :
    get_presupuesto (Presupuesto_save db (con_estado_presupuesto p cerrado)) pk
    = Some (con_estado_presupuesto p cerrado)).
  { unfold get_presupuesto, Presupuesto_save. simpl. rewrite Hid.
    by apply get_presupuesto_actualizado with (p := p). }
  assert (Hr : r = {| salida_db := Presupuesto_save db (con_estado_presupuesto p cerrado);
                      avisos := [];
                      contestacion := json_exito aviso_cerrado_exitosamente None |}).
  { unfold r, cerrar_presupuesto. by rewrite Hg, Hm, Ha. }
  rewrite Hr. simpl salida_db. split_and!; try done.
  - intros pk' Hne. unfold get_presupuesto, Presupuesto_save. simpl.
    by rewrite Hid, get_presupuesto_otro.
  - unfold cerrar_presupuesto. by rewrite Hdespues, Hm.
Qed.

Lemma cerrar_presupuesto_abierto_enero :
  get_presupuesto (salida_db (cerrar_presupuesto db_enero (anonimo POST) 1)) 1
  = Some (presupuesto_ejemplo 1 "enero" cerrado).
Proof.
  refine (proj1 (cerrar_presupuesto_abierto db_enero (anonimo POST) 1
                   (presupuesto_ejemplo 1 "enero" abierto) _ _ _)); reflexivity.
Defined.

Lemma copiar_item_destino_cerrado db request pk destino_pk destino sel :
  get_presupuesto db destino_pk = Some destino → pres_estado destino = cerrado →
  db_final (copiar_items db request pk (Some destino_pk) sel) = db.
Proof.
  intros Hd Hc. unfold copiar_items, puede_modificar.
  destruct (get_presupuesto db pk); [|done].
  destruct (method request); [done|]. by rewrite Hd, Hc.
Qed.

(** X8: a closed budget is frozen: adding, editing or deleting one of its
    items, copying items into it, editing it, closing it again and
    deleting it are all refused, whatever the request, and leave every
    table as it is. *)
Theorem presupuesto_cerrado_inmutable hoy db request pk p :
  get_presupuesto db pk = Some p → pres_estado p = cerrado →
  (∀ d, salida_db (agregar_item db request pk d) = db) ∧
  (∀ item_pk d, salida_db (editar_item db request pk item_pk d) = db) ∧
  (∀ item_pk, salida_db (eliminar_item db request pk item_pk) = db) ∧
  (∀ origen sel, db_final (copiar_items db request origen (Some pk) sel) = db) ∧
  (∀ d, salida_db (editar_presupuesto hoy db request pk d) = db) ∧
  salida_db (cerrar_presupuesto db request pk) = db ∧
  salida_db (eliminar_presupuesto db request pk) = db.
Proof.
  intros Hg Hc. split_and!.
  - intros d. unfold agregar_item, puede_modificar. by rewrite Hg, Hc.
  - intros item_pk d. unfold editar_item, puede_modificar. rewrite Hg, Hc.
    by destruct (get_item_en _ _ _).
  - intros item_pk. unfold eliminar_item, puede_modificar. rewrite Hg, Hc.
    by destruct (get_item_en _ _ _).
  - intros origen sel. by apply (copiar_item_destino_cerrado _ _ _ _ p).
  - intros d. unfold editar_presupuesto, puede_modificar. by rewrite Hg, Hc.
  - unfold cerrar_presupuesto. rewrite Hg, Hc. by destruct (method request).
  - unfold eliminar_presupuesto. by rewrite Hg, Hc.
Qed.

Lemma presupuesto_cerrado_inmutable_supplies :
  salida_db (eliminar_presupuesto db_supplies (anonimo POST) 1) = db_supplies.
Proof.
  refine (proj2 (proj2 (proj2 (proj2 (proj2 (proj2
            (presupuesto_cerrado_inmutable 739000 db_supplies (anonimo POST) 1
               (presupuesto_ejemplo 1 "Jan-2025" cerrado) _ _)))))));
    reflexivity.
Defined.

(** X9: the deletion of an open budget takes the budget, its items and
    every transaction of the budget or of one of its items; the other
    budgets and their items stay. *)
Theorem eliminar_presupuesto_abierto db request pk p :
  get_presupuesto db pk = Some p → pres_estado p = abierto →
  method request = POST →
  let db' := salida_db (eliminar_presupuesto db request pk) in
  get_presupuesto db' pk = None ∧
  items_de db' pk = [] ∧
  (∀ t, t ∈ transacciones db' →
        trans_presupuesto t ≠ pk ∧
        trans_item_presupuesto t ∉ (item_id <$> items_de db pk)) ∧
  (∀ pk', pk' ≠ pk →
     get_presupuesto db' pk' = get_presupuesto db pk' ∧
     items_de db' pk' = items_de db pk').
Proof.
  intros Hg Ha Hm.
  destruct (get_presupuesto_Some _ _ _ Hg) as [Hid _].
  unfold eliminar_presupuesto. rewrite Hg, Ha, Hm, Hid. simpl.
  unfold get_presupuesto, items_de. simpl. split_and!.
  - by rewrite (filter_id_mismo pres_id).
  - by rewrite (filter_id_mismo item_presupuesto).
  - intros t Ht. by apply list_elem_of_filter in Ht as [Ht _].
  - intros pk' Hne.
    by rewrite (filter_id_distinto pres_id), (filter_id_distinto item_presupuesto).
Qed.

Lemma eliminar_presupuesto_abierto_enero :
  get_presupuesto (salida_db (eliminar_presupuesto db_enero (anonimo POST) 1)) 1 = None.
Proof.
  refine (proj1 (eliminar_presupuesto_abierto db_enero (anonimo POST) 1
                   (presupuesto_ejemplo 1 "enero" abierto) _ _ _)); reflexivity.
Defined.

(** X10: whatever is posted, [crear_presupuesto] stores nothing or one
    budget more, and that budget is open, created today, due after today,
    owned by a stored user and named by the trimmed posted name, which is
    not blank, has at most 50 characters and is the name of no stored
    budget up to case. *)
Theorem crear_presupuesto_almacenado hoy db request d :
  let db' := db_final (crear_presupuesto hoy db request d) in
  db' = db ∨
  ∃ p, presupuestos db' = presupuestos db ++ [p] ∧
       pres_estado p = abierto ∧ pres_fecha_creacion p = hoy ∧
       hoy < pres_fecha_limite p ∧
       pres_creado_por p ∈ (user_id <$> usuarios db) ∧
       pres_nombre p = strip (post_nombre d) ∧ pres_nombre p ≠ "" ∧
       (len (pres_nombre p) ≤ 50)%nat ∧
       Lower (pres_nombre p) ∉ (Lower ∘ pres_nombre <$> presupuestos db).
Proof.
  unfold crear_presupuesto. destruct (method request); [by left|].
  destruct (PresupuestoForm_errors hoy db d) as [|e errs] eqn:Herr; [|by left].
  destruct (clean_nombre db (post_nombre d)) as [|nombre] eqn:Hn; [by left|].
  right. eexists. simpl. split; [done|]. simpl.
  unfold PresupuestoForm_errors in Herr.
  apply app_eq_nil in Herr as [_ Herr]. apply app_eq_nil in Herr as [Hu Hf].
  pose proof (existsb_iexact_false _ _ (clean_nombre_inr _ _ _ Hn)) as Hlibre.
  unfold clean_nombre in Hn.
  destruct (bool_decide (post_nombre d = "") || bool_decide (strip (post_nombre d) = ""))
    eqn:Hvacio; [done|].
  apply orb_false_iff in Hvacio as [_ Hvacio]. apply bool_decide_eq_false in Hvacio.
  destruct (50 <? len (strip (post_nombre d)))%nat eqn:Hlargo; [done|].
  apply Nat.ltb_ge in Hlargo.
  destruct (existsb _ (presupuestos db)); [done|]. injection Hn as <-.
  split_and!; try done.
  - unfold clean_fecha_limite, si in Hf.
    destruct (post_pres_fecha_limite d <=? hoy) eqn:E; [done | lia].
  - unfold si in Hu.
    destruct (existsb _ (usuarios db)) eqn:E; [|done].
    apply existsb_exists in E as (u & Hin & Hu').
    apply bool_decide_eq_true in Hu'. rewrite <- Hu'.
    apply list_elem_of_fmap_2. by apply list_elem_of_In.
Qed.

(** ** Items: amounts, copies *)



Lemma copiar_item_paso origen destino db n item :
  let st' := copiar_item origen destino (db, n) item in
  st' = (db, n) ∨
  ∃ i, items st'.1 = items db ++ [i] ∧ item_presupuesto i = destino ∧
       st'.2 = S n ∧ mismas_tablas_salvo_items db st'.1 ∧
       Lower (item_nombre i) ∉ (Lower ∘ item_nombre <$> items_de db destino).
Proof.
  unfold copiar_item. destruct (get_item_de db item origen) as [o|]; [|by left].
  unfold ItemPresupuesto_objects_create.
  destruct (existsb _ (items db)) eqn:E; [by left|].
  right. eexists. simpl. split_and!; try done.
  intros H. apply list_elem_of_fmap in H as (i & Hi & Hin).
  apply list_elem_of_filter in Hin as [Hd Hin].
  apply (proj1 (existsb_false_iff _ _) E) in Hin.
  apply andb_false_iff in Hin as [Hin | Hin]; apply bool_decide_eq_false in Hin;
    [done|]. simpl in Hi. by apply Hin.
Qed.

Lemma copiar_items_bucle origen destino sel :
  ∀ db n,
    let st' := foldl (copiar_item origen destino) (db, n) sel in
    ∃ nuevos, items st'.1 = items db ++ nuevos ∧
              mismas_tablas_salvo_items db st'.1 ∧
              Forall (λ i, item_presupuesto i = destino) nuevos ∧
              st'.2 = (n + length nuevos)%nat.
Proof.
  induction sel as [|item sel IH]; intros db n; cbn [foldl].
  - exists []. simpl. rewrite app_nil_r, Nat.add_0_r. by repeat split.
  - destruct (copiar_item_paso origen destino db n item)
      as [-> | (i & Hi & Hd & Hn & Ht & _)]; [apply IH|].
    destruct (copiar_item origen destino (db, n) item) as [db1 n1]. simpl in *.
    subst n1. destruct (IH db1 (S n)) as (nuevos & Hi' & Ht' & Hf & Hn').
    exists (i :: nuevos). split_and!.
    + rewrite Hi', Hi. by rewrite <- app_assoc.
    + destruct Ht as (? & ? & ? & ? & ?), Ht' as (? & ? & ? & ? & ?).
      repeat split; congruence.
    + by constructor.
    + rewrite Hn'. simpl. lia.
Qed.

(** X12: whatever is posted, [copiar_items] only appends items, all of
    them to the destination budget, and leaves every stored item and
    every other table as it is; when it reports success, the number in
    the message is the number of items it added. *)
Theorem copiar_items_solo_agrega db request pk destino sel :
  let r := copiar_items db request pk destino sel in
  ∃ nuevos,
    items (db_final r) = items db ++ nuevos ∧
    mismas_tablas_salvo_items db (db_final r) ∧
    Forall (λ i, destino = Some (item_presupuesto i)) nuevos ∧
    (∀ n nombre, mensajes r = [success_items_copiados n nombre] → n = length nuevos).
Proof.
  assert (Hnada : ∀ msgs resp,
            (∀ n nombre, msgs ≠ [success_items_copiados n nombre]) →
            ∃ nuevos,
              items (db_final {| db_final := db; mensajes := msgs; respuesta := resp |})
                = items db ++ nuevos ∧
              mismas_tablas_salvo_items db db ∧
              Forall (λ i, destino = Some (item_presupuesto i)) nuevos ∧
              (∀ n nombre, msgs = [success_items_copiados n nombre] → n = length nuevos)).
  { intros msgs resp Hmsg. exists []. simpl. rewrite app_nil_r.
    split_and!; [done | by repeat split | done |].
    intros n nombre H. by apply Hmsg in H. }
  unfold copiar_items.
  destruct (get_presupuesto db pk) as [origen|]; [|by apply Hnada].
  destruct (method request); [by apply Hnada|].
  destruct destino as [destino_pk|]; [|by apply Hnada].
  destruct (get_presupuesto db destino_pk) as [d|] eqn:Hd; [|by apply Hnada].
  destruct (get_presupuesto_Some _ _ _ Hd) as [Hid _].
  destruct (negb (puede_modificar d)); [by apply Hnada|].
  destruct sel as [|s sel]; [by apply Hnada|].
  destruct (copiar_items_bucle (pres_id origen) (pres_id d) (s :: sel) db 0)
    as (nuevos & Hi & Ht & Hf & Hn).
  destruct (foldl _ _ _) as [db' n']. simpl in *.
  exists nuevos. split_and!; try done.
  - eapply Forall_impl; [exact Hf|]. intros i Hi'. simpl in Hi'. congruence.
  - intros n nombre [= <- _]. done.
Qed.

Lemma create_consistente db destino nombre descripcion monto db' :
  items_consistentes db → destino ∈ (pres_id <$> presupuestos db) →
  ItemPresupuesto_objects_create db destino nombre descripcion monto = Ok db' →
  items_consistentes db'.
Proof.
  intros [Hfk Hu] Hd Hc.
  assert (Hlibre : Lower nombre ∉ (Lower ∘ item_nombre <$> items_de db destino)).
  { unfold ItemPresupuesto_objects_create in Hc.
    destruct (existsb _ (items db)) eqn:E; [done|].
    intros H. apply list_elem_of_fmap in H as (i & Hi & Hin).
    apply list_elem_of_filter in Hin as [Hd' Hin].
    apply (proj1 (existsb_false_iff _ _) E) in Hin.
    apply andb_false_iff in Hin as [Hin | Hin]; apply bool_decide_eq_false in Hin;
      [done|]. simpl in Hi. by apply Hin. }
  assert (Hitems : items db' =
            items db ++ [{| item_id := nuevo_id (item_id <$> items db);
                            item_presupuesto := destino; item_nombre := nombre;
                            item_descripcion := descripcion; item_monto := monto |}]).
  { unfold ItemPresupuesto_objects_create in Hc.
    destruct (existsb _ (items db)); [done|]. by injection Hc as <-. }
  split.
  - destruct (items_de_create _ _ _ _ _ _ destino Hc) as [Hp _].
    rewrite Hp, Hitems. apply Forall_app. split; [done|].
    by apply Forall_singleton.
  - destruct (items_de_create _ _ _ _ _ _ destino Hc) as [Hp _]. rewrite Hp.
    apply Forall_forall. intros pk Hpk.
    rewrite Forall_forall in Hu. specialize (Hu pk Hpk).
    destruct (items_de_create _ _ _ _ _ _ pk Hc) as [_ Hi]. rewrite Hi.
    case_decide as Hpk'; [|by rewrite app_nil_r].
    subst pk. rewrite fmap_app. apply NoDup_app. split_and!; [done| |].
    + intros x Hx Hx'. simpl in Hx'. apply list_elem_of_singleton in Hx'. by subst x.
    + simpl. apply NoDup_singleton.
Qed.

Lemma copiar_item_consistente origen destino db n item :
  items_consistentes db → destino ∈ (pres_id <$> presupuestos db) →
  items_consistentes (copiar_item origen destino (db, n) item).1 ∧
  presupuestos (copiar_item origen destino (db, n) item).1 = presupuestos db.
Proof.
  intros Hc Hd. unfold copiar_item.
  destruct (get_item_de db item origen) as [o|]; [|done].
  destruct (ItemPresupuesto_objects_create _ _ _ _ _) as [db2|e] eqn:E; [|done].
  simpl. split.
  - by eapply create_consistente.
  - by destruct (items_de_create _ _ _ _ _ _ 0%nat E) as [Hp _].
Qed.

Lemma copiar_items_bucle_consistente origen destino sel :
  ∀ db n,
    items_consistentes db → destino ∈ (pres_id <$> presupuestos db) →
    items_consistentes (foldl (copiar_item origen destino) (db, n) sel).1.
Proof.
  induction sel as [|x sel IH]; intros db n Hc Hd; [done|]. cbn [foldl].
  destruct (copiar_item_consistente origen destino db n x Hc Hd) as [Hc' Hp'].
  destruct (copiar_item origen destino (db, n) x) as [db1 n1]. simpl in *.
  apply IH; [done|]. by rewrite Hp'.
Qed.

(** X13: [copiar_items] keeps the item table well-formed: every item
    belongs to a stored budget and within a budget no two names agree up
    to case, whatever is posted. *)
Theorem copiar_items_consistentes db request pk destino sel :
  items_consistentes db →
  items_consistentes (db_final (copiar_items db request pk destino sel)).
Proof.
  intros Hc. unfold copiar_items.
  destruct (get_presupuesto db pk) as [origen|]; [|done].
  destruct (method request); [done|].
  destruct destino as [destino_pk|]; [|done].
  destruct (get_presupuesto db destino_pk) as [d|] eqn:Hd; [|done].
  destruct (get_presupuesto_Some _ _ _ Hd) as [Hid Hin].
  destruct (negb (puede_modificar d)); [done|].
  destruct sel as [|s sel]; [done|].
  pose proof (copiar_items_bucle_consistente (pres_id origen) (pres_id d) (s :: sel)
                db 0%nat Hc (list_elem_of_fmap_2 pres_id _ _ Hin)) as Hbucle.
  by destruct (foldl _ _ _).
Qed.

Lemma copiar_items_consistentes_rent :
  items_consistentes (db_final (copiar_items db_rent (anonimo POST) 1 (Some 2%nat) [1%nat])).
Proof.
  apply (copiar_items_consistentes db_rent (anonimo POST) 1 (Some 2%nat) [1%nat]).
  apply (bool_decide_unpack (items_consistentes db_rent)). vm_compute. exact I.
Defined.

Lemma copiar_todos_consistente nuevo l :
  ∀ db (existentes : gset string) n,
    items_consistentes db → nuevo ∈ (pres_id <$> presupuestos db) →
    items_consistentes (copiar_todos db nuevo existentes n l).1.1.
Proof.
  induction l as [|it l IH]; intros db ex n Hc Hn; [done|]. simpl.
  destruct (ItemPresupuesto_objects_create _ _ _ _ _) as [db1|e] eqn:E; [|done].
  apply IH.
  - by eapply create_consistente.
  - destruct (items_de_create _ _ _ _ _ _ 0%nat E) as [Hp _]. by rewrite Hp.
Qed.

Lemma items_de_sin_presupuesto db pk :
  items_consistentes db → pk ∉ (pres_id <$> presupuestos db) → items_de db pk = [].
Proof.
  intros [Hfk _] Hpk.
  destruct (items_de db pk) as [|i l] eqn:E; [done|]. exfalso.
  assert (Hi : i ∈ items_de db pk) by (rewrite E; apply list_elem_of_here).
  apply list_elem_of_filter in Hi as [Hd Hi].
  rewrite Forall_forall in Hfk. apply Hpk. rewrite <- Hd. by apply Hfk.
Qed.

Lemma Presupuesto_objects_create_consistente hoy db nombre u per f desc :
  items_consistentes db →
  items_consistentes (Presupuesto_objects_create hoy db nombre u per f desc).1.
Proof.
  intros Hc. pose proof Hc as [Hfk Hu].
  unfold Presupuesto_objects_create. simpl. split; simpl.
  - eapply Forall_impl; [exact Hfk|]. intros i Hi. simpl in Hi.
    rewrite fmap_app. apply elem_of_app. by left.
  - rewrite fmap_app. apply Forall_app. split; [done|].
    apply Forall_singleton. simpl.
    change (items_de _ ?pk) with (items_de db pk).
    rewrite items_de_sin_presupuesto; [apply NoDup_nil_2 | done |].
    apply nuevo_id_fresco.
Qed.

(** X14: [copiar_presupuesto] keeps the item table well-formed, whatever
    is posted and also when its loop is cut short. *)
Theorem copiar_presupuesto_consistentes hoy db request pk nombre :
  items_consistentes db →
  items_consistentes (db_final (copiar_presupuesto hoy db request pk nombre)).
Proof.
  intros Hc. unfold copiar_presupuesto.
  destruct (get_presupuesto db pk) as [original|]; [|done].
  destruct (method request); [done|].
  destruct nombre as [[|a s]|]; [done| |done].
  pose proof (Presupuesto_objects_create_consistente hoy db (String a s)
                (pres_creado_por original) (pres_periodo original)
                (pres_fecha_limite original) (pres_descripcion original) Hc) as Hc1.
  destruct (Presupuesto_objects_create _ _ _ _ _ _ _) as [db1 nuevo] eqn:E1.
  assert (Hn : pres_id nuevo ∈ (pres_id <$> presupuestos db1)).
  { unfold Presupuesto_objects_create in E1. injection E1 as <- <-. simpl.
    rewrite fmap_app. apply elem_of_app. right. apply list_elem_of_here. }
  pose proof (copiar_todos_consistente (pres_id nuevo)
                (items_de db1 (pres_id original)) db1 ∅ 0%nat Hc1 Hn) as Hc2.
  by destruct (copiar_todos _ _ _ _ _) as [[db2 n] [e|]].
Qed.

Lemma copiar_presupuesto_consistentes_enero :
  items_consistentes
    (db_final (copiar_presupuesto 739000 db_enero (anonimo POST) 1 (Some "febrero"))).
Proof.
  apply (copiar_presupuesto_consistentes 739000 db_enero (anonimo POST) 1 (Some "febrero")).
  apply (bool_decide_unpack (items_consistentes db_enero)). vm_compute. exact I.
Defined.

(** ** Transactions: guards, round trip, consistency *)

(** X15: no posting view stores a transaction for an item of an open
    budget, whatever else is posted. *)
Theorem sin_pago_en_presupuesto_abierto db request d item p r :
  post_item_presupuesto d = Some (item_id item) →
  get_item db (item_id item) = Some item →
  get_presupuesto db (item_presupuesto item) = Some p →
  pres_estado p = abierto →
  r ∈ vistas_de_pago db request d item →
  db_final r = db.
Proof.
  intros Hi Hg Hp Ha Hr. unfold vistas_de_pago in Hr.
  repeat (apply elem_of_cons in Hr as [-> | Hr]).
  - unfold crear_transaccion_simple. rewrite Hi.
    destruct (method request); [done|].
    destruct (post_trans_monto d) as [| |m]; [done| |];
      destruct (post_fecha_pago d); try done;
      destruct (bool_decide (post_metodo_pago d = "")); try done.
    simpl. destruct (m <? 0); [done|]. by rewrite Hg, Hp, Ha.
  - unfold registrar_transaccion. by rewrite Hp, Ha.
  - unfold crear_transaccion_general. rewrite Hi.
    destruct (method request); [done|].
    destruct (TransaccionForm_errors db None d); [|done].
    destruct (post_trans_monto d) as [| |m]; [done|done|].
    destruct (post_fecha_pago d); [|done]. by rewrite Hg, Hp, Ha.
  - by apply elem_of_nil in Hr.
Qed.

Lemma sin_pago_en_presupuesto_abierto_enero :
  db_final (crear_transaccion_simple db_enero (anonimo POST) (pago_supplies 20000))
  = db_enero.
Proof.
  refine (sin_pago_en_presupuesto_abierto db_enero (anonimo POST) (pago_supplies 20000)
            (item_ejemplo 1 1 "Supplies" 50000) (presupuesto_ejemplo 1 "enero" abierto)
            _ _ _ _ _ _); try reflexivity.
  apply list_elem_of_here.
Defined.

Lemma filter_ninguno {A} (P : A → Prop) `{∀ x, Decision (P x)} (l : list A) :
  (∀ x, x ∈ l → ¬ P x) → filter P l = [].
Proof.
  induction l as [|x l IH]; intros Hl; [done|].
  rewrite filter_cons, decide_False by (apply Hl, list_elem_of_here).
  apply IH. intros y Hy. apply Hl. by apply list_elem_of_further.
Qed.

Lemma filter_todos {A} (P : A → Prop) `{∀ x, Decision (P x)} (l : list A) :
  (∀ x, x ∈ l → P x) → filter P l = l.
Proof.
  induction l as [|x l IH]; intros Hl; [done|].
  rewrite filter_cons, decide_True by (apply Hl, list_elem_of_here).
  f_equal. apply IH. intros y Hy. apply Hl. by apply list_elem_of_further.
Qed.

Lemma trans_id_fresco db t :
  t ∈ transacciones db → trans_id t ≠ nuevo_id (trans_id <$> transacciones db).
Proof.
  intros Ht E. apply (nuevo_id_fresco (trans_id <$> transacciones db)).
  rewrite <- E. by apply list_elem_of_fmap_2.
Qed.

(** X16: a posting followed by the deletion of the transaction it stored
    gives back the tables as they were; the amount is zero or more and
    fits the twelve digits of its column. *)
Theorem pago_y_eliminacion db request d item p fecha m :
  method request = POST → pago_en_orden db d item p fecha →
  post_trans_monto d = monto_decimal m → 0 ≤ m < MONTO_MAX →
  let db1 := db_final (crear_transaccion_simple db request d) in
  let nueva := nuevo_id (trans_id <$> transacciones db) in
  transacciones db1 ≠ transacciones db ∧
  eliminar_transaccion_completa db1 request nueva =
    {| salida_db := db; avisos := [aviso_transaccion_eliminada];
       contestacion := redirigir "presupuestos:lista_transacciones_completa" None |}.
Proof.
  intros Hpost Hord Hmonto Hpos db1 nueva.
  pose proof (posting_aceptado_simple db request d item p fecha m Hpost Hord Hmonto Hpos)
    as H1.
  destruct Hord as (_ & _ & Hp & Hc & _ & _).
  destruct (get_presupuesto_Some _ _ _ Hp) as [Hid _].
  unfold db1. rewrite H1. simpl db_final. split.
  { simpl. apply app_singleton_neq. }
  unfold eliminar_transaccion_completa, get_transaccion.
  cbn [transacciones set_transacciones]. rewrite filter_app.
  rewrite (filter_ninguno (λ t, trans_id t = nueva))
    by (intros t Ht; by apply trans_id_fresco).
  rewrite filter_cons, decide_True by done. cbn [app head].
  change (get_presupuesto (set_transacciones _ _) ?k) with (get_presupuesto db k).
  cbn [trans_presupuesto trans_id].
  rewrite Hid, Hp, Hc, Hpost. cbn [negb bool_decide]. rewrite bool_decide_eq_true_2 by done.
  cbn [negb]. f_equal.
  rewrite filter_app, filter_cons, decide_False by (intros H; by apply H).
  rewrite filter_nil, app_nil_r.
  rewrite filter_todos by (intros t Ht; by apply trans_id_fresco).
  by destruct db.
Qed.

Lemma pago_y_eliminacion_supplies :
  salida_db (eliminar_transaccion_completa
               (db_final (crear_transaccion_simple db_supplies (anonimo POST)
                            (pago_supplies 20000)))
               (anonimo POST) 1)
  = db_supplies.
Proof.
  refine (f_equal salida_db
            (proj2 (pago_y_eliminacion db_supplies (anonimo POST) (pago_supplies 20000)
               (item_ejemplo 1 1 "Supplies" 50000)
               (presupuesto_ejemplo 1 "Jan-2025" cerrado) 739040 (Decimal_of_int 20000)
               _ _ _ _))).
  - reflexivity.
  - repeat split; try reflexivity. apply list_elem_of_here.
  - reflexivity.
  - split; [by vm_compute | reflexivity].
Defined.

Lemma head_filter_unico {A} (f : A → nat) (l : list A) x :
  NoDup (f <$> l) → x ∈ l → head (filter (λ y, f y = f x) l) = Some x.
Proof.
  induction l as [|y l IH]; intros Hn Hx; [by apply elem_of_nil in Hx|].
  rewrite fmap_cons in Hn. apply NoDup_cons in Hn as [Hy Hn].
  rewrite filter_cons. apply elem_of_cons in Hx as [-> | Hx].
  - by rewrite decide_True.
  - rewrite decide_False; [by apply IH|].
    intros E. apply Hy. rewrite E. by apply list_elem_of_fmap_2.
Qed.

Lemma transaccion_nueva_consistente db pid i item p m f mp ref obs u db' :
  transacciones_consistentes db →
  get_item db i = Some item → item_presupuesto item = pid →
  get_presupuesto db pid = Some p → pres_estado p = cerrado →
  Transaccion_objects_create db pid i m f mp ref obs u = Ok db' →
  transacciones_consistentes db'.
Proof.
  intros Hc Hi Hp Hg He Hcr t Ht.
  destruct (transacciones_create _ _ _ _ _ _ _ _ _ _ Hcr) as (Ep & Ei & Et).
  unfold get_item, get_presupuesto. rewrite Ep, Ei.
  rewrite Et in Ht. apply elem_of_app in Ht as [Ht | Ht].
  - apply Hc in Ht. exact Ht.
  - apply list_elem_of_singleton in Ht. subst t. by exists item, p.
Qed.

Lemma queryset_item db (pk : nat) i (q : list ItemPresupuesto) e :
  claves_unicas db → q = items_de db pk →
  si (negb (existsb (λ it, bool_decide (item_id it = i)) q)) campo_item_presupuesto e = [] →
  ∃ item, get_item db i = Some item ∧ item_presupuesto item = pk.
Proof.
  intros (_ & Hn & _) -> Hs. unfold si in Hs.
  destruct (existsb _ _) eqn:E; [|done].
  apply existsb_exists in E as (item & Hin & Hid).
  apply bool_decide_eq_true in Hid. apply list_elem_of_In in Hin.
  apply list_elem_of_filter in Hin as [Hp Hin].
  exists item. split; [|done]. subst i. unfold get_item.
  by apply (head_filter_unico item_id).
Qed.

(** X17: with unique keys, the three posting views keep the transaction
    table consistent: every transaction points to a stored item of its
    own budget, and that budget is closed. For [registrar_transaccion]
    the key of the budget is not zero. *)
Theorem pagos_consistentes db request d pk :
  claves_unicas db → transacciones_consistentes db → pk ≠ 0%nat →
  transacciones_consistentes (db_final (crear_transaccion_simple db request d)) ∧
  transacciones_consistentes (db_final (registrar_transaccion db request pk d)) ∧
  transacciones_consistentes (db_final (crear_transaccion_general db request d)).
Proof.
  intros Hk Hc Hpk. split_and!.
  - unfold crear_transaccion_simple.
    destruct (method request); [done|].
    destruct (post_item_presupuesto d) as [i|]; [|done].
    destruct (post_trans_monto d) as [| |m]; [done| |];
      destruct (post_fecha_pago d); try done;
      destruct (bool_decide (post_metodo_pago d = "")); try done.
    simpl. destruct (m <? 0); [done|].
    destruct (get_item db i) as [item|] eqn:Hi; [|done].
    destruct (get_presupuesto db (item_presupuesto item)) as [p|] eqn:Hp; [|done].
    destruct (bool_decide (pres_estado p = cerrado)) eqn:He; [|done].
    apply bool_decide_eq_true in He. cbn [negb].
    destruct (Transaccion_objects_create _ _ _ _ _ _ _ _ _) as [db'|e] eqn:Hcr; [|done].
    simpl.
    destruct (get_presupuesto_Some _ _ _ Hp) as [Hid _].
    destruct (get_item_Some _ _ _ Hi) as [Hid' _].
    eapply (transaccion_nueva_consistente db _ _ item p); [done| | | |done|exact Hcr].
    + by rewrite Hid'.
    + done.
    + by rewrite Hid.
  - unfold registrar_transaccion.
    destruct (get_presupuesto db pk) as [p|] eqn:Hp; [|done].
    destruct (bool_decide (pres_estado p = cerrado)) eqn:He; [|done].
    apply bool_decide_eq_true in He. simpl.
    destruct (method request); [done|].
    destruct (TransaccionForm_errors db (Some pk) d) eqn:Herr; [|done].
    destruct (post_item_presupuesto d) as [i|] eqn:Hi; [|done].
    destruct (post_trans_monto d) as [| |m]; [done|done|].
    destruct (post_fecha_pago d); [|done].
    destruct (Transaccion_objects_create _ _ _ _ _ _ _ _ _) as [db'|e] eqn:Hcr; [|done].
    simpl.
    unfold TransaccionForm_errors in Herr. rewrite Hi in Herr.
    apply app_eq_nil in Herr as [Hq _].
    destruct pk as [|n]; [done|].
    destruct (queryset_item db (S n) i _ _ Hk eq_refl Hq) as (item & Hitem & Hpres).
    destruct (get_presupuesto_Some _ _ _ Hp) as [Hid _].
    eapply (transaccion_nueva_consistente db _ _ item p); [done|exact Hitem| | |done|exact Hcr];
      by rewrite Hid.
  - unfold crear_transaccion_general.
    destruct (method request); [done|].
    destruct (TransaccionForm_errors db None d); [|done].
    destruct (post_item_presupuesto d) as [i|]; [|done].
    destruct (post_trans_monto d) as [| |m]; [done|done|].
    destruct (post_fecha_pago d); [|done].
    destruct (get_item db i) as [item|] eqn:Hi; [|done].
    destruct (get_presupuesto db (item_presupuesto item)) as [p|] eqn:Hp; [|done].
    destruct (bool_decide (pres_estado p = cerrado)) eqn:He; [|done].
    apply bool_decide_eq_true in He. cbn [negb].
    destruct (Transaccion_objects_create _ _ _ _ _ _ _ _ _) as [db'|e] eqn:Hcr; [|done].
    simpl.
    destruct (get_presupuesto_Some _ _ _ Hp) as [Hid _].
    destruct (get_item_Some _ _ _ Hi) as [Hid' _].
    eapply (transaccion_nueva_consistente db _ _ item p); [done| | | |done|exact Hcr].
    + by rewrite Hid'.
    + done.
    + by rewrite Hid.
Qed.

Lemma pagos_consistentes_supplies :
  transacciones_consistentes
    (db_final (crear_transaccion_simple db_supplies (anonimo POST) (pago_supplies 20000))).
Proof.
  refine (proj1 (pagos_consistentes db_supplies (anonimo POST) (pago_supplies 20000) 1
                   _ _ _)).
  - split_and!; simpl; first [apply NoDup_singleton | apply NoDup_nil_2].
  - intros t Ht. by apply elem_of_nil in Ht.
  - discriminate.
Defined.

(** X18: with unique keys, none of them zero for a budget, editing or
    deleting a transaction keeps the transaction table consistent: the
    edited row stays in its budget and its item is an item of that
    budget. *)
Theorem edicion_consistente db request pk d :
  claves_unicas db → transacciones_consistentes db →
  0%nat ∉ (pres_id <$> presupuestos db) →
  transacciones_consistentes (salida_db (editar_transaccion_completa db request pk d)) ∧
  transacciones_consistentes (salida_db (eliminar_transaccion_completa db request pk)).
Proof.
  intros Hk Hc H0. split.
  - unfold editar_transaccion_completa.
    destruct (get_transaccion db pk) as [t0|]; [|done].
    destruct (get_presupuesto db (trans_presupuesto t0)) as [p|] eqn:Hp; [|done].
    destruct (bool_decide (pres_estado p = cerrado)) eqn:He; [|done].
    apply bool_decide_eq_true in He. simpl.
    destruct (method request); [done|].
    destruct (TransaccionForm_errors db (Some (pres_id p)) d) eqn:Herr; [|done].
    destruct (post_item_presupuesto d) as [i|] eqn:Hi; [|done].
    destruct (post_trans_monto d) as [| |m]; [done|done|].
    destruct (post_fecha_pago d) as [f|]; [|done]. simpl.
    destruct (get_presupuesto_Some _ _ _ Hp) as [Hid Hin].
    unfold TransaccionForm_errors in Herr. rewrite Hi in Herr.
    apply app_eq_nil in Herr as [Hq _].
    destruct (pres_id p) as [|n] eqn:Hn.
    { exfalso. apply H0. rewrite <- Hn. by apply list_elem_of_fmap_2. }
    destruct (queryset_item db (S n) i _ _ Hk eq_refl Hq) as (item & Hitem & Hpres).
    intros t Ht. simpl in Ht.
    apply list_elem_of_fmap in Ht as (t1 & -> & Ht1).
    case_bool_decide; [|by apply Hc].
    exists item, p. simpl. split_and!; try done. congruence.
  - unfold eliminar_transaccion_completa.
    destruct (get_transaccion db pk) as [t0|]; [|done].
    destruct (get_presupuesto db (trans_presupuesto t0)) as [p|]; [|done].
    destruct (negb _); [done|].
    destruct (method request); [done|]. simpl.
    intros t Ht. simpl in Ht. apply list_elem_of_filter in Ht as [_ Ht].
    by apply Hc.
Qed.

Lemma edicion_consistente_supplies :
  (transacciones_consistentes
     (salida_db (editar_transaccion_completa db_supplies_pagado (anonimo POST) 1
                   (pago_supplies 30000))) ∧
   transacciones_consistentes
     (salida_db (eliminar_transaccion_completa db_supplies_pagado (anonimo POST) 1))) ∧
  trans_monto <$> transacciones db_supplies_pagado = [Decimal_of_int 20000] ∧
  trans_monto <$> transacciones
    (salida_db (editar_transaccion_completa db_supplies_pagado (anonimo POST) 1
                  (pago_supplies 30000))) = [Decimal_of_int 30000] ∧
  transacciones
    (salida_db (eliminar_transaccion_completa db_supplies_pagado (anonimo POST) 1)) = [].
Proof.
  split; [|by vm_compute].
  apply (edicion_consistente db_supplies_pagado (anonimo POST) 1 (pago_supplies 30000)).
  - split_and!; simpl; first [apply NoDup_singleton | apply NoDup_nil_2].
  - intros t Ht. apply list_elem_of_singleton in Ht. subst t.
    exists (item_ejemplo 1 1 "Supplies" 50000), (presupuesto_ejemplo 1 "Jan-2025" cerrado).
    by split_and!.
  - intros H. apply list_elem_of_singleton in H. discriminate.
Defined.

Lemma filter_unico_cerrado (l : list Presupuesto) p :
  NoDup (pres_id <$> l) → p ∈ l → pres_estado p = cerrado →
  filter (λ o, pres_id o = pres_id p ∧ pres_estado o = cerrado) l = [p].
Proof.
  induction l as [|y l IH]; intros Hn Hp Hc; [by apply elem_of_nil in Hp|].
  rewrite fmap_cons in Hn. apply NoDup_cons in Hn as [Hy Hn].
  rewrite filter_cons. apply elem_of_cons in Hp as [<- | Hp].
  - rewrite decide_True by done. f_equal. apply filter_ninguno.
    intros o Ho [Hid _]. apply Hy. rewrite <- Hid. by apply list_elem_of_fmap_2.
  - rewrite decide_False; [by apply IH|].
    intros [Hid _]. apply Hy. rewrite Hid. by apply list_elem_of_fmap_2.
Qed.

(** X19: the balance endpoints answer for closed budgets only. For a key
    whose stored budgets are all open, and for an item of an open budget,
    the answer is an error with status 400. For a closed budget of a
    unique key the answer has one row per item of the budget, in their
    order, and the balance of a row is the amount of the item minus its
    transactions. *)
Theorem saldos_solo_cerrados db :
  (∀ pk, (∀ p, p ∈ presupuestos db → pres_id p = pk → pres_estado p = abierto) →
         api_items_presupuesto db pk = json_fallo aviso_no_encontrado_o_abierto 400) ∧
  (∀ item p, get_item db (item_id item) = Some item →
             get_presupuesto db (item_presupuesto item) = Some p →
             pres_estado p = abierto →
             api_saldo_disponible db (item_id item) = json_fallo aviso_no_esta_cerrado 400) ∧
  (∀ pk p, NoDup (pres_id <$> presupuestos db) →
           get_presupuesto db pk = Some p → pres_estado p = cerrado →
           ∃ filas, api_items_presupuesto db pk = json_saldos filas ∧
                    fila_id <$> filas = item_id <$> items_de db pk ∧
                    fila_saldo_disponible <$> filas = saldo_disponible db <$> items_de db pk) ∧
  (∀ item p, get_item db (item_id item) = Some item →
             get_presupuesto db (item_presupuesto item) = Some p →
             pres_estado p = cerrado →
             ∃ fila, api_saldo_disponible db (item_id item) = json_saldo fila ∧
                     fila_saldo_disponible fila = saldo_disponible db item).
Proof.
  split_and!.
  - intros pk Hab. unfold api_items_presupuesto.
    rewrite filter_ninguno; [done|].
    intros p Hp [Hid He]. specialize (Hab p Hp Hid). congruence.
  - intros item p Hi Hp Ha. unfold api_saldo_disponible. by rewrite Hi, Hp, Ha.
  - intros pk p Hn Hp Hc. destruct (get_presupuesto_Some _ _ _ Hp) as [Hid Hin].
    unfold api_items_presupuesto. rewrite <- Hid.
    rewrite (filter_unico_cerrado _ p Hn Hin Hc).
    eexists. split; [done|]. rewrite <- !list_fmap_compose. done.
  - intros item p Hi Hp Hc. unfold api_saldo_disponible. rewrite Hi, Hp, Hc. simpl.
    eexists. split; done.
Qed.

(** ** Requests in sequence: what every change keeps *)

Lemma fmap_reemplazo {A} (f : A → nat) (l : list A) (k : nat) (x : A) :
  f x = k →
  f <$> ((λ o, if bool_decide (f o = k) then x else o) <$> l) = f <$> l.
Proof.
  intros Hx. induction l as [|o l IH]; [done|].
  rewrite !fmap_cons, IH. f_equal. case_bool_decide; congruence.
Qed.

Lemma NoDup_fmap_filter {A B} (f : A → B) (P : A → Prop) `{∀ x, Decision (P x)}
    (l : list A) :
  NoDup (f <$> l) → NoDup (f <$> filter P l).
Proof.
  induction l as [|x l IH]; [done|].
  rewrite fmap_cons. intros Hn. apply NoDup_cons in Hn as [Hx Hn].
  rewrite filter_cons. case_decide; [|by apply IH].
  rewrite fmap_cons. apply NoDup_cons. split; [|by apply IH].
  intros Hin. apply Hx. apply list_elem_of_fmap in Hin as (y & Hy & Hin).
  apply list_elem_of_filter in Hin as [_ Hin]. rewrite Hy.
  by apply list_elem_of_fmap_2.
Qed.

Lemma NoDup_fmap_nuevo {A} (f : A → nat) (l : list A) (x : A) :
  NoDup (f <$> l) → f x = nuevo_id (f <$> l) → NoDup (f <$> (l ++ [x])).
Proof.
  intros Hn Hx. rewrite fmap_app. apply NoDup_app. split_and!; [done| |].
  - intros y Hy Hy'. simpl in Hy'. apply list_elem_of_singleton in Hy'. subst y.
    rewrite Hx in Hy. by apply nuevo_id_fresco in Hy.
  - simpl. apply NoDup_singleton.
Qed.

Lemma head_filter_app {A} (P : A → Prop) `{∀ x, Decision (P x)} (l l' : list A) x :
  head (filter P l) = Some x → head (filter P (l ++ l')) = Some x.
Proof. rewrite filter_app. by destruct (filter P l). Qed.

Lemma head_filter_otro {A} (f : A → nat) (l : list A) (k k' : nat) (x : A) :
  k' ≠ k → f x = k →
  filter (λ o, f o = k') ((λ o, if bool_decide (f o = k) then x else o) <$> l)
  = filter (λ o, f o = k') l.
Proof.
  intros Hne Hx. induction l as [|o l IH]; [done|].
  rewrite fmap_cons, !filter_cons. case_bool_decide as Ho.
  - rewrite !decide_False by congruence. done.
  - case_decide; by rewrite IH.
Qed.

Lemma items_create db destino nombre descripcion monto db' :
  ItemPresupuesto_objects_create db destino nombre descripcion monto = Ok db' →
  presupuestos db' = presupuestos db ∧ transacciones db' = transacciones db ∧
  items db' =
    items db ++ [{| item_id := nuevo_id (item_id <$> items db);
                    item_presupuesto := destino; item_nombre := nombre;
                    item_descripcion := descripcion; item_monto := monto |}].
Proof.
  unfold ItemPresupuesto_objects_create. case_match; [done|]. by intros [= <-].
Qed.

Lemma items_save db item' db' :
  ItemPresupuesto_save db item' = Ok db' →
  presupuestos db' = presupuestos db ∧ transacciones db' = transacciones db ∧
  items db' =
    ((λ i, if bool_decide (item_id i = item_id item') then item' else i) <$> items db) ∧
  (∀ i, i ∈ items db → item_id i ≠ item_id item' →
        item_presupuesto i = item_presupuesto item' →
        Lower (item_nombre i) ≠ Lower (item_nombre item')).
Proof.
  unfold ItemPresupuesto_save. destruct (existsb _ (items db)) eqn:E; [done|].
  intros [= <-]. split_and!; try done.
  intros i Hi Hid Hp Hn. apply (proj1 (existsb_false_iff _ _) E) in Hi.
  rewrite (bool_decide_eq_false_2 _ Hid), (bool_decide_eq_true_2 _ Hp),
    (bool_decide_eq_true_2 _ Hn) in Hi. done.
Qed.

Lemma get_item_en_Some db item_pk pk item :
  get_item_en db item_pk pk = Some item →
  item_id item = item_pk ∧ item_presupuesto item = pk ∧ item ∈ items db.
Proof.
  unfold get_item_en. intros E.
  assert (H : item ∈ filter (λ i, item_id i = item_pk ∧ item_presupuesto i = pk)
                        (items db)).
  { destruct (filter _ _); simplify_eq/=. apply list_elem_of_here. }
  apply list_elem_of_filter in H as [[? ?] ?]. done.
Qed.

(** Every change keeps the keys unique and no budget of key zero. *)
Lemma cambio_claves db db' :
  cambio db db' → claves_unicas db → 0%nat ∉ (pres_id <$> presupuestos db) →
  claves_unicas db' ∧ 0%nat ∉ (pres_id <$> presupuestos db').
Proof.
  intros Hc (Hp & Hi & Ht) H0. unfold claves_unicas.
  destruct Hc as [db' Ep Ei Et | p Hid | p p' Hg Ha | pk p Hg Ha
                 | destino d nombre desc monto db' Hg Ha Hc
                 | pk p item item' db' Hg Ha Hi' Hpk Hs
                 | pk p item_pk item Hg Ha Hi'
                 | pid i item p m f mp ref obs u db' Hi' Hpid Hg Hcer Hcr
                 | t0 item p editada Hi' Hpid Hg Hcer Hid
                 | pk].
  - by rewrite Ep, Ei, Et.
  - simpl. split_and!; try done.
    + by apply NoDup_fmap_nuevo.
    + rewrite fmap_app. intros H. apply elem_of_app in H as [H | H]; [done|].
      simpl in H. apply list_elem_of_singleton in H. rewrite Hid in H. discriminate.
  - simpl. by rewrite fmap_reemplazo.
  - simpl. split_and!; try by apply NoDup_fmap_filter.
    intros H. apply H0. apply list_elem_of_fmap in H as (y & Hy & Hin).
    apply list_elem_of_filter in Hin as [_ Hin]. rewrite Hy.
    by apply list_elem_of_fmap_2.
  - destruct (items_create _ _ _ _ _ _ Hc) as (-> & -> & ->).
    split_and!; try done. by apply NoDup_fmap_nuevo.
  - destruct (items_save _ _ _ Hs) as (-> & -> & -> & _).
    split_and!; try done. by rewrite fmap_reemplazo.
  - simpl. split_and!; try done; by apply NoDup_fmap_filter.
  - destruct (transacciones_create _ _ _ _ _ _ _ _ _ _ Hcr) as (-> & -> & ->).
    split_and!; try done. by apply NoDup_fmap_nuevo.
  - simpl. split_and!; try done. by rewrite fmap_reemplazo.
  - simpl. split_and!; try done. by apply NoDup_fmap_filter.
Qed.

Lemma unico_por_clave {A} (f : A → nat) (l : list A) x y :
  NoDup (f <$> l) → x ∈ l → y ∈ l → f x = f y → x = y.
Proof.
  intros Hn Hx Hy E.
  pose proof (head_filter_unico f l x Hn Hx) as H1.
  pose proof (head_filter_unico f l y Hn Hy) as H2.
  rewrite E in H1. congruence.
Qed.

Lemma filter_fmap_igual {A} (P : A → Prop) `{∀ x, Decision (P x)} (g : A → A)
    (l : list A) :
  (∀ x, x ∈ l → P (g x) ↔ P x) → filter P (g <$> l) = g <$> filter P l.
Proof.
  induction l as [|x l IH]; intros Hl; [done|].
  rewrite fmap_cons, !filter_cons.
  assert (Hx : P (g x) ↔ P x) by apply Hl, list_elem_of_here.
  assert (IH' : filter P (g <$> l) = g <$> filter P l).
  { apply IH. intros y Hy. apply Hl. by apply list_elem_of_further. }
  destruct (decide (P x)) as [Hp | Hp].
  - rewrite decide_True by by apply Hx. by rewrite fmap_cons, IH'.
  - rewrite decide_False; [done|]. intros Hg. by apply Hp, Hx.
Qed.

Lemma fmap_identidad {A} (g : A → A) (l : list A) :
  (∀ x, x ∈ l → g x = x) → g <$> l = l.
Proof.
  induction l as [|x l IH]; intros Hl; [done|].
  rewrite fmap_cons, Hl by apply list_elem_of_here. f_equal.
  apply IH. intros y Hy. apply Hl. by apply list_elem_of_further.
Qed.

Lemma filter_conmuta {A} (P Q : A → Prop) `{∀ x, Decision (P x)} `{∀ x, Decision (Q x)}
    (l : list A) :
  filter P (filter Q l) = filter Q (filter P l).
Proof.
  induction l as [|x l IH]; [done|].
  rewrite !filter_cons.
  destruct (decide (Q x)), (decide (P x)); rewrite ?filter_cons;
    rewrite ?decide_True by done; rewrite ?decide_False by done; by rewrite IH.
Qed.

(** Rewriting the one row of a key keeps the names distinct up to case
    when the new name differs from the names of the other rows. *)
Lemma NoDup_reemplazo (l : list ItemPresupuesto) item' :
  NoDup (item_id <$> l) → NoDup (Lower ∘ item_nombre <$> l) →
  (∀ i, i ∈ l → item_id i ≠ item_id item' →
        Lower (item_nombre i) ≠ Lower (item_nombre item')) →
  NoDup (Lower ∘ item_nombre <$>
           ((λ i, if bool_decide (item_id i = item_id item') then item' else i) <$> l)).
Proof.
  induction l as [|y l IH]; intros Hid Hn Hl; [done|].
  rewrite fmap_cons in Hid. rewrite fmap_cons in Hn.
  apply NoDup_cons in Hid as [Hy Hid].
  apply NoDup_cons in Hn as [Hyn Hn].
  assert (IH' := IH Hid Hn
            (λ i Hi, Hl i (list_elem_of_further _ _ _ Hi))).
  rewrite !fmap_cons. apply NoDup_cons. split; [|done].
  intros Hin. apply list_elem_of_fmap in Hin as (z & Hz & Hin).
  apply list_elem_of_fmap in Hin as (i & -> & Hi). simpl in Hz.
  case_bool_decide as Ey; case_bool_decide as Ei.
  - apply Hy. rewrite Ey, <- Ei. by apply list_elem_of_fmap_2.
  - apply (Hl i (list_elem_of_further _ _ _ Hi) Ei). by rewrite Hz.
  - apply (Hl y (list_elem_of_here _ _) Ey). done.
  - apply Hyn. simpl. rewrite Hz. by apply (list_elem_of_fmap_2 (Lower ∘ item_nombre)).
Qed.

Lemma items_consistentes_ext db db' :
  presupuestos db' = presupuestos db → items db' = items db →
  items_consistentes db → items_consistentes db'.
Proof.
  intros Ep Ei [Hfk Hu]. unfold items_consistentes, items_de. by rewrite Ep, Ei.
Qed.

Lemma presupuesto_nuevo_consistente db p :
  items_consistentes db → pres_id p = nuevo_id (pres_id <$> presupuestos db) →
  items_consistentes (set_presupuestos db (presupuestos db ++ [p])).
Proof.
  intros Hc Hid. pose proof Hc as [Hfk Hu]. split; simpl.
  - eapply Forall_impl; [exact Hfk|]. intros i Hi. simpl in Hi.
    rewrite fmap_app. apply elem_of_app. by left.
  - rewrite fmap_app. apply Forall_app. split; [done|].
    apply Forall_singleton. simpl.
    change (items_de _ ?pk) with (items_de db pk).
    rewrite items_de_sin_presupuesto; [apply NoDup_nil_2 | done |].
    rewrite Hid. apply nuevo_id_fresco.
Qed.

(** Every change keeps the item table well-formed. *)
Lemma cambio_items db db' :
  cambio db db' → claves_unicas db → items_consistentes db → items_consistentes db'.
Proof.
  intros Hc (_ & Hids & _) Hcons. pose proof Hcons as [Hfk Hu].
  rewrite Forall_forall in Hfk. rewrite Forall_forall in Hu.
  destruct Hc as [db' Ep Ei Et | p Hid | p p' Hg Ha | pk p Hg Ha
                 | destino d nombre desc monto db' Hg Ha Hc
                 | pk p item item' db' Hg Ha Hi' Hpk Hs
                 | pk p item_pk item Hg Ha Hi'
                 | pid i item p m f mp ref obs u db' Hi' Hpid Hg Hcer Hcr
                 | t0 item p editada Hi' Hpid Hg Hcer Hid
                 | pk].
  - by apply (items_consistentes_ext db).
  - by apply presupuesto_nuevo_consistente.
  - destruct (get_presupuesto_Some _ _ _ Hg) as [Hid' _].
    unfold items_consistentes, items_de, Presupuesto_save. simpl.
    rewrite fmap_reemplazo by done. done.
  - split; apply Forall_forall; simpl.
    + intros i Hi. apply list_elem_of_filter in Hi as [Hne Hi].
      specialize (Hfk i Hi). apply list_elem_of_fmap in Hfk as (q & Hq & Hin).
      apply list_elem_of_fmap. exists q. split; [done|].
      apply list_elem_of_filter. split; [congruence | done].
    + intros pk' Hpk'. apply list_elem_of_fmap in Hpk' as (q & -> & Hin).
      apply list_elem_of_filter in Hin as [Hne Hin].
      unfold items_de. simpl. rewrite (filter_id_distinto item_presupuesto) by done.
      apply Hu. by apply list_elem_of_fmap_2.
  - destruct (get_presupuesto_Some _ _ _ Hg) as [Hid' Hin].
    eapply create_consistente; [exact Hcons| |exact Hc].
    rewrite <- Hid'. by apply list_elem_of_fmap_2.
  - destruct (items_save _ _ _ Hs) as (Ep & _ & Ei & Hlibre).
    destruct (get_item_en_Some _ _ _ _ Hi') as (Hiid & Hipres & Hiin).
    destruct (get_presupuesto_Some _ _ _ Hg) as [Hpid Hpin].
    assert (Hmismo : ∀ i, i ∈ items db → item_id i = item_id item' → i = item).
    { intros i Hi E. apply (unico_por_clave item_id (items db)); try done.
      congruence. }
    assert (Hpres : ∀ i, i ∈ items db →
              item_presupuesto (if bool_decide (item_id i = item_id item')
                                then item' else i) = item_presupuesto i).
    { intros i Hi. case_bool_decide as E; [|done].
      rewrite (Hmismo i Hi E). congruence. }
    split; apply Forall_forall; rewrite Ep.
    + intros i Hi. rewrite Ei in Hi. apply list_elem_of_fmap in Hi as (i0 & -> & Hi0).
      rewrite (Hpres i0 Hi0). by apply Hfk.
    + intros pk' Hpk'. unfold items_de. rewrite Ei.
      rewrite filter_fmap_igual by (intros i Hi; by rewrite (Hpres i Hi)).
      destruct (decide (pk' = pk)) as [-> | Hne].
      * apply NoDup_reemplazo.
        -- by apply NoDup_fmap_filter.
        -- by apply Hu.
        -- intros i Hi Hid. apply list_elem_of_filter in Hi as [Hp Hi].
           apply Hlibre; [done|done|congruence].
      * rewrite fmap_identidad; [by apply Hu|].
        intros i Hi. apply list_elem_of_filter in Hi as [Hp Hi].
        case_bool_decide as E; [|done]. exfalso.
        rewrite (Hmismo i Hi E) in Hp. congruence.
  - split; apply Forall_forall; simpl.
    + intros i Hi. apply list_elem_of_filter in Hi as [_ Hi]. by apply Hfk.
    + intros pk' Hpk'. unfold items_de. simpl. rewrite filter_conmuta.
      apply NoDup_fmap_filter. by apply Hu.
  - destruct (transacciones_create _ _ _ _ _ _ _ _ _ _ Hcr) as (Ep & Ei & _).
    by apply (items_consistentes_ext db).
  - by apply (items_consistentes_ext db).
  - by apply (items_consistentes_ext db).
Qed.

Lemma head_filter_primero {A} (Q : A → Prop) `{∀ x, Decision (Q x)} (l : list A) x :
  head l = Some x → Q x → head (filter Q l) = Some x.
Proof.
  destruct l as [|y l]; [done|]. intros [= ->] Hq.
  by rewrite filter_cons, decide_True.
Qed.

(** No change touches a closed budget: its row, its items and the
    look-up of each of its items stay. *)
Lemma cambio_cerrado db db' pk p :
  cambio db db' → claves_unicas db →
  get_presupuesto db pk = Some p → pres_estado p = cerrado →
  get_presupuesto db' pk = Some p ∧
  items_de db' pk = items_de db pk ∧
  (∀ i item, get_item db i = Some item → item_presupuesto item = pk →
             get_item db' i = Some item).
Proof.
  intros Hc (Hpids & Hids & _) Hp Hcer.
  assert (Hotro : ∀ k q, get_presupuesto db k = Some q → pres_estado q = abierto →
                         pk ≠ k).
  { intros k q Hq Ha ->. rewrite Hp in Hq. simplify_eq. congruence. }
  destruct Hc as [db' Ep Ei Et | p0 Hid | p0 p' Hg Ha | pk0 p0 Hg Ha
                 | destino d nombre desc monto db' Hg Ha Hc
                 | pk0 p0 item0 item' db' Hg Ha Hi' Hpk Hs
                 | pk0 p0 item_pk item0 Hg Ha Hi'
                 | pid i0 item0 p0 m f mp ref obs u db' Hi' Hpid Hg Hcer0 Hcr
                 | t0 item0 p0 editada Hi' Hpid Hg Hcer0 Hid
                 | pk0].
  - unfold get_presupuesto, items_de, get_item. rewrite Ep, Ei. done.
  - split_and!; [|done|done]. unfold get_presupuesto. simpl.
    by apply head_filter_app.
  - split_and!; [|done|done]. unfold get_presupuesto, Presupuesto_save. simpl.
    rewrite get_presupuesto_otro; [done| |done].
    by apply (Hotro _ p0).
  - assert (Hne : pk ≠ pk0) by by apply (Hotro _ p0).
    split_and!.
    + unfold get_presupuesto. simpl. by rewrite (filter_id_distinto pres_id).
    + unfold items_de. simpl. by rewrite (filter_id_distinto item_presupuesto).
    + intros i item Hi Hip. unfold get_item. simpl. rewrite filter_conmuta.
      apply head_filter_primero; [done|]. congruence.
  - assert (Hne : pk ≠ destino) by by apply (Hotro _ d).
    destruct (items_create _ _ _ _ _ _ Hc) as (Ep & _ & Ei).
    split_and!.
    + unfold get_presupuesto. by rewrite Ep.
    + destruct (items_de_create _ _ _ _ _ _ pk Hc) as [_ ->].
      rewrite decide_False by done. by rewrite app_nil_r.
    + intros i item Hi Hip. unfold get_item. rewrite Ei. by apply head_filter_app.
  - assert (Hne : pk ≠ pk0) by by apply (Hotro _ p0).
    destruct (items_save _ _ _ Hs) as (Ep & _ & Ei & _).
    destruct (get_item_en_Some _ _ _ _ Hi') as (Hiid & Hipres & Hiin).
    assert (Hmismo : ∀ i, i ∈ items db → item_id i = item_id item' → i = item0).
    { intros i Hi E. apply (unico_por_clave item_id (items db)); try done.
      congruence. }
    assert (Hpres : ∀ i, i ∈ items db →
              item_presupuesto (if bool_decide (item_id i = item_id item')
                                then item' else i) = item_presupuesto i).
    { intros i Hi. case_bool_decide as E; [|done].
      rewrite (Hmismo i Hi E). congruence. }
    split_and!.
    + unfold get_presupuesto. by rewrite Ep.
    + unfold items_de. rewrite Ei.
      rewrite filter_fmap_igual by (intros i Hi; by rewrite (Hpres i Hi)).
      apply fmap_identidad. intros i Hi. apply list_elem_of_filter in Hi as [Hip Hi].
      case_bool_decide as E; [|done]. exfalso.
      rewrite (Hmismo i Hi E) in Hip. congruence.
    + intros i item Hi Hip. destruct (get_item_Some _ _ _ Hi) as [Hid' Hin].
      unfold get_item. rewrite Ei.
      rewrite (head_filter_otro item_id); [done| |done].
      intros E. apply Hne. rewrite <- Hip, <- Hipres. f_equal.
      apply Hmismo; [done|congruence].
  - assert (Hne : pk ≠ pk0) by by apply (Hotro _ p0).
    destruct (get_item_en_Some _ _ _ _ Hi') as (Hiid & Hipres & Hiin).
    assert (Hmismo : ∀ i, i ∈ items db → item_id i = item_id item0 → i = item0).
    { intros i Hi E. by apply (unico_por_clave item_id (items db)). }
    split_and!; [done| |].
    + unfold items_de. simpl. rewrite filter_conmuta. apply filter_todos.
      intros i Hi E. apply list_elem_of_filter in Hi as [Hip Hi].
      rewrite (Hmismo i Hi E) in Hip. congruence.
    + intros i item Hi Hip. destruct (get_item_Some _ _ _ Hi) as [Hid' Hin].
      unfold get_item. simpl. rewrite (filter_id_distinto item_id); [done|].
      intros E. apply Hne. rewrite <- Hip, <- Hipres. f_equal.
      apply Hmismo; [done|congruence].
  - destruct (transacciones_create _ _ _ _ _ _ _ _ _ _ Hcr) as (Ep & Ei & _).
    unfold get_presupuesto, items_de, get_item. rewrite Ep, Ei. done.
  - done.
  - done.
Qed.

(** Every change keeps the transactions on stored items of closed budgets. *)
Lemma cambio_transacciones db db' :
  cambio db db' → claves_unicas db → transacciones_consistentes db →
  transacciones_consistentes db'.
Proof.
  intros Hc Hk Ht t Hin.
  assert (Hviejo : t ∈ transacciones db →
            ∃ item p,
              get_item db' (trans_item_presupuesto t) = Some item ∧
              item_presupuesto item = trans_presupuesto t ∧
              get_presupuesto db' (trans_presupuesto t) = Some p ∧
              pres_estado p = cerrado).
  { intros Hold. destruct (Ht t Hold) as (item & p & Hi & Hip & Hp & Hcer).
    destruct (cambio_cerrado _ _ _ _ Hc Hk Hp Hcer) as (Hp' & _ & Hi').
    exists item, p. split_and!; try done. by apply Hi'. }
  destruct Hc as [db' Ep Ei Et | p0 Hid | p0 p' Hg Ha | pk0 p0 Hg Ha
                 | destino d nombre desc monto db' Hg Ha Hc
                 | pk0 p0 item0 item' db' Hg Ha Hi' Hpk Hs
                 | pk0 p0 item_pk item0 Hg Ha Hi'
                 | pid i0 item0 p0 m f mp ref obs u db' Hi' Hpid Hg Hcer0 Hcr
                 | t0 item0 p0 editada Hi' Hpid Hg Hcer0 Hid
                 | pk0].
  - apply Hviejo. by rewrite <- Et.
  - by apply Hviejo.
  - by apply Hviejo.
  - apply Hviejo. simpl in Hin. by apply list_elem_of_filter in Hin as [_ Hin].
  - apply Hviejo. destruct (items_create _ _ _ _ _ _ Hc) as (_ & Et & _).
    by rewrite <- Et.
  - apply Hviejo. destruct (items_save _ _ _ Hs) as (_ & Et & _).
    by rewrite <- Et.
  - apply Hviejo. simpl in Hin. by apply list_elem_of_filter in Hin as [_ Hin].
  - destruct (transacciones_create _ _ _ _ _ _ _ _ _ _ Hcr) as (Ep & Ei & Et).
    rewrite Et in Hin. apply elem_of_app in Hin as [Hin | Hin].
    + by apply Hviejo.
    + apply list_elem_of_singleton in Hin. subst t. exists item0, p0.
      unfold get_item, get_presupuesto. rewrite Ep, Ei. done.
  - simpl in Hin. apply list_elem_of_fmap in Hin as (t1 & -> & Ht1).
    case_bool_decide; [|by apply Hviejo].
    by exists item0, p0.
  - apply Hviejo. simpl in Hin. by apply list_elem_of_filter in Hin as [_ Hin].
Qed.

Lemma cambio_tablas db db' :
  cambio db db' → tablas_consistentes db → tablas_consistentes db'.
Proof.
  intros Hc (Hk & H0 & Hi & Ht).
  destruct (cambio_claves _ _ Hc Hk H0) as [Hk' H0'].
  split_and!; try done.
  - by apply (cambio_items db).
  - by apply (cambio_transacciones db).
Qed.

Lemma cambios_tablas db db' :
  rtc cambio db db' → tablas_consistentes db → tablas_consistentes db'.
Proof.
  induction 1 as [|db db1 db2 Hc _ IH]; [done|].
  intros Ht. apply IH. by apply (cambio_tablas db).
Qed.

Lemma cambios_cerrado db db' pk p :
  rtc cambio db db' → tablas_consistentes db →
  get_presupuesto db pk = Some p → pres_estado p = cerrado →
  get_presupuesto db' pk = Some p ∧ items_de db' pk = items_de db pk.
Proof.
  induction 1 as [|db db1 db2 Hc _ IH]; [done|].
  intros Ht Hp Hcer.
  destruct (cambio_cerrado _ _ _ _ Hc (proj1 Ht) Hp Hcer) as (Hp1 & Hi1 & _).
  destruct (IH (cambio_tablas _ _ Hc Ht) Hp1 Hcer) as [Hp2 Hi2].
  split; [done|]. by rewrite Hi2.
Qed.

(** ** Every view works by the elementary changes *)

Lemma estado_abierto (p : Presupuesto) : puede_modificar p = true → pres_estado p = abierto.
Proof. unfold puede_modificar. apply bool_decide_eq_true. Qed.

Lemma estado_no_cerrado (p : Presupuesto) :
  bool_decide (pres_estado p = cerrado) = false → pres_estado p = abierto.
Proof. intros H. apply bool_decide_eq_false in H. by destruct (pres_estado p). Qed.

Lemma usuario_registro_tablas db request db1 u :
  usuario_registro db request = (db1, u) →
  presupuestos db1 = presupuestos db ∧ items db1 = items db ∧
  transacciones db1 = transacciones db.
Proof.
  unfold usuario_registro, get_or_create_default_user, User_objects_create_user.
  repeat case_match; intros; simplify_eq; done.
Qed.

Lemma historial_create_tablas db c m mp ref obs u e db' :
  HistorialPago_objects_create db c m mp ref obs u e = Ok db' →
  presupuestos db' = presupuestos db ∧ items db' = items db ∧
  transacciones db' = transacciones db.
Proof.
  unfold HistorialPago_objects_create. destruct u; [|done]. by intros [= <-].
Qed.

Lemma cuenta_save_tablas db c db' :
  CuentaPorPagar_save db c = Ok db' →
  presupuestos db' = presupuestos db ∧ items db' = items db ∧
  transacciones db' = transacciones db.
Proof.
  unfold CuentaPorPagar_save. repeat case_match; try done; by intros [= <-].
Qed.

Lemma cambio_cuentas db db' :
  presupuestos db' = presupuestos db ∧ items db' = items db ∧
  transacciones db' = transacciones db →
  rtc cambio db db'.
Proof. intros (Hp & Hi & Ht). by apply rtc_once, cambio_otras_tablas. Qed.

Lemma registrar_pago_tablas hoy db request pk :
  let db' := db_final (registrar_pago hoy db request pk) in
  presupuestos db' = presupuestos db ∧ items db' = items db ∧
  transacciones db' = transacciones db.
Proof.
  unfold registrar_pago.
  destruct (get_cuenta db pk) as [c|]; [|done].
  destruct (negb _); [by destruct (XMLHttpRequest request)|].
  destruct (method request); [done|].
  destruct (usuario_registro db request) as [db1 u] eqn:Hu.
  destruct (usuario_registro_tablas _ _ _ _ Hu) as (Hp1 & Hi1 & Ht1).
  destruct u as [u|e]; [|by destruct (XMLHttpRequest request)].
  destruct (HistorialPago_objects_create _ _ _ _ _ _ _ _) as [db2|e] eqn:Hh;
    [|by destruct (XMLHttpRequest request)].
  destruct (historial_create_tablas _ _ _ _ _ _ _ _ _ Hh) as (Hp2 & Hi2 & Ht2).
  destruct (CuentaPorPagar_save _ _) as [db3|e] eqn:Hs.
  - destruct (cuenta_save_tablas _ _ _ Hs) as (Hp3 & Hi3 & Ht3).
    destruct (XMLHttpRequest request); simpl; split_and!; congruence.
  - destruct (XMLHttpRequest request); simpl; split_and!; congruence.
Qed.

Lemma anular_cuenta_tablas db request pk observaciones :
  let db' := db_final (anular_cuenta db request pk observaciones) in
  presupuestos db' = presupuestos db ∧ items db' = items db ∧
  transacciones db' = transacciones db.
Proof.
  unfold anular_cuenta.
  destruct (get_cuenta db pk) as [c|]; [|done].
  destruct (method request); [done|].
  destruct (negb _); [done|].
  destruct (usuario_registro db request) as [db1 u] eqn:Hu.
  destruct (usuario_registro_tablas _ _ _ _ Hu) as (Hp1 & Hi1 & Ht1).
  destruct u as [u|e]; [|done].
  destruct (HistorialPago_objects_create _ _ _ _ _ _ _ _) as [db2|e] eqn:Hh; [|done].
  destruct (historial_create_tablas _ _ _ _ _ _ _ _ _ Hh) as (Hp2 & Hi2 & Ht2).
  destruct (CuentaPorPagar_save _ _) as [db3|e] eqn:Hs.
  - destruct (cuenta_save_tablas _ _ _ Hs) as (Hp3 & Hi3 & Ht3).
    simpl; split_and!; congruence.
  - simpl; split_and!; congruence.
Qed.

Lemma crear_cuenta_tablas hoy db request d :
  let db' := db_final (crear_cuenta_por_pagar hoy db request d) in
  presupuestos db' = presupuestos db ∧ items db' = items db ∧
  transacciones db' = transacciones db.
Proof.
  unfold crear_cuenta_por_pagar.
  destruct (method request); [done|].
  destruct (CuentaPorPagarForm_is_valid hoy db d); [|done].
  destruct (CuentaPorPagar_save _ _) as [db3|e] eqn:Hs; [|done].
  by apply cuenta_save_tablas in Hs.
Qed.

Lemma eliminar_cuenta_tablas db request pk :
  let db' := salida_db (eliminar_cuenta_por_pagar db request pk) in
  presupuestos db' = presupuestos db ∧ items db' = items db ∧
  transacciones db' = transacciones db.
Proof.
  unfold eliminar_cuenta_por_pagar.
  destruct (get_cuenta db pk) as [c|]; [|done].
  destruct (negb _); [done|].
  by destruct (method request).
Qed.

Lemma crear_presupuesto_cambios hoy db request d :
  rtc cambio db (db_final (crear_presupuesto hoy db request d)).
Proof.
  unfold crear_presupuesto.
  destruct (method request); [done|].
  destruct (PresupuestoForm_errors hoy db d); [|done].
  destruct (clean_nombre db (post_nombre d)); [done|].
  by apply rtc_once, cambio_presupuesto_nuevo.
Qed.

Lemma editar_presupuesto_cambios hoy db request pk d :
  rtc cambio db (salida_db (editar_presupuesto hoy db request pk d)).
Proof.
  unfold editar_presupuesto.
  destruct (get_presupuesto db pk) as [p|] eqn:Hp; [|done].
  destruct (puede_modificar p) eqn:Ha; [|done]. apply estado_abierto in Ha.
  destruct (method request); [done|]. cbn [negb].
  destruct (PresupuestoForm_errors_de hoy db (pres_id p) d); [|done].
  destruct (clean_nombre_de db _ (post_nombre d)); [done|].
  destruct (get_presupuesto_Some _ _ _ Hp) as [Hid _].
  apply rtc_once. apply (cambio_presupuesto_guardado db p); [|done].
  simpl. by rewrite Hid.
Qed.

Lemma cerrar_presupuesto_cambios db request pk :
  rtc cambio db (salida_db (cerrar_presupuesto db request pk)).
Proof.
  unfold cerrar_presupuesto.
  destruct (get_presupuesto db pk) as [p|] eqn:Hp; [|done].
  destruct (method request); [done|].
  destruct (bool_decide (pres_estado p = cerrado)) eqn:Ha; [done|].
  apply estado_no_cerrado in Ha.
  destruct (get_presupuesto_Some _ _ _ Hp) as [Hid _].
  apply rtc_once. apply (cambio_presupuesto_guardado db p); [|done].
  simpl. by rewrite Hid.
Qed.

Lemma eliminar_presupuesto_cambios db request pk :
  rtc cambio db (salida_db (eliminar_presupuesto db request pk)).
Proof.
  unfold eliminar_presupuesto.
  destruct (get_presupuesto db pk) as [p|] eqn:Hp; [|done].
  destruct (bool_decide (pres_estado p = cerrado)) eqn:Ha; [done|].
  apply estado_no_cerrado in Ha.
  destruct (method request); [done|].
  destruct (get_presupuesto_Some _ _ _ Hp) as [Hid _].
  apply rtc_once. apply (cambio_presupuesto_eliminado db _ p); [|done].
  by rewrite Hid.
Qed.

Lemma agregar_item_cambios db request pk d :
  rtc cambio db (salida_db (agregar_item db request pk d)).
Proof.
  unfold agregar_item.
  destruct (get_presupuesto db pk) as [p|] eqn:Hp; [|done].
  destruct (puede_modificar p) eqn:Ha; [|done]. apply estado_abierto in Ha.
  destruct (method request); [done|]. cbn [negb].
  destruct (ItemPresupuestoForm_errors d); [|done].
  destruct (ItemPresupuesto_objects_create _ _ _ _ _) as [db'|e] eqn:Hc; [|done].
  destruct (get_presupuesto_Some _ _ _ Hp) as [Hid _].
  apply rtc_once. eapply (cambio_item_nuevo db _ p); [|done|exact Hc].
  by rewrite Hid.
Qed.

Lemma editar_item_cambios db request pk item_pk d :
  rtc cambio db (salida_db (editar_item db request pk item_pk d)).
Proof.
  unfold editar_item.
  destruct (get_presupuesto db pk) as [p|] eqn:Hp; [|done].
  destruct (get_item_en db item_pk (pres_id p)) as [item|] eqn:Hi; [|done].
  destruct (puede_modificar p) eqn:Ha; [|done]. apply estado_abierto in Ha.
  destruct (method request); [done|]. cbn [negb].
  destruct (ItemPresupuestoForm_errors d); [|done].
  destruct (ItemPresupuesto_save _ _) as [db'|e] eqn:Hs; [|done].
  destruct (get_presupuesto_Some _ _ _ Hp) as [Hid _].
  destruct (get_item_en_Some _ _ _ _ Hi) as (Hiid & Hipres & _).
  apply rtc_once.
  eapply (cambio_item_guardado db (pres_id p) p item); [| |  | |exact Hs]; simpl.
  - by rewrite Hid.
  - done.
  - by rewrite Hiid.
  - done.
Qed.

Lemma eliminar_item_cambios db request pk item_pk :
  rtc cambio db (salida_db (eliminar_item db request pk item_pk)).
Proof.
  unfold eliminar_item.
  destruct (get_presupuesto db pk) as [p|] eqn:Hp; [|done].
  destruct (get_item_en db item_pk (pres_id p)) as [item|] eqn:Hi; [|done].
  destruct (puede_modificar p) eqn:Ha; [|done]. apply estado_abierto in Ha.
  destruct (method request); [done|]. cbn [negb].
  destruct (get_presupuesto_Some _ _ _ Hp) as [Hid _].
  apply rtc_once.
  apply (cambio_item_eliminado db (pres_id p) p item_pk item); try done.
  by rewrite Hid.
Qed.

Lemma copiar_items_bucle_cambios origen destino d sel :
  ∀ db n,
    get_presupuesto db destino = Some d → pres_estado d = abierto →
    rtc cambio db (foldl (copiar_item origen destino) (db, n) sel).1.
Proof.
  induction sel as [|x sel IH]; intros db n Hd Ha; [done|]. cbn [foldl].
  unfold copiar_item at 2.
  destruct (get_item_de db x origen) as [o|]; [|by apply IH].
  destruct (ItemPresupuesto_objects_create _ _ _ _ _) as [db1|e] eqn:E; [|by apply IH].
  eapply rtc_l; [by eapply (cambio_item_nuevo db destino d)|].
  apply IH; [|done].
  destruct (items_create _ _ _ _ _ _ E) as (Ep & _ & _).
  unfold get_presupuesto. by rewrite Ep.
Qed.

Lemma copiar_items_cambios db request pk destino sel :
  rtc cambio db (db_final (copiar_items db request pk destino sel)).
Proof.
  unfold copiar_items.
  destruct (get_presupuesto db pk) as [o|]; [|done].
  destruct (method request); [done|].
  destruct destino as [destino|]; [|done].
  destruct (get_presupuesto db destino) as [d|] eqn:Hd; [|done].
  destruct (puede_modificar d) eqn:Ha; [|done]. apply estado_abierto in Ha.
  cbn [negb]. destruct sel as [|x sel]; [done|].
  destruct (get_presupuesto_Some _ _ _ Hd) as [Hid _].
  pose proof (copiar_items_bucle_cambios (pres_id o) (pres_id d) d (x :: sel) db 0%nat)
    as Hb.
  destruct (foldl _ _ _) as [db' n]. simpl in *. apply Hb; [|done].
  by rewrite Hid.
Qed.

Lemma copiar_todos_cambios nuevo d l :
  ∀ db (existentes : gset string) n,
    get_presupuesto db nuevo = Some d → pres_estado d = abierto →
    rtc cambio db (copiar_todos db nuevo existentes n l).1.1.
Proof.
  induction l as [|it l IH]; intros db ex n Hd Ha; [done|]. simpl.
  destruct (ItemPresupuesto_objects_create _ _ _ _ _) as [db1|e] eqn:E; [|done].
  eapply rtc_l; [by eapply (cambio_item_nuevo db nuevo d)|].
  apply IH; [|done].
  destruct (items_create _ _ _ _ _ _ E) as (Ep & _ & _).
  unfold get_presupuesto. by rewrite Ep.
Qed.

Lemma copiar_presupuesto_cambios hoy db request pk nombre :
  rtc cambio db (db_final (copiar_presupuesto hoy db request pk nombre)).
Proof.
  unfold copiar_presupuesto.
  destruct (get_presupuesto db pk) as [o|]; [|done].
  destruct (method request); [done|].
  destruct nombre as [nombre|]; [|done].
  destruct nombre as [|c s]; [done|].
  unfold Presupuesto_objects_create.
  set (nuevo := {| pres_id := nuevo_id (pres_id <$> presupuestos db);
                   pres_nombre := String c s;
                   pres_descripcion := pres_descripcion o;
                   pres_creado_por := pres_creado_por o;
                   pres_fecha_creacion := hoy;
                   pres_fecha_limite := pres_fecha_limite o;
                   pres_estado := abierto;
                   pres_periodo := pres_periodo o |}).
  cbv beta iota.
  match goal with
  | |- context [copiar_todos ?db1 ?k ?e ?n ?l] =>
      pose proof (copiar_todos_cambios k nuevo l db1 e n) as Hb;
      destruct (copiar_todos db1 k e n l) as [[db2 m] ex]
  end.
  simpl in Hb.
  assert (Hr : rtc cambio db db2).
  { apply (rtc_l _ _ (set_presupuestos db (presupuestos db ++ [nuevo]))).
    { by apply cambio_presupuesto_nuevo. }
    apply Hb; [|done].
    unfold get_presupuesto. simpl. rewrite filter_app.
    rewrite (filter_ninguno (λ p, pres_id p = nuevo_id (pres_id <$> presupuestos db))).
    - rewrite filter_cons, decide_True by done. done.
    - intros p Hp E. apply (nuevo_id_fresco (pres_id <$> presupuestos db)).
      rewrite <- E. by apply list_elem_of_fmap_2. }
  by destruct ex.
Qed.

Lemma crear_transaccion_simple_cambios db request d :
  rtc cambio db (db_final (crear_transaccion_simple db request d)).
Proof.
  unfold crear_transaccion_simple.
  destruct (method request); [done|].
  destruct (post_item_presupuesto d) as [i|]; [|done].
  destruct (post_trans_monto d) as [| |m]; [done| |];
    destruct (post_fecha_pago d); try done;
    destruct (bool_decide (post_metodo_pago d = "")); try done.
  simpl. destruct (m <? 0); [done|].
  destruct (get_item db i) as [item|] eqn:Hi; [|done].
  destruct (get_presupuesto db (item_presupuesto item)) as [p|] eqn:Hp; [|done].
  destruct (bool_decide (pres_estado p = cerrado)) eqn:He; [|done].
  apply bool_decide_eq_true in He. cbn [negb].
  destruct (Transaccion_objects_create _ _ _ _ _ _ _ _ _) as [db'|e] eqn:Hcr; [|done].
  simpl.
  destruct (get_presupuesto_Some _ _ _ Hp) as [Hid _].
  destruct (get_item_Some _ _ _ Hi) as [Hid' _].
  apply rtc_once.
  eapply (cambio_transaccion_nueva db _ _ item p); [| | |done|exact Hcr].
  - by rewrite Hid'.
  - done.
  - by rewrite Hid.
Qed.

Lemma registrar_transaccion_cambios db request pk d :
  claves_unicas db → 0%nat ∉ (pres_id <$> presupuestos db) →
  rtc cambio db (db_final (registrar_transaccion db request pk d)).
Proof.
  intros Hk H0. unfold registrar_transaccion.
  destruct (get_presupuesto db pk) as [p|] eqn:Hp; [|done].
  destruct (bool_decide (pres_estado p = cerrado)) eqn:He; [|done].
  apply bool_decide_eq_true in He. simpl.
  destruct (method request); [done|].
  destruct (TransaccionForm_errors db (Some pk) d) eqn:Herr; [|done].
  destruct (post_item_presupuesto d) as [i|] eqn:Hi; [|done].
  destruct (post_trans_monto d) as [| |m]; [done|done|].
  destruct (post_fecha_pago d); [|done].
  destruct (Transaccion_objects_create _ _ _ _ _ _ _ _ _) as [db'|e] eqn:Hcr; [|done].
  simpl.
  unfold TransaccionForm_errors in Herr. rewrite Hi in Herr.
  apply app_eq_nil in Herr as [Hq _].
  destruct (get_presupuesto_Some _ _ _ Hp) as [Hid Hin].
  destruct pk as [|n].
  { exfalso. apply H0. rewrite <- Hid. by apply list_elem_of_fmap_2. }
  destruct (queryset_item db (S n) i _ _ Hk eq_refl Hq) as (item & Hitem & Hpres).
  apply rtc_once.
  eapply (cambio_transaccion_nueva db _ _ item p); [exact Hitem| | |done|exact Hcr];
    by rewrite Hid.
Qed.

Lemma crear_transaccion_general_cambios db request d :
  rtc cambio db (db_final (crear_transaccion_general db request d)).
Proof.
  unfold crear_transaccion_general.
  destruct (method request); [done|].
  destruct (TransaccionForm_errors db None d); [|done].
  destruct (post_item_presupuesto d) as [i|]; [|done].
  destruct (post_trans_monto d) as [| |m]; [done|done|].
  destruct (post_fecha_pago d); [|done].
  destruct (get_item db i) as [item|] eqn:Hi; [|done].
  destruct (get_presupuesto db (item_presupuesto item)) as [p|] eqn:Hp; [|done].
  destruct (bool_decide (pres_estado p = cerrado)) eqn:He; [|done].
  apply bool_decide_eq_true in He. cbn [negb].
  destruct (Transaccion_objects_create _ _ _ _ _ _ _ _ _) as [db'|e] eqn:Hcr; [|done].
  simpl.
  destruct (get_presupuesto_Some _ _ _ Hp) as [Hid _].
  destruct (get_item_Some _ _ _ Hi) as [Hid' _].
  apply rtc_once.
  eapply (cambio_transaccion_nueva db _ _ item p); [| | |done|exact Hcr].
  - by rewrite Hid'.
  - done.
  - by rewrite Hid.
Qed.

Lemma editar_transaccion_cambios db request pk d :
  claves_unicas db → 0%nat ∉ (pres_id <$> presupuestos db) →
  rtc cambio db (salida_db (editar_transaccion_completa db request pk d)).
Proof.
  intros Hk H0. unfold editar_transaccion_completa.
  destruct (get_transaccion db pk) as [t0|]; [|done].
  destruct (get_presupuesto db (trans_presupuesto t0)) as [p|] eqn:Hp; [|done].
  destruct (bool_decide (pres_estado p = cerrado)) eqn:He; [|done].
  apply bool_decide_eq_true in He. simpl.
  destruct (method request); [done|].
  destruct (TransaccionForm_errors db (Some (pres_id p)) d) eqn:Herr; [|done].
  destruct (post_item_presupuesto d) as [i|] eqn:Hi; [|done].
  destruct (post_trans_monto d) as [| |m]; [done|done|].
  destruct (post_fecha_pago d) as [f|]; [|done]. simpl.
  destruct (get_presupuesto_Some _ _ _ Hp) as [Hid Hin].
  unfold TransaccionForm_errors in Herr. rewrite Hi in Herr.
  apply app_eq_nil in Herr as [Hq _].
  destruct (pres_id p) as [|n] eqn:Hn.
  { exfalso. apply H0. rewrite <- Hn. by apply list_elem_of_fmap_2. }
  destruct (queryset_item db (S n) i _ _ Hk eq_refl Hq) as (item & Hitem & Hpres).
  apply rtc_once.
  apply (cambio_transaccion_guardada db t0 item p
           {| trans_id := trans_id t0; trans_presupuesto := trans_presupuesto t0;
              trans_item_presupuesto := i; trans_monto := m;
              trans_metodo_pago := post_metodo_pago d;
              trans_referencia := post_referencia d; trans_fecha_pago := f;
              trans_observaciones := post_trans_observaciones d;
              trans_usuario := trans_usuario t0 |}); simpl; try done.
  congruence.
Qed.

Lemma eliminar_transaccion_cambios db request pk :
  rtc cambio db (salida_db (eliminar_transaccion_completa db request pk)).
Proof.
  unfold eliminar_transaccion_completa.
  destruct (get_transaccion db pk) as [t0|]; [|done].
  destruct (get_presupuesto db (trans_presupuesto t0)) as [p|]; [|done].
  destruct (negb _); [done|].
  destruct (method request); [done|]. simpl.
  apply rtc_once, cambio_transaccion_eliminada.
Qed.

(** Whatever the request, the tables after a view are reached from the
    tables before it by the elementary changes. *)
Lemma ejecutar_cambios hoy request db a :
  claves_unicas db → 0%nat ∉ (pres_id <$> presupuestos db) →
  rtc cambio db (ejecutar hoy request db a).
Proof.
  intros Hk H0. destruct a; simpl.
  - apply crear_presupuesto_cambios.
  - apply editar_presupuesto_cambios.
  - apply cerrar_presupuesto_cambios.
  - apply eliminar_presupuesto_cambios.
  - apply agregar_item_cambios.
  - apply editar_item_cambios.
  - apply eliminar_item_cambios.
  - apply copiar_items_cambios.
  - apply copiar_presupuesto_cambios.
  - by apply registrar_transaccion_cambios.
  - apply crear_transaccion_simple_cambios.
  - apply crear_transaccion_general_cambios.
  - by apply editar_transaccion_cambios.
  - apply eliminar_transaccion_cambios.
  - apply cambio_cuentas, crear_cuenta_tablas.
  - apply cambio_cuentas, registrar_pago_tablas.
  - apply cambio_cuentas, anular_cuenta_tablas.
  - apply cambio_cuentas, eliminar_cuenta_tablas.
Qed.

Lemma ejecutar_todos_cambios pasos :
  ∀ db, tablas_consistentes db → rtc cambio db (ejecutar_todos db pasos).
Proof.
  induction pasos as [|paso pasos IH]; intros db Ht; [done|].
  unfold ejecutar_todos. cbn [foldl].
  pose proof (ejecutar_cambios (paso_hoy paso) (paso_request paso) db (paso_accion paso)
                (proj1 Ht) (proj1 (proj2 Ht))) as Hc.
  etrans; [exact Hc|]. apply IH. by apply (cambios_tablas db).
Qed.

Lemma db_vacia_consistente : tablas_consistentes db_vacia.
Proof.
  split_and!.
  - split_and!; apply NoDup_nil_2.
  - apply not_elem_of_nil.
  - split; apply Forall_nil_2.
  - intros t Ht. by apply elem_of_nil in Ht.
Qed.

Lemma db_un_usuario_consistente : tablas_consistentes db_un_usuario.
Proof.
  split_and!.
  - split_and!; apply NoDup_nil_2.
  - apply not_elem_of_nil.
  - split; apply Forall_nil_2.
  - intros t Ht. by apply elem_of_nil in Ht.
Qed.

(** X20: whatever requests are sent to the eighteen writing views, in
    whatever order, well-formed tables stay well-formed: the keys of the
    budgets, items and transactions are unique and no budget has key zero,
    every item belongs to a stored budget, within a budget no two item
    names agree up to case, and every transaction points to a stored item
    of its own budget, which is stored and closed. *)
Theorem secuencia_consistente db pasos :
  tablas_consistentes db → tablas_consistentes (ejecutar_todos db pasos).
Proof.
  intros Ht. apply (cambios_tablas db); [|done]. by apply ejecutar_todos_cambios.
Qed.

Lemma secuencia_consistente_ejemplo :
  tablas_consistentes (ejecutar_todos db_un_usuario pasos_ejemplo) ∧
  length (transacciones (ejecutar_todos db_un_usuario pasos_ejemplo)) = 1%nat.
Proof.
  split; [|reflexivity].
  apply (secuencia_consistente db_un_usuario pasos_ejemplo).
  split_and!.
  - split_and!; apply NoDup_nil_2.
  - apply not_elem_of_nil.
  - split; apply Forall_nil_2.
  - intros t Ht. by apply elem_of_nil in Ht.
Defined.

(** X21: a closed budget is permanent. Starting from well-formed tables,
    no sequence of requests to the writing views changes the row of a
    closed budget, the list of its items or its total: it is never
    reopened, renamed or deleted, and its items are never added to,
    edited or removed. *)
Theorem presupuesto_cerrado_permanente db pasos pk p :
  tablas_consistentes db →
  get_presupuesto db pk = Some p → pres_estado p = cerrado →
  get_presupuesto (ejecutar_todos db pasos) pk = Some p ∧
  items_de (ejecutar_todos db pasos) pk = items_de db pk ∧
  total (ejecutar_todos db pasos) p = total db p.
Proof.
  intros Ht Hp Hc.
  destruct (cambios_cerrado db (ejecutar_todos db pasos) pk p
              (ejecutar_todos_cambios pasos db Ht) Ht Hp Hc) as [Hp' Hi'].
  split_and!; [done|done|].
  destruct (get_presupuesto_Some _ _ _ Hp) as [Hid _].
  unfold total. by rewrite Hid, Hi'.
Qed.

Lemma presupuesto_cerrado_permanente_supplies :
  (get_presupuesto (ejecutar_todos db_supplies pasos_sobre_presupuesto) 1
   = Some (presupuesto_ejemplo 1 "Jan-2025" cerrado) ∧
   items_de (ejecutar_todos db_supplies pasos_sobre_presupuesto) 1 = items_de db_supplies 1 ∧
   total (ejecutar_todos db_supplies pasos_sobre_presupuesto)
         (presupuesto_ejemplo 1 "Jan-2025" cerrado)
   = total db_supplies (presupuesto_ejemplo 1 "Jan-2025" cerrado)) ∧
  length (transacciones (ejecutar_todos db_supplies pasos_sobre_presupuesto)) = 1%nat.
Proof.
  split; [|reflexivity].
  apply (presupuesto_cerrado_permanente db_supplies pasos_sobre_presupuesto 1
           (presupuesto_ejemplo 1 "Jan-2025" cerrado)).
  - split_and!.
    + split_and!; simpl; first [apply NoDup_singleton | apply NoDup_nil_2].
    + simpl. intros H. apply list_elem_of_singleton in H. discriminate.
    + apply (bool_decide_unpack (items_consistentes db_supplies)). vm_compute. exact I.
    + intros t Ht. by apply elem_of_nil in Ht.
  - reflexivity.
  - reflexivity.
Defined.

(** X22: an open budget has no transactions. Starting from well-formed
    tables, after any sequence of requests to the writing views no stored
    transaction belongs to a budget that is open, so the executed total
    of an open budget is zero. *)
Theorem presupuesto_abierto_sin_transacciones db pasos pk p :
  tablas_consistentes db →
  get_presupuesto (ejecutar_todos db pasos) pk = Some p → pres_estado p = abierto →
  filter (λ t, trans_presupuesto t = pk) (transacciones (ejecutar_todos db pasos)) = [] ∧
  total_transacciones (ejecutar_todos db pasos) p = 0.
Proof.
  intros Ht Hp Ha.
  pose proof (cambios_tablas db _ (ejecutar_todos_cambios pasos db Ht) Ht)
    as (_ & _ & _ & Htr).
  destruct (get_presupuesto_Some _ _ _ Hp) as [Hid _].
  assert (Hf : filter (λ t, trans_presupuesto t = pk)
                 (transacciones (ejecutar_todos db pasos)) = []).
  { apply filter_ninguno. intros t Hin E.
    destruct (Htr t Hin) as (item & q & _ & _ & Hq & Hc).
    rewrite E, Hp in Hq. simplify_eq. congruence. }
  split; [done|]. unfold total_transacciones. by rewrite Hid, Hf.
Qed.

Lemma presupuesto_abierto_sin_transacciones_enero :
  filter (λ t, trans_presupuesto t = 1%nat)
         (transacciones (ejecutar_todos db_enero pasos_de_pago)) = [] ∧
  total_transacciones (ejecutar_todos db_enero pasos_de_pago)
                      (presupuesto_ejemplo 1 "enero" abierto) = 0.
Proof.
  apply (presupuesto_abierto_sin_transacciones db_enero pasos_de_pago 1
           (presupuesto_ejemplo 1 "enero" abierto)).
  - split_and!.
    + split_and!; simpl; first [apply NoDup_singleton | apply NoDup_nil_2].
    + simpl. intros H. apply list_elem_of_singleton in H. discriminate.
    + apply (bool_decide_unpack (items_consistentes db_enero)). vm_compute. exact I.
    + intros t Ht. by apply elem_of_nil in Ht.
  - reflexivity.
  - reflexivity.
Defined.
